(** * go-dotignore: gitignore-style matching, embedded in Rocq

    The development follows the Go sources:
    - [internal/util.go]: [ReadLines], and [BuildRegex] with its helpers, in
      the version that calls them and in the version that has their work
      in its loop;
    - [dotignore.go]: [ignorePattern], [buildIgnorePatterns],
      [PatternMatcher], [NewPatternMatcherFromReader] and the per-pattern
      matching functions;
    - [repository.go]: [RepositoryMatcher.Matches] and the accessors
      [RootDir], [IgnoreFileCount] and [IgnoreFilePaths].

    The functions that work on the file system ([NewPatternMatcherFromFile],
    [NewRepositoryMatcher], [NewRepositoryMatcherWithConfig] and
    [discoverIgnoreFiles]) are not part of the development.

    A Go string is modelled as a [string], one byte per character.  The
    parts of the Go standard library the program calls ([strings], [regexp],
    [path/filepath] on a POSIX build) are modelled in modules of the same
    name, on single-byte characters: the model is exact on ASCII text.  What
    the library does with multi-byte UTF-8 (regexp reads code points and
    rejects an expression that is not valid UTF-8, TrimSpace knows the
    Unicode white space) is outside the model. *)

From Stdlib Require Import Ascii String List Bool Arith Lia.
From stdpp Require Import base option list strings gmap.

Local Open Scope stdpp_scope.
Set Warnings "-register-all".

(** ** Package [strings] of the Go standard library *)

Module strings.

(** [strings.HasPrefix] *)
Fixpoint HasPrefix (s prefix : string) {struct prefix} : bool :=
  match prefix, s with
  | EmptyString, _ => true
  | String p ps, String c cs => Ascii.eqb c p && HasPrefix cs ps
  | String _ _, EmptyString => false
  end.

(** [s[n:]] for [n <= len(s)] *)
Fixpoint drop (n : nat) (s : string) : string :=
  match n, s with
  | S k, String _ t => drop k t
  | _, _ => s
  end.

(** [s[:n]] for [n <= len(s)] *)
Fixpoint take (n : nat) (s : string) : string :=
  match n, s with
  | S k, String c t => String c (take k t)
  | _, _ => EmptyString
  end.

(** [strings.HasSuffix] *)
Definition HasSuffix (s suffix : string) : bool :=
  (String.length suffix <=? String.length s) &&
  String.eqb (drop (String.length s - String.length suffix) s) suffix.

(** [strings.TrimPrefix] and [strings.TrimSuffix] *)
Definition TrimPrefix (s prefix : string) : string :=
  if HasPrefix s prefix then drop (String.length prefix) s else s.

Definition TrimSuffix (s suffix : string) : string :=
  if HasSuffix s suffix
  then take (String.length s - String.length suffix) s else s.

(** [strings.Contains] *)
Fixpoint Contains (s substr : string) : bool :=
  HasPrefix s substr ||
  match s with
  | EmptyString => false
  | String _ t => Contains t substr
  end.

(** [strings.Index]: byte offset of the first occurrence of [substr]. *)
Fixpoint Index (s substr : string) : option nat :=
  if HasPrefix s substr then Some 0
  else match s with
       | EmptyString => None
       | String _ t => option_map S (Index t substr)
       end.

(** [strings.ContainsAny] *)
Fixpoint mem (c : ascii) (chars : string) : bool :=
  match chars with
  | EmptyString => false
  | String d t => Ascii.eqb c d || mem c t
  end.

Fixpoint ContainsAny (s chars : string) : bool :=
  match s with
  | EmptyString => false
  | String c t => mem c chars || ContainsAny t chars
  end.

(** [strings.Split(s, sep)] for a one-byte separator, the only way the
    program calls it.  The result is never empty. *)
Fixpoint Split (s : string) (sep : ascii) : list string :=
  match s with
  | EmptyString => [EmptyString]
  | String c t =>
      if Ascii.eqb c sep then EmptyString :: Split t sep
      else match Split t sep with
           | h :: r => String c h :: r
           | [] => [String c EmptyString]
           end
  end.

(** [strings.Join] *)
Fixpoint Join (elems : list string) (sep : string) : string :=
  match elems with
  | [] => EmptyString
  | [x] => x
  | x :: rest => x +:+ sep +:+ Join rest sep
  end.

(** [strings.ReplaceAll(s, old, new)] for one-byte [old] and [new]. *)
Fixpoint ReplaceAll (s : string) (old new : ascii) : string :=
  match s with
  | EmptyString => EmptyString
  | String c t =>
      String (if Ascii.eqb c old then new else c) (ReplaceAll t old new)
  end.

(** White space of [strings.TrimSpace] among the single-byte characters:
    tab, line feed, vertical tab, form feed, carriage return, space. *)
Definition isSpace (c : ascii) : bool :=
  match c with
  | "009" | "010" | "011" | "012" | "013" | " " => true
  | _ => false
  end%char.

Fixpoint TrimLeft (s : string) : string :=
  match s with
  | EmptyString => EmptyString
  | String c t => if isSpace c then TrimLeft t else s
  end.

Fixpoint TrimRight (s : string) : string :=
  match s with
  | EmptyString => EmptyString
  | String c t =>
      match TrimRight t with
      | EmptyString => if isSpace c then EmptyString else String c EmptyString
      | t' => String c t'
      end
  end.

(** [strings.TrimSpace] *)
Definition TrimSpace (s : string) : string := TrimRight (TrimLeft s).

End strings.

(** ** Package [regexp] of the Go standard library

    [regexp.Compile] parses an expression of the RE2 syntax (Perl flags) and
    [Regexp.MatchString] reports whether the text holds a match.  The model
    covers the syntax [internal.BuildRegex] can write: literals, escaped
    punctuation, [.], [^], [$], capture groups, the repetitions [*], [+],
    [?] and their lazy forms, and bracket expressions with ranges, negation
    and POSIX class names.  Alternation, counted repetition, group flags and
    letter or digit escapes are never written by [BuildRegex] for a body
    that holds no backslash, and [Compile] gives no program for them.
    One byte is read as one character. *)

Module regexp.

Definition backslash : ascii := "092"%char.
Definition newline : ascii := "010"%char.

(** An item of a bracket expression: a range, or the complement of a
    POSIX class written [[:^name:]]. *)
Inductive citem : Type :=
| CRange (lo hi : ascii)
| CNot (ranges : list (ascii * ascii)).

Inductive node : Type :=
| BeginText
| EndText
| Lit (c : ascii)
| AnyNotNL
| Class (neg : bool) (items : list citem)
| Star (r : node)
| Plus (r : node)
| Quest (r : node)
| Group (rs : list node).

(** A compiled expression: the concatenation of its nodes. *)
Definition Regexp : Type := list node.

(** *** Parsing *)

Definition isAlnum (c : ascii) : bool :=
  let n := nat_of_ascii c in
  ((48 <=? n) && (n <=? 57)) || ((65 <=? n) && (n <=? 90)) ||
  ((97 <=? n) && (n <=? 122)).

(** A backslash followed by ASCII punctuation stands for that character. *)
Definition isPunct (c : ascii) : bool :=
  (nat_of_ascii c <? 128) && negb (isAlnum c).

Definition posixGroup (name : string) : option (list (ascii * ascii)) :=
  let r (a b : nat) := (ascii_of_nat a, ascii_of_nat b) in
  if String.eqb name "alnum" then Some [r 48 57; r 65 90; r 97 122]
  else if String.eqb name "alpha" then Some [r 65 90; r 97 122]
  else if String.eqb name "ascii" then Some [r 0 127]
  else if String.eqb name "blank" then Some [r 9 9; r 32 32]
  else if String.eqb name "cntrl" then Some [r 0 31; r 127 127]
  else if String.eqb name "digit" then Some [r 48 57]
  else if String.eqb name "graph" then Some [r 33 126]
  else if String.eqb name "lower" then Some [r 97 122]
  else if String.eqb name "print" then Some [r 32 126]
  else if String.eqb name "punct"
       then Some [r 33 47; r 58 64; r 91 96; r 123 126]
  else if String.eqb name "space" then Some [r 9 13; r 32 32]
  else if String.eqb name "upper" then Some [r 65 90]
  else if String.eqb name "word" then Some [r 48 57; r 65 90; r 97 122; r 95 95]
  else if String.eqb name "xdigit" then Some [r 48 57; r 65 70; r 97 102]
  else None.

(** [[:name:]] inside a bracket expression, read at the byte [c] with [t]
    after it.  [None]: no class name starts here.  [Some None]: a name
    that is not in the table.  Otherwise the items and the number of
    bytes of [t] the name takes. *)
Definition namedClass (c : ascii) (t : string)
  : option (option (list citem * nat)) :=
  match c, t with
  | "[", String ":" t1 =>
      match strings.Index t1 ":]" with
      | None => None
      | Some i =>
          let name := strings.take i t1 in
          Some match name with
               | String "^" name' =>
                   match posixGroup name' with
                   | Some rs => Some ([CNot rs], i + 3)
                   | None => None
                   end
               | _ =>
                   match posixGroup name with
                   | Some rs =>
                       Some (map (fun '(lo, hi) => CRange lo hi) rs, i + 3)
                   | None => None
                   end
               end
      end
  | _, _ => None
  end%char.

(** One character of a bracket expression, read at [c] with [t] after it:
    the character and the number of bytes of [t] it takes. *)
Definition classChar (c : ascii) (t : string) : option (ascii * nat) :=
  if Ascii.eqb c backslash then
    match t with
    | String d _ => if isPunct d then Some (d, 1) else None
    | EmptyString => None
    end
  else Some (c, 0).

(** The items of a bracket expression up to its closing bracket; [n]
    counts the bytes read.  The end of the text before the closing
    bracket is an error, and so is a range whose bounds are reversed. *)
Fixpoint classLoop (skip : nat) (first : bool) (acc : list citem)
    (n : nat) (s : string) : option (list citem * nat) :=
  match s with
  | EmptyString => None
  | String c t =>
      match skip with
      | S k => classLoop k first acc (S n) t
      | O =>
          if Ascii.eqb c "]" && negb first then Some (rev acc, S n)
          else
            match namedClass c t with
            | Some None => None
            | Some (Some (items, len)) =>
                classLoop len false (rev items ++ acc) (S n) t
            | None =>
                match classChar c t with
                | None => None
                | Some (lo, used) =>
                    match strings.drop used t with
                    | String "-" (String d t'') =>
                        if Ascii.eqb d "]"
                        then classLoop used false (CRange lo lo :: acc) (S n) t
                        else
                          match classChar d t'' with
                          | None => None
                          | Some (hi, used') =>
                              if (nat_of_ascii hi <? nat_of_ascii lo)%nat then None
                              else classLoop (used + 2 + used') false
                                     (CRange lo hi :: acc) (S n) t
                          end
                    | _ => classLoop used false (CRange lo lo :: acc) (S n) t
                    end
                end
            end
      end
  end%char.

(** The bracket expression whose text after the opening bracket is [t]:
    its node and the number of bytes of [t] it takes. *)
Definition parseClass (t : string) : option (node * nat) :=
  match t with
  | String "^" t' =>
      match classLoop 0 true [] 0 t' with
      | Some (items, n) => Some (Class true items, S n)
      | None => None
      end
  | _ =>
      match classLoop 0 true [] 0 t with
      | Some (items, n) => Some (Class false items, n)
      | None => None
      end
  end%char.

Definition repeat (op : ascii) (r : node) : node :=
  match op with
  | "*" => Star r
  | "+" => Plus r
  | _ => Quest r
  end%char.

(** The parser: [stack] holds the sequences of the groups that are open,
    [cur] the sequence being read (last node first), [rep] tells that the
    node just read is a repetition, [skip] counts bytes already used. *)
Fixpoint parse (skip : nat) (stack : list (list node)) (cur : list node)
    (rep : bool) (s : string) : option Regexp :=
  match s with
  | EmptyString =>
      match stack with
      | [] => Some (rev cur)
      | _ :: _ => None
      end
  | String c t =>
      match skip with
      | S k => parse k stack cur rep t
      | O =>
          match c with
          | "(" =>
              if strings.HasPrefix t "?" then None
              else parse 0 (cur :: stack) [] false t
          | ")" =>
              match stack with
              | [] => None
              | outer :: stack' =>
                  parse 0 stack' (Group (rev cur) :: outer) false t
              end
          | "*" | "+" | "?" =>
              if rep then None
              else match cur with
                   | [] => None
                   | r :: cur' =>
                       parse (if strings.HasPrefix t "?" then 1 else 0)
                         stack (repeat c r :: cur') true t
                   end
          | "|" | "{" => None
          | "." => parse 0 stack (AnyNotNL :: cur) false t
          | "^" => parse 0 stack (BeginText :: cur) false t
          | "$" => parse 0 stack (EndText :: cur) false t
          | "092" =>
              match t with
              | String d _ =>
                  if isPunct d then parse 1 stack (Lit d :: cur) false t
                  else None
              | EmptyString => None
              end
          | "[" =>
              match parseClass t with
              | Some (cls, n) => parse n stack (cls :: cur) false t
              | None => None
              end
          | _ => parse 0 stack (Lit c :: cur) false t
          end
      end
  end%char.

(** [regexp.Compile]; [None] stands for the error result. *)
Definition Compile (expr : string) : option Regexp := parse 0 [] [] false expr.

(** *** Matching *)

(** A position in the text: whether it is the start of the text, and the
    text that remains. *)
Definition pos : Type := bool * string.

Definition inRange (c lo hi : ascii) : bool :=
  (nat_of_ascii lo <=? nat_of_ascii c) && (nat_of_ascii c <=? nat_of_ascii hi).

Definition inItem (c : ascii) (it : citem) : bool :=
  match it with
  | CRange lo hi => inRange c lo hi
  | CNot rs => negb (existsb (fun '(lo, hi) => inRange c lo hi) rs)
  end.

Definition inClass (neg : bool) (items : list citem) (c : ascii) : bool :=
  xorb neg (existsb (inItem c) items).

(** One character accepted by [ok]. *)
Definition oneChar (ok : ascii -> bool) (p : pos) : list pos :=
  match p.2 with
  | String d t => if ok d then [(false, t)] else []
  | EmptyString => []
  end.

(** Zero or more rounds of [f], each of which uses some of the text. *)
Fixpoint closure (f : pos -> list pos) (fuel : nat) (p : pos) : list pos :=
  p :: match fuel with
       | O => []
       | S k =>
           flat_map (closure f k)
             (List.filter (fun q => String.length q.2 <? String.length p.2) (f p))
       end.

(** The positions at which a match of [r] that starts at [p] can end. *)
Fixpoint step (r : node) (p : pos) : list pos :=
  match r with
  | BeginText => if p.1 then [p] else []
  | EndText => match p.2 with EmptyString => [p] | _ => [] end
  | Lit c => oneChar (Ascii.eqb c) p
  | AnyNotNL => oneChar (fun d => negb (Ascii.eqb d newline)) p
  | Class neg items => oneChar (inClass neg items) p
  | Star r' => closure (step r') (String.length p.2) p
  | Plus r' =>
      flat_map (fun q => closure (step r') (String.length q.2) q) (step r' p)
  | Quest r' => step r' p ++ [p]
  | Group rs => fold_left (fun ps r' => flat_map (step r') ps) rs [p]
  end.

(** The positions at which a match of the sequence [re] that starts at
    one of [ps] can end. *)
Definition runAll (re : list node) (ps : list pos) : list pos :=
  fold_left (fun ps r => flat_map (step r) ps) re ps.

Definition run (re : Regexp) (p : pos) : list pos := runAll re [p].

Definition matchAt (re : Regexp) (p : pos) : bool :=
  match run re p with
  | [] => false
  | _ :: _ => true
  end.

(** Every position of the text; only the first is the start of the text. *)
Fixpoint starts (atStart : bool) (s : string) : list pos :=
  (atStart, s) ::
  match s with
  | EmptyString => []
  | String _ t => starts false t
  end.

(** [Regexp.MatchString]: is there a match somewhere in [s]. *)
Definition MatchString (re : Regexp) (s : string) : bool :=
  existsb (matchAt re) (starts true s).

End regexp.

(** ** [internal/util.go] *)

Module internal.

Import regexp.

(** [isRegexMetaChar] *)
Definition isRegexMetaChar (char : ascii) : bool :=
  match char with
  | "." | "+" | "*" | "?" | "^" | "$" | "(" | ")" | "[" | "]" | "{" | "}"
  | "|" | "092" => true
  | _ => false
  end%char.

(** The three helpers below are given [rest], the pattern after index [i],
    and return what they write to the builder together with the distance
    between the index they return and [i]. *)

(** [writeWildcard] *)
Definition writeWildcard (rest : string) : string * nat :=
  match rest with
  | String "*"%char (String "/"%char _) => ("(.*?/)?", 2)
  | String "*"%char _ => (".*", 1)
  | _ => ("[^/]*", 0)
  end.

(** [writeCharClass]: [j] is the index of the first closing bracket. *)
Definition writeCharClass (rest : string) : string * nat :=
  match strings.Index rest "]" with
  | Some k => (String "[" (strings.take (S k) rest), S k)
  | None => (String backslash "[", 0)
  end.

(** [writeEscaped] *)
Definition writeEscaped (rest : string) : string * nat :=
  match rest with
  | String c _ =>
      (if isRegexMetaChar c then String backslash (String c EmptyString)
       else String c EmptyString, 1)
  | EmptyString => (String backslash (String backslash EmptyString), 0)
  end.

(** The loop of [BuildRegex] from index [i] on, [pattern] being the text
    from [i - skip] on: the bytes a helper has consumed are skipped. *)
Fixpoint translate (skip : nat) (pattern : string) : string :=
  match pattern with
  | EmptyString => EmptyString
  | String char rest =>
      match skip with
      | S k => translate k rest
      | O =>
          let '(out, adv) :=
            match char with
            | "*" => writeWildcard rest
            | "?" => ("[^/]"%string, 0)
            | "[" => writeCharClass rest
            | "." | "+" | "^" | "$" | "(" | ")" | "{" | "}" | "|" =>
                (String backslash (String char EmptyString), 0)
            | "092" => writeEscaped rest
            | _ => (String char EmptyString, 0)
            end%char in
          out +:+ translate adv rest
      end
  end.

(** The expression [BuildRegex] hands to [regexp.Compile]. *)
Definition regexString (pattern : string) : string :=
  "^" +:+ translate 0 pattern +:+ "$".

(** [BuildRegex]; [None] stands for the error result. *)
Definition BuildRegex (pattern : string) : option Regexp :=
  if String.eqb pattern "" then None
  else Compile (regexString pattern).

End internal.

(** ** Package [path/filepath] of the Go standard library, POSIX build

    The separator is the slash, so [filepath.ToSlash] changes nothing and
    there are no volume names. *)

Module filepath.

(** The elements of a cleaned path, last element first in [out]: empty
    elements and [.] are dropped, [..] removes the element before it, is
    dropped at the root, and is kept at the head of a relative path. *)
Fixpoint cleanElems (rooted : bool) (elems out : list string) : list string :=
  match elems with
  | [] => rev out
  | e :: rest =>
      if String.eqb e "" || String.eqb e "." then cleanElems rooted rest out
      else if String.eqb e ".." then
        match out with
        | top :: out' =>
            if String.eqb top ".." then cleanElems rooted rest (e :: out)
            else cleanElems rooted rest out'
        | [] =>
            if rooted then cleanElems rooted rest []
            else cleanElems rooted rest [e]
        end
      else cleanElems rooted rest (e :: out)
  end.

(** [filepath.Clean] *)
Definition Clean (path : string) : string :=
  if String.eqb path "" then "."
  else
    let rooted := strings.HasPrefix path "/" in
    let out :=
      (if rooted then "/" else "") +:+
      strings.Join (cleanElems rooted (strings.Split path "/"%char) []) "/" in
    if String.eqb out "" then "." else out.

(** [filepath.IsAbs] *)
Definition IsAbs (path : string) : bool := strings.HasPrefix path "/".

(** [filepath.ToSlash] *)
Definition ToSlash (path : string) : string := path.

(** [filepath.Join] of two elements *)
Definition Join (a b : string) : string :=
  if negb (String.eqb a "") then Clean (a +:+ "/" +:+ b)
  else if negb (String.eqb b "") then Clean b
  else "".

(** The elements [filepath.Rel] compares, of a cleaned path. *)
Definition elements (path : string) : list string :=
  if String.eqb path "" then []
  else if String.eqb path "/" then [EmptyString]
  else strings.Split path "/"%char.

(** The elements left of base and target after their common prefix. *)
Fixpoint dropCommon (base targ : list string) : list string * list string :=
  match base, targ with
  | b :: base', t :: targ' =>
      if String.eqb b t then dropCommon base' targ' else (base, targ)
  | _, _ => (base, targ)
  end.

(** [filepath.Rel]; [None] stands for the error result. *)
Definition Rel (basepath targpath : string) : option string :=
  let base := Clean basepath in
  let targ := Clean targpath in
  if String.eqb targ base then Some "."
  else
    let base := if String.eqb base "." then "" else base in
    if negb (Bool.eqb (strings.HasPrefix base "/") (strings.HasPrefix targ "/"))
    then None
    else
      let '(b, t) := dropCommon (elements base) (elements targ) in
      match b, t with
      | b0 :: _, _ :: _ =>
          if String.eqb b0 ".." then None
          else Some (strings.Join (map (fun _ => "..") b ++ t) "/")
      | _ :: _, [] => Some (strings.Join (map (fun _ => "..") b) "/")
      | [], _ => Some (strings.Join t "/")
      end.

End filepath.

(** ** [dotignore.go] *)

Import regexp.

Inductive result (E A : Type) : Type :=
| Ok (a : A)
| Err (e : E).
Arguments Ok {E A} a.
Arguments Err {E A} e.

Record ignorePattern : Type := {
  pattern : string;
  regexPattern : Regexp;
  isDirectory : bool;
  negate : bool;
  hasWildcard : bool;
  isRootRelative : bool
}.

(** [PatternMatcher] *)
Record PatternMatcher : Type := {
  ignorePatterns : list ignorePattern
}.

(** The errors of [buildIgnorePatterns], with the line number they report. *)
Inductive buildError : Type :=
| ErrSingleBang (line : nat)
| ErrEmptyPattern (line : nat)
| ErrBuildRegex (line : nat).

(** What one round of the loop of [buildIgnorePatterns] does with a line. *)
Inductive lineResult : Type :=
| Skipped
| Failed (e : buildError)
| Compiled (p : ignorePattern).

(** The negation step: the text that remains and the flag [isNegation]. *)
Definition stripNegation (i : nat) (pat : string)
  : result buildError (string * bool) :=
  if strings.HasPrefix pat (String backslash "!") then
    Ok (strings.drop 1 pat, false)
  else if strings.HasPrefix pat "!" then
    if String.length pat =? 1 then Err (ErrSingleBang (i + 1))
    else Ok (strings.drop 1 pat, true)
  else Ok (pat, false).

(** The rest of the loop body, once the negation mark is off: separators,
    root anchor, directory mark, empty check, wildcard flag and regex. *)
Definition compileBody (i : nat) (pat : string) (isNegation : bool) : lineResult :=
  let pat := strings.ReplaceAll pat backslash "/" in
  let isRootRelative := strings.HasPrefix pat "/" in
  let pat := if isRootRelative then strings.TrimPrefix pat "/" else pat in
  let isDirectory := strings.HasSuffix pat "/" in
  let pat := if isDirectory then strings.TrimSuffix pat "/" else pat in
  if String.eqb pat "" then Failed (ErrEmptyPattern (i + 1))
  else
    let hasWildcard := strings.ContainsAny pat "*?" in
    match internal.BuildRegex pat with
    | None => Failed (ErrBuildRegex (i + 1))
    | Some re =>
        Compiled {| pattern := pat;
                    regexPattern := re;
                    isDirectory := isDirectory;
                    negate := isNegation;
                    hasWildcard := hasWildcard;
                    isRootRelative := isRootRelative |}
    end.

(** The body of the loop of [buildIgnorePatterns] for the line of index [i]. *)
Definition compileLine (i : nat) (line : string) : lineResult :=
  let pat := strings.TrimSpace line in
  if String.eqb pat "" || strings.HasPrefix pat "#" then Skipped
  else
    match stripNegation i pat with
    | Err e => Failed e
    | Ok (pat, isNegation) => compileBody i pat isNegation
    end.

Fixpoint buildLoop (i : nat) (patterns : list string)
    (ignorePatterns : list ignorePattern)
  : result buildError (list ignorePattern) :=
  match patterns with
  | [] => Ok ignorePatterns
  | line :: rest =>
      match compileLine i line with
      | Skipped => buildLoop (S i) rest ignorePatterns
      | Failed e => Err e
      | Compiled p => buildLoop (S i) rest (ignorePatterns ++ [p])
      end
  end.

Definition buildIgnorePatterns (patterns : list string)
  : result buildError (list ignorePattern) :=
  buildLoop 0 patterns [].

Definition NewPatternMatcher (patterns : list string)
  : result buildError PatternMatcher :=
  match buildIgnorePatterns patterns with
  | Err e => Err e
  | Ok ps => Ok {| ignorePatterns := ps |}
  end.

(** [s[i] == c], false when [i] is out of range (the program guards every
    index with a length test). *)
Definition byteIs (s : string) (i : nat) (c : ascii) : bool :=
  match String.get i s with
  | Some d => Ascii.eqb d c
  | None => false
  end.

Definition matchRootRelativePattern (file : string) (pat : ignorePattern) : bool :=
  if MatchString pat.(regexPattern) file then true
  else if pat.(isDirectory) then
    let dirName := pat.(pattern) in
    String.eqb file dirName || String.eqb file (dirName +:+ "/") ||
    strings.HasPrefix file (dirName +:+ "/")
  else
    String.eqb file pat.(pattern) ||
    strings.HasPrefix file (pat.(pattern) +:+ "/").

Definition matchDirectoryPattern (file : string) (pat : ignorePattern) : bool :=
  let dirName := pat.(pattern) in
  if String.eqb file dirName then true
  else if (String.length dirName <? String.length file) &&
          byteIs file (String.length dirName) "/" &&
          String.eqb (strings.take (String.length dirName) file) dirName
  then true
  else (String.length file =? String.length dirName + 1) &&
       byteIs file (String.length file - 1) "/" &&
       String.eqb (strings.take (String.length dirName) file) dirName.

Definition matchWildcardSubpaths (file : string) (pat : ignorePattern) : bool :=
  let parts := strings.Split file "/"%char in
  if existsb
       (fun i => MatchString pat.(regexPattern) (strings.Join (drop i parts) "/"))
       (seq 0 (length parts))
  then true
  else
    existsb
      (fun i =>
         MatchString pat.(regexPattern)
           (strings.Join (take i parts) "/" +:+ "/" +:+
            strings.Join (drop i parts) "/"))
      (seq 1 (length parts - 1)).

Definition matchPathSeparatorPattern (file : string) (pat : ignorePattern) : bool :=
  if String.eqb file pat.(pattern) then true
  else
    let patternLen := String.length pat.(pattern) in
    if (patternLen <? String.length file) && byteIs file patternLen "/" &&
       String.eqb (strings.take patternLen file) pat.(pattern)
    then true
    else if (patternLen <? String.length file) &&
            String.eqb (strings.drop (String.length file - patternLen) file)
              pat.(pattern) &&
            byteIs file (String.length file - patternLen - 1) "/"
    then true
    else strings.Contains file ("/" +:+ pat.(pattern) +:+ "/").

Definition matchSimplePattern (file : string) (pat : ignorePattern) : bool :=
  existsb (MatchString pat.(regexPattern)) (strings.Split file "/"%char).

(** [matchPattern]; the error it returns in Go is always nil. *)
Definition matchPattern (file : string) (pat : ignorePattern) : bool :=
  if pat.(isRootRelative) then matchRootRelativePattern file pat
  else if MatchString pat.(regexPattern) file then true
  else if pat.(isDirectory) && matchDirectoryPattern file pat then true
  else if pat.(hasWildcard) && matchWildcardSubpaths file pat then true
  else if strings.Contains pat.(pattern) "/" then matchPathSeparatorPattern file pat
  else matchSimplePattern file pat.

(** [matchesInternal] *)
Definition matchesInternal (p : PatternMatcher) (file : string) : bool :=
  fold_left
    (fun matched pat => if matchPattern file pat then negb pat.(negate) else matched)
    p.(ignorePatterns) false.

(** [PatternMatcher.Matches]; its error is always nil. *)
Definition Matches (p : PatternMatcher) (file : string) : bool :=
  if String.eqb file "" then false
  else
    let file := filepath.Clean file in
    if String.eqb file "." || String.eqb file "./" then false
    else
      let file := strings.ReplaceAll file backslash "/" in
      matchesInternal p file.

(** [PatternMatcher.MatchesWithTracking]: (shouldIgnore, anyPatternMatched);
    its error is always nil. *)
Definition MatchesWithTracking (p : PatternMatcher) (file : string) : bool * bool :=
  if String.eqb file "" then (false, false)
  else
    let file := filepath.Clean file in
    if String.eqb file "." || String.eqb file "./" then (false, false)
    else
      let file := strings.ReplaceAll file backslash "/" in
      fold_left
        (fun '(matched, anyPatternMatched) pat =>
           if matchPattern file pat then (negb pat.(negate), true)
           else (matched, anyPatternMatched))
        p.(ignorePatterns) (false, false).

(** ** [repository.go] *)

Module repository.

Record RepositoryMatcher : Type := {
  rootDir : string;
  matchers : gmap string PatternMatcher
}.

Inductive matchError : Type :=
| ErrOutsideRoot
| ErrRelativePath.

(** The directories below [currentDir] named by [parts], one per part. *)
Fixpoint dirsBelow (currentDir : string) (parts : list string) : list string :=
  match parts with
  | [] => []
  | part :: rest =>
      let currentDir := filepath.Join currentDir part in
      currentDir :: dirsBelow currentDir rest
  end.

(** One round of the loop over [dirsToCheck]. *)
Definition applyLevel (rm : RepositoryMatcher) (absPath relPath : string)
    (matched : bool) (dir : string) : bool :=
  match rm.(matchers) !! dir with
  | None => matched
  | Some matcher =>
      let matchPath :=
        if String.eqb dir rm.(rootDir) then Some relPath
        else option_map filepath.ToSlash (filepath.Rel dir absPath) in
      match matchPath with
      | None => matched
      | Some matchPath =>
          let '(isMatch, anyPatternMatched) :=
            MatchesWithTracking matcher matchPath in
          if anyPatternMatched then isMatch else matched
      end
  end.

(** [RepositoryMatcher.Matches] *)
Definition Matches (rm : RepositoryMatcher) (path : string)
  : result matchError bool :=
  if String.eqb path "" then Ok false
  else
    let absPath :=
      if filepath.IsAbs path then filepath.Clean path
      else filepath.Clean (filepath.Join rm.(rootDir) path) in
    if negb (strings.HasPrefix absPath rm.(rootDir)) then Err ErrOutsideRoot
    else
      match filepath.Rel rm.(rootDir) absPath with
      | None => Err ErrRelativePath
      | Some relPath =>
          let relPath := filepath.ToSlash relPath in
          let parts := strings.Split relPath "/"%char in
          let dirsToCheck :=
            rm.(rootDir) :: dirsBelow rm.(rootDir) (take (length parts - 1) parts) in
          Ok (fold_left (applyLevel rm absPath relPath) dirsToCheck false)
      end.

End repository.

(** ** Notions of the specification *)

(** The path the patterns are tried on: cleaned, with slashes only. *)
Definition normalize (file : string) : string :=
  strings.ReplaceAll (filepath.Clean file) backslash "/".

(** The paths that are never ignored: the empty path and the paths that
    clean to the current directory. *)
Definition trivialPath (file : string) : bool :=
  String.eqb file "" ||
  (String.eqb (filepath.Clean file) "." || String.eqb (filepath.Clean file) "./").

(** The last pattern, in declared order, that matches. *)
Definition lastMatched (ps : list ignorePattern) (file : string)
  : option ignorePattern :=
  last (List.filter (matchPattern file) ps).

(** ignored = not lastMatched.negate if any pattern matched, else false. *)
Definition decision (ps : list ignorePattern) (file : string) : bool :=
  match lastMatched ps file with
  | Some pat => negb pat.(negate)
  | None => false
  end.


(** The lines that are filtered before compilation: blank and comment. *)
Definition skipped (line : string) : bool :=
  String.eqb (strings.TrimSpace line) "" ||
  strings.HasPrefix (strings.TrimSpace line) "#".

(** The body of a line: what is left after trimming and stripping the
    negation mark (or the backslash of an escaped one), the leading slash
    and the trailing slash, all separators being slashes. *)
Definition bodyOf (line : string) : string :=
  let pat := strings.TrimSpace line in
  let pat :=
    if strings.HasPrefix pat (String backslash "!") || strings.HasPrefix pat "!"
    then strings.drop 1 pat else pat in
  let pat := strings.ReplaceAll pat backslash "/" in
  let pat := if strings.HasPrefix pat "/" then strings.TrimPrefix pat "/" else pat in
  if strings.HasSuffix pat "/" then strings.TrimSuffix pat "/" else pat.

(** The glob items of a pattern body, as section 4.1 of the specification
    lists them (bracket expressions and escapes apart). *)
Inductive glob : Type :=
| GLit (c : ascii)
| GQuest
| GStar
| GAny
| GDirs.

Fixpoint globOf (skip : nat) (body : string) : list glob :=
  match body with
  | EmptyString => []
  | String c rest =>
      match skip with
      | S k => globOf k rest
      | O =>
          if Ascii.eqb c "*" then
            match rest with
            | String "*"%char (String "/"%char _) => GDirs :: globOf 2 rest
            | String "*"%char _ => GAny :: globOf 1 rest
            | _ => GStar :: globOf 0 rest
            end
          else if Ascii.eqb c "?" then GQuest :: globOf 0 rest
          else GLit c :: globOf 0 rest
      end
  end.

Definition notSlash : node := Class true [CRange "/" "/"].

Definition globNode (g : glob) : node :=
  match g with
  | GLit c => Lit c
  | GQuest => notSlash
  | GStar => Star notSlash
  | GAny => Star AnyNotNL
  | GDirs => Quest (Group [Star AnyNotNL; Lit "/"])
  end.

(** The characters [BuildRegex] escapes, and those it copies as they are. *)
Definition escaped (c : ascii) : bool := strings.mem c ".+^$(){}|".

Definition ordinary (c : ascii) : bool :=
  negb (strings.mem c "*?[.+^$(){}|" || Ascii.eqb c backslash).

(** The texts an item stands for, in the words of the specification but
    for the line feed, which the dot of the compiled expression leaves out:
    a literal character; one character other than the slash; a run of
    characters other than the slash; any run of characters, slashes
    included; zero or more whole segments, each with its slash. *)
Definition itemWord (g : glob) (u : string) : Prop :=
  match g with
  | GLit c => u = String c ""
  | GQuest => exists d, u = String d "" /\ d <> "/"%char
  | GStar => strings.mem "/" u = false
  | GAny => strings.mem newline u = false
  | GDirs => u = "" \/ exists v, u = v +:+ "/" /\ strings.mem newline v = false
  end.

Fixpoint globWord (gs : list glob) (u : string) : Prop :=
  match gs with
  | [] => u = ""
  | g :: gs' => exists u1 u2, u = u1 +:+ u2 /\ itemWord g u1 /\ globWord gs' u2
  end.

(** Every character of [u] passes [ok]. *)
Fixpoint allChars (ok : ascii -> bool) (u : string) : bool :=
  match u with
  | EmptyString => true
  | String d t => ok d && allChars ok t
  end.

(** A text of ASCII characters. *)
Definition isASCII (s : string) : bool :=
  allChars (fun c => nat_of_ascii c <? 128) s.

(** A body without bracket expression: no opening bracket and no backslash. *)
Definition plainBody (body : string) : bool :=
  negb (strings.mem "[" body) && negb (strings.mem backslash body).

(** The four shapes of the boundary law for a pattern [P]:
    P, P/..., .../P and .../P/... *)
Definition atBoundary (P file : string) : Prop :=
  file = P \/
  (exists x, file = P +:+ "/" +:+ x) \/
  (exists a, file = a +:+ "/" +:+ P) \/
  (exists a x, file = a +:+ "/" +:+ P +:+ "/" +:+ x).

(** The decision of one directory level of the repository index. *)
Definition levelPath (rm : repository.RepositoryMatcher)
    (absPath relPath dir : string) : option string :=
  if String.eqb dir rm.(repository.rootDir) then Some relPath
  else option_map filepath.ToSlash (filepath.Rel dir absPath).



(** What the tests of the repository compute: the answers of the compiled
    predicate of one pattern, and of the matcher of a pattern list. *)
Definition regexAnswers (pat : string) (inputs : list string) : option (list bool) :=
  match internal.BuildRegex pat with
  | Some re => Some (map (MatchString re) inputs)
  | None => None
  end.

Definition matcherAnswers (patterns files : list string) : option (list bool) :=
  match NewPatternMatcher patterns with
  | Ok m => Some (map (Matches m) files)
  | Err _ => None
  end.

(** ** Package [bufio] of the Go standard library: a [Scanner] with the
    default split function, [ScanLines]

    A reader is given by the bytes it delivers and by the way it ends: with
    the end of the input, or with an error.  The scanner cuts the bytes at
    the line feeds; a piece of [MaxScanTokenSize] bytes or more does not
    fit its buffer and stops it with an error.  The end of the input is
    what a read of its own reports, as the readers of [os.File],
    [strings.Reader] and [bytes.Reader] do.  The scanner and
    [bytes.TrimPrefix] work on bytes: this part of the model is exact on
    every input. *)

Module bufio.

Record Reader : Type := {
  data : string;
  fails : bool
}.

(** [bufio.MaxScanTokenSize] *)
Definition MaxScanTokenSize : nat := 64 * 1024.

Definition lineFeed : ascii := "010"%char.
Definition carriageReturn : ascii := "013"%char.

(** [dropCR]: one carriage return at the end of the line is dropped. *)
Definition dropCR (data : string) : string :=
  if strings.HasSuffix data (String carriageReturn "")
  then strings.take (String.length data - 1) data
  else data.

(** The tokens of the pieces between the line feeds, and whether the scan
    stopped on a piece that is too long.  The last piece is what follows
    the last line feed: it is a token unless it is empty. *)
Fixpoint scanTokens (pieces : list string) : list string * bool :=
  match pieces with
  | [] => ([], false)
  | piece :: rest =>
      if MaxScanTokenSize <=? String.length piece then ([], true)
      else
        match rest with
        | [] => (if String.eqb piece "" then [] else [dropCR piece], false)
        | _ :: _ =>
            let '(tokens, tooLong) := scanTokens rest in
            (dropCR piece :: tokens, tooLong)
        end
  end.

(** The tokens the successive calls of [Scanner.Scan] give, and whether
    [Scanner.Err] is not nil at the end. *)
Definition Scan (r : Reader) : list string * bool :=
  let '(tokens, tooLong) := scanTokens (strings.Split r.(data) lineFeed) in
  (tokens, tooLong || r.(fails)).

End bufio.

(** ** [internal/util.go]: [ReadLines] *)

Inductive readError : Type :=
| ErrNilReader
| ErrReadingLines.

Definition utf8BOM : string :=
  String "239"%char (String "187"%char (String "191"%char "")).

(** The loop of [ReadLines] over the tokens of the scanner. *)
Fixpoint readLoop (lineNumber : nat) (tokens : list string) : list string :=
  match tokens with
  | [] => []
  | line :: rest =>
      (if lineNumber =? 0 then strings.TrimPrefix line utf8BOM else line)
      :: readLoop (S lineNumber) rest
  end.

(** [ReadLines]; [None] is the nil reader. *)
Definition ReadLines (reader : option bufio.Reader)
  : result readError (list string) :=
  match reader with
  | None => Err ErrNilReader
  | Some r =>
      let '(tokens, failed) := bufio.Scan r in
      if failed then Err ErrReadingLines else Ok (readLoop 0 tokens)
  end.

(** ** [dotignore.go]: [NewPatternMatcherFromReader] *)

Inductive loadError : Type :=
| ErrReaderNil
| ErrParse (e : readError)
| ErrPatterns (e : buildError).

Definition NewPatternMatcherFromReader (reader : option bufio.Reader)
  : result loadError PatternMatcher :=
  match reader with
  | None => Err ErrReaderNil
  | Some _ =>
      match ReadLines reader with
      | Err e => Err (ErrParse e)
      | Ok patterns =>
          match NewPatternMatcher patterns with
          | Err e => Err (ErrPatterns e)
          | Ok m => Ok m
          end
      end
  end.

(** ** [internal/util.go]: the version of [BuildRegex] that has the work
    of [writeWildcard], [writeCharClass] and [writeEscaped] in its loop *)

Fixpoint translateInline (skip : nat) (pattern : string) : string :=
  match pattern with
  | EmptyString => EmptyString
  | String char rest =>
      match skip with
      | S k => translateInline k rest
      | O =>
          match char with
          | "*" =>
              match rest with
              | String "*" after =>
                  match after with
                  | String "/" _ => "(.*?/)?" +:+ translateInline 2 rest
                  | EmptyString => ".*" +:+ translateInline 1 rest
                  | String _ _ => ".*" +:+ translateInline 1 rest
                  end
              | _ => "[^/]*" +:+ translateInline 0 rest
              end
          | "?" => "[^/]" +:+ translateInline 0 rest
          | "[" =>
              match strings.Index rest "]" with
              | Some k =>
                  String "[" (strings.take (S k) rest) +:+ translateInline (S k) rest
              | None => String backslash "[" +:+ translateInline 0 rest
              end
          | "." | "+" | "^" | "$" | "(" | ")" | "{" | "}" | "|" =>
              String backslash (String char EmptyString) +:+ translateInline 0 rest
          | "092" =>
              match rest with
              | String nextChar _ =>
                  (if internal.isRegexMetaChar nextChar
                   then String backslash EmptyString else EmptyString) +:+
                  String nextChar EmptyString +:+ translateInline 1 rest
              | EmptyString =>
                  String backslash (String backslash EmptyString) +:+
                  translateInline 0 rest
              end
          | _ => String char EmptyString +:+ translateInline 0 rest
          end%char
      end
  end.

Definition BuildRegexInline (pattern : string) : option Regexp :=
  if String.eqb pattern "" then None
  else Compile ("^" +:+ translateInline 0 pattern +:+ "$").

(** ** [repository.go]: the accessors of [RepositoryMatcher] *)

(** [RepositoryMatcher.RootDir] *)
Definition RootDir (rm : repository.RepositoryMatcher) : string :=
  rm.(repository.rootDir).

(** [RepositoryMatcher.IgnoreFileCount] *)
Definition IgnoreFileCount (rm : repository.RepositoryMatcher) : nat :=
  size rm.(repository.matchers).

(** What the loop of [IgnoreFilePaths] appends for the directory [dir]. *)
Definition ignoreFilePath (rm : repository.RepositoryMatcher) (dir : string)
  : list string :=
  match filepath.Rel rm.(repository.rootDir) dir with
  | None => []
  | Some relDir =>
      if String.eqb relDir "." then [".gitignore"]
      else [filepath.Join relDir ".gitignore"]
  end.

(** [RepositoryMatcher.IgnoreFilePaths].  Go ranges over the map in an
    order it does not fix; the list below is in the order of the keys. *)
Definition IgnoreFilePaths (rm : repository.RepositoryMatcher) : list string :=
  flat_map (ignoreFilePath rm) (map fst (map_to_list rm.(repository.matchers))).

(** ** Notions of the further properties *)


(** The pattern a line compiles to, if it does. *)
Definition compiledLine (line : string) : option ignorePattern :=
  match compileLine 0 line with
  | Compiled p => Some p
  | _ => None
  end.

(** A line that asks for a negated pattern. *)
Definition negated (line : string) : bool :=
  strings.HasPrefix (strings.TrimSpace line) "!".

(** The text of a list of lines, each followed by the line ending [eol]. *)
Definition joinLines (eol : string) (lines : list string) : string :=
  fold_right (fun line text => line +:+ eol +:+ text) "" lines.

(** The two line endings: a line feed, alone or after a carriage return. *)
Definition LF : string := String bufio.lineFeed "".
Definition CRLF : string := String bufio.carriageReturn LF.

(** A reader that delivers [text] and ends without error. *)
Definition textReader (text : string) : option bufio.Reader :=
  Some {| bufio.data := text; bufio.fails := false |}.

(** The result of [NewPatternMatcher] as [NewPatternMatcherFromReader]
    returns it. *)
Definition loaded (r : result buildError PatternMatcher)
  : result loadError PatternMatcher :=
  match r with
  | Ok m => Ok m
  | Err e => Err (ErrPatterns e)
  end.

(** The number of bytes [c] in [s]. *)
Fixpoint countByte (c : ascii) (s : string) : nat :=
  match s with
  | EmptyString => 0
  | String d t => (if Ascii.eqb d c then 1 else 0) + countByte c t
  end.

(** An element of a path that [filepath.Clean] keeps where it stands:
    not empty, not the dot and not the double dot. *)
Definition plainElem (e : string) : bool :=
  negb (String.eqb e "" || String.eqb e ".") && negb (String.eqb e "..").

(** The elements of a cleaned path: double dots first (none in a rooted
    path), then elements that are kept where they stand. *)
Definition cleanShape (rooted : bool) (elems : list string) : Prop :=
  exists k N,
    elems = replicate k ".." ++ N /\
    Forall (fun e => plainElem e = true) N /\
    (rooted = true -> k = 0).

(** The absolute path [RepositoryMatcher.Matches] works on. *)
Definition absolutePath (rm : repository.RepositoryMatcher) (path : string) : string :=
  if filepath.IsAbs path then filepath.Clean path
  else filepath.Clean (filepath.Join rm.(repository.rootDir) path).

(** The name of a file or a directory: a plain element without slash. *)
Definition plainName (e : string) : bool :=
  plainElem e && negb (strings.mem "/" e).

(** The text [s] with a backslash before each of its characters. *)
Fixpoint escapeEach (s : string) : string :=
  match s with
  | EmptyString => EmptyString
  | String c t => String backslash (String c (escapeEach t))
  end.

(** The body P[lo-hi]S: a bracket expression with one range between two
    texts. *)
Definition rangeBody (P : string) (lo hi : ascii) (S : string) : string :=
  P +:+ String "[" (String lo (String "-" (String hi (String "]" S)))).

(** A body of literal characters: no wildcard, no bracket, no backslash. *)
Definition literalBody (body : string) : bool :=
  negb (strings.ContainsAny body "*?") && plainBody body.

(** * Properties *)

Import internal.

(** ** Evaluation of a pattern set *)

Section PatternSet.

Variable file : string.

Let stepMatched (matched : bool) (pat : ignorePattern) : bool :=
  if matchPattern file pat then negb pat.(negate) else matched.

Let stepTracking : bool * bool -> ignorePattern -> bool * bool :=
  fun '(matched, anyPatternMatched) pat =>
    if matchPattern file pat then (negb pat.(negate), true)
    else (matched, anyPatternMatched).

Lemma last_filter_cons (pat : ignorePattern) (ps : list ignorePattern) :
  lastMatched (pat :: ps) file =
  match lastMatched ps file with
  | Some q => Some q
  | None => if matchPattern file pat then Some pat else None
  end.
Proof.
  unfold lastMatched. simpl.
  destruct (matchPattern file pat); [|by destruct (last _)].
  by rewrite last_cons.
Qed.

Lemma fold_matched (ps : list ignorePattern) (m : bool) :
  fold_left stepMatched ps m =
  match lastMatched ps file with
  | Some pat => negb pat.(negate)
  | None => m
  end.
Proof.
  revert m. induction ps as [|pat ps IH]; intros m; [done|].
  simpl. rewrite IH, last_filter_cons. unfold stepMatched.
  destruct (lastMatched ps file); [done|].
  by destruct (matchPattern file pat).
Qed.

Lemma fold_tracking (ps : list ignorePattern) (m a : bool) :
  fold_left stepTracking ps (m, a) =
  (fold_left stepMatched ps m, a || existsb (matchPattern file) ps).
Proof.
  revert m a. induction ps as [|pat ps IH]; intros m a; simpl.
  - by rewrite orb_false_r.
  - unfold stepMatched at 2. destruct (matchPattern file pat); rewrite IH; simpl.
    + by rewrite orb_true_r.
    + done.
Qed.

Lemma lastMatched_None (ps : list ignorePattern) :
  lastMatched ps file = None <-> existsb (matchPattern file) ps = false.
Proof.
  induction ps as [|pat ps IH]; [done|].
  rewrite last_filter_cons. simpl.
  destruct (lastMatched ps file) eqn:E.
  - split; [done|]. intros [_ H]%orb_false_iff. apply IH in H. done.
  - destruct (matchPattern file pat); simpl; [done|]. tauto.
Qed.

End PatternSet.

Lemma matchesInternal_decision (p : PatternMatcher) (file : string) :
  matchesInternal p file = decision p.(ignorePatterns) file.
Proof. unfold matchesInternal, decision. by rewrite fold_matched. Qed.

Lemma Matches_unfold (p : PatternMatcher) (file : string) :
  Matches p file =
  if trivialPath file then false else matchesInternal p (normalize file).
Proof.
  unfold Matches, trivialPath, normalize.
  destruct (String.eqb file ""); [done|]. simpl.
  by destruct (_ || _).
Qed.

Lemma MatchesWithTracking_unfold (p : PatternMatcher) (file : string) :
  MatchesWithTracking p file =
  if trivialPath file then (false, false)
  else (matchesInternal p (normalize file),
        existsb (matchPattern (normalize file)) p.(ignorePatterns)).
Proof.
  unfold MatchesWithTracking, trivialPath, normalize, matchesInternal.
  destruct (String.eqb file ""); [done|]. simpl.
  destruct (_ || _); [done|].
  apply (fold_tracking _ _ false false).
Qed.

(** ** Strings *)

Local Arguments String.append !s1 s2 : simpl nomatch.

Lemma app_cons (c : ascii) (s t : string) : String c s +:+ t = String c (s +:+ t).
Proof. done. Qed.

Lemma app_empty_r (s : string) : s +:+ "" = s.
Proof. induction s; simpl; by f_equal. Qed.

Lemma app_assoc_s (s t u : string) : (s +:+ t) +:+ u = s +:+ (t +:+ u).
Proof. induction s; simpl; by f_equal. Qed.

Lemma length_app_s (s t : string) :
  String.length (s +:+ t) = String.length s + String.length t.
Proof. induction s; simpl; by f_equal. Qed.

Lemma HasPrefix_spec (s p : string) :
  strings.HasPrefix s p = true <-> exists t, s = p +:+ t.
Proof.
  revert s. induction p as [|c p IH]; intros s; simpl.
  - split; [intros _; by exists s|done].
  - destruct s as [|d s].
    + split; [done|]. by intros [t ?].
    + rewrite andb_true_iff, Ascii.eqb_eq, IH. split.
      * intros [-> [t ->]]. by exists t.
      * intros [t [= -> ->]]. eauto.
Qed.

Lemma take_drop_s (n : nat) (s : string) : strings.take n s +:+ strings.drop n s = s.
Proof.
  revert s. induction n as [|n IH]; intros [|c s]; simpl; try done.
  by rewrite IH.
Qed.

Lemma take_app_s (a b : string) : strings.take (String.length a) (a +:+ b) = a.
Proof. induction a; simpl; [by destruct b|by f_equal]. Qed.

Lemma drop_app_s (a b : string) : strings.drop (String.length a) (a +:+ b) = b.
Proof. induction a; simpl; [by destruct b|done]. Qed.

Lemma get_app_s (a b : string) (c : ascii) :
  String.get (String.length a) (a +:+ String c b) = Some c.
Proof. induction a; simpl; done. Qed.

Lemma get_split (s : string) (i : nat) (c : ascii) :
  String.get i s = Some c ->
  s = strings.take i s +:+ String c (strings.drop (S i) s).
Proof.
  revert i. induction s as [|d s IH]; intros i; simpl; [done|].
  destruct i as [|i]; simpl.
  - by intros [= ->].
  - intros H. f_equal. by apply IH.
Qed.

Lemma get_length (s : string) (i : nat) (c : ascii) :
  String.get i s = Some c -> i < String.length s.
Proof.
  revert i. induction s as [|d s IH]; intros i; simpl; [done|].
  destruct i as [|i]; [lia|]. intros H%IH. lia.
Qed.

Lemma byteIs_true (s : string) (i : nat) (c : ascii) :
  byteIs s i c = true ->
  s = strings.take i s +:+ String c (strings.drop (S i) s) /\ i < String.length s.
Proof.
  unfold byteIs. destruct (String.get i s) as [d|] eqn:E; [|done].
  intros ->%Ascii.eqb_eq. split; [by apply get_split|by eapply get_length].
Qed.

Lemma byteIs_app (a b : string) (c : ascii) :
  byteIs (a +:+ String c b) (String.length a) c = true.
Proof. unfold byteIs. rewrite get_app_s. apply Ascii.eqb_refl. Qed.

Lemma Contains_spec (s sub : string) :
  strings.Contains s sub = true <-> exists a b, s = a +:+ sub +:+ b.
Proof.
  induction s as [|c s IH]; simpl.
  - rewrite orb_false_r, HasPrefix_spec. split.
    + intros [t ->]. by exists "", t.
    + intros [[|??] [b H]]; [by exists b|done].
  - rewrite orb_true_iff, IH. change (String c s) with (String c s) at 1.
    split.
    + intros [[t E]%HasPrefix_spec|(a & b & ->)].
      * exists "", t. by rewrite E.
      * by exists (String c a), b.
    + intros ([|d a] & b & E); simpl in E.
      * left. apply HasPrefix_spec. eauto.
      * right. injection E as -> ->. eauto.
Qed.

Lemma mem_app (c : ascii) (s t : string) :
  strings.mem c (s +:+ t) = strings.mem c s || strings.mem c t.
Proof.
  induction s as [|d s IH]; simpl; [done|]. by rewrite IH, orb_assoc.
Qed.

Lemma mem_take (c : ascii) (n : nat) (s : string) :
  strings.mem c s = false -> strings.mem c (strings.take n s) = false.
Proof.
  intros H. rewrite <-(take_drop_s n s), mem_app in H.
  by apply orb_false_iff in H as [? _].
Qed.

Lemma mem_drop (c : ascii) (n : nat) (s : string) :
  strings.mem c s = false -> strings.mem c (strings.drop n s) = false.
Proof.
  intros H. rewrite <-(take_drop_s n s), mem_app in H.
  by apply orb_false_iff in H as [_ ?].
Qed.

Lemma mem_ReplaceAll (s : string) (old new : ascii) :
  old <> new -> strings.mem old (strings.ReplaceAll s old new) = false.
Proof.
  intros Hne. induction s as [|c s IH]; simpl; [done|].
  rewrite IH, orb_false_r. destruct (Ascii.eqb c old) eqn:E.
  - by apply Ascii.eqb_neq.
  - by rewrite Ascii.eqb_sym.
Qed.

(** ** [BuildRegex] on bodies without bracket expression *)

Lemma char_cases (c : ascii) :
  c = "*"%char \/ c = "?"%char \/ c = "["%char \/ c = backslash \/
  escaped c = true \/ ordinary c = true.
Proof.
  destruct c as [[] [] [] [] [] [] [] []]; vm_compute; auto 7.
Qed.

Lemma translate_ordinary (c : ascii) (rest : string) :
  ordinary c = true ->
  translate 0 (String c rest) = String c (translate 0 rest).
Proof.
  destruct c as [[] [] [] [] [] [] [] []]; try discriminate; reflexivity.
Qed.

Lemma translate_escaped (c : ascii) (rest : string) :
  escaped c = true ->
  translate 0 (String c rest) = String backslash (String c (translate 0 rest)).
Proof.
  destruct c as [[] [] [] [] [] [] [] []]; try discriminate; reflexivity.
Qed.

Lemma parse_ordinary (c : ascii) (t : string) stack cur rep :
  ordinary c = true ->
  parse 0 stack cur rep (String c t) = parse 0 stack (Lit c :: cur) false t.
Proof.
  destruct c as [[] [] [] [] [] [] [] []]; try discriminate; reflexivity.
Qed.

Lemma parse_escaped (c : ascii) (t : string) stack cur rep :
  escaped c = true ->
  parse 0 stack cur rep (String backslash (String c t)) =
  parse 0 stack (Lit c :: cur) false t.
Proof.
  destruct c as [[] [] [] [] [] [] [] []]; try discriminate; reflexivity.
Qed.

Lemma globOf_literal (c : ascii) (rest : string) :
  c <> "*"%char -> c <> "?"%char ->
  globOf 0 (String c rest) = GLit c :: globOf 0 rest.
Proof.
  intros H1%Ascii.eqb_neq H2%Ascii.eqb_neq. simpl. by rewrite H1, H2.
Qed.

Lemma ordinary_not_wild (c : ascii) :
  ordinary c = true -> c <> "*"%char /\ c <> "?"%char.
Proof. destruct c as [[] [] [] [] [] [] [] []]; done. Qed.

Lemma escaped_not_wild (c : ascii) :
  escaped c = true -> c <> "*"%char /\ c <> "?"%char /\ c <> "/"%char.
Proof. destruct c as [[] [] [] [] [] [] [] []]; done. Qed.

(** The three ways [writeWildcard] reads a star. *)
Lemma translate_star (rest : string) :
  (exists r, rest = String "*" (String "/" r) /\
     translate 0 (String "*" rest) = "(.*?/)?" +:+ translate 0 r /\
     globOf 0 (String "*" rest) = GDirs :: globOf 0 r) \/
  (exists r, rest = String "*" r /\
     translate 0 (String "*" rest) = ".*" +:+ translate 0 r /\
     globOf 0 (String "*" rest) = GAny :: globOf 0 r) \/
  (translate 0 (String "*" rest) = "[^/]*" +:+ translate 0 rest /\
   globOf 0 (String "*" rest) = GStar :: globOf 0 rest).
Proof.
  destruct rest as [|d r]; [by right; right|].
  destruct d as [[] [] [] [] [] [] [] []]; try (by right; right).
  destruct r as [|e r]; [right; left; by eexists|].
  destruct e as [[] [] [] [] [] [] [] []];
    try (right; left; by eexists).
  left. by eexists.
Qed.

Lemma mem_cons (c d : ascii) (t : string) :
  strings.mem c (String d t) = Ascii.eqb c d || strings.mem c t.
Proof. done. Qed.

Lemma plainBody_cons (c : ascii) (rest : string) :
  plainBody (String c rest) = true ->
  c <> "["%char /\ c <> backslash /\ plainBody rest = true.
Proof.
  unfold plainBody. rewrite !mem_cons.
  rewrite !andb_true_iff, !negb_true_iff, !orb_false_iff, !Ascii.eqb_neq.
  intros [[? ?] [? ?]]. auto.
Qed.

(** After a repetition the parser looks for the mark of a lazy one; what
    [translate] writes next never starts with it. *)
Lemma translate_not_quest (body : string) :
  plainBody body = true ->
  strings.HasPrefix (translate 0 body +:+ "$") "?" = false.
Proof.
  destruct body as [|c rest]; [done|]. intros (Hb & Hs & Hp)%plainBody_cons.
  destruct (char_cases c) as [->|[->|[->|[->|[H|H]]]]]; try done.
  - destruct (translate_star rest) as [(r & _ & -> & _)|[(r & _ & -> & _)|[-> _]]]; done.
  - by rewrite translate_escaped.
  - rewrite translate_ordinary by done.
    destruct c as [[] [] [] [] [] [] [] []]; done.
Qed.

Local Arguments strings.HasPrefix : simpl never.

(** The parser reads what [translate] wrote item by item. *)
Lemma parse_translate (n : nat) :
  forall body stack cur rep,
    String.length body <= n -> plainBody body = true ->
    parse 0 stack cur rep (translate 0 body +:+ "$") =
    parse 0 stack (EndText :: rev (map globNode (globOf 0 body)) ++ cur) false "".
Proof.
  induction n as [|n IH]; intros body stack cur rep Hlen Hp.
  { destruct body; [done|simpl in Hlen; lia]. }
  destruct body as [|c rest]; [done|].
  apply plainBody_cons in Hp as (Hb & Hs & Hp). simpl in Hlen.
  destruct (char_cases c) as [->|[->|[->|[->|[H|H]]]]]; try done.
  - destruct (translate_star rest)
      as [(r & -> & -> & ->)|[(r & -> & -> & ->)|[-> ->]]].
    + apply plainBody_cons in Hp as (_ & _ & Hp).
      apply plainBody_cons in Hp as (_ & _ & Hp).
      pose proof (translate_not_quest r Hp) as Hq.
      rewrite app_assoc_s. simpl. rewrite Hq. rewrite IH; [|simpl in Hlen; lia|done].
      simpl. by rewrite <-!app_assoc.
    + apply plainBody_cons in Hp as (_ & _ & Hp).
      pose proof (translate_not_quest r Hp) as Hq.
      rewrite app_assoc_s. simpl. rewrite Hq. rewrite IH; [|simpl in Hlen; lia|done].
      simpl. by rewrite <-!app_assoc.
    + pose proof (translate_not_quest rest Hp) as Hq.
      rewrite app_assoc_s. simpl. rewrite Hq. rewrite IH; [|lia|done].
      simpl. by rewrite <-!app_assoc.
  - change (translate 0 (String "?" rest)) with ("[^/]" +:+ translate 0 rest).
    change (globOf 0 (String "?" rest)) with (GQuest :: globOf 0 rest).
    rewrite app_assoc_s. simpl. rewrite IH; [|lia|done]. simpl. by rewrite <-!app_assoc.
  - destruct (escaped_not_wild c H) as (? & ? & ?).
    rewrite translate_escaped, globOf_literal by done.
    rewrite !app_cons, parse_escaped by done.
    rewrite IH; [|lia|done]. simpl. by rewrite <-!app_assoc.
  - destruct (ordinary_not_wild c H) as (? & ?).
    rewrite translate_ordinary, globOf_literal by done.
    rewrite !app_cons, parse_ordinary by done.
    rewrite IH; [|lia|done]. simpl. by rewrite <-!app_assoc.
Qed.

Lemma Compile_plain (body : string) :
  plainBody body = true ->
  Compile (regexString body) =
  Some (BeginText :: map globNode (globOf 0 body) ++ [EndText]).
Proof.
  intros Hp. unfold Compile, regexString. simpl.
  rewrite (parse_translate (String.length body)) by done.
  simpl. by rewrite rev_app_distr, rev_involutive.
Qed.

(** ** Matching *)

Lemma runAll_nil (re : list node) : runAll re [] = [].
Proof. induction re; simpl; done. Qed.

Lemma runAll_cons (r : node) (re : list node) (ps : list pos) :
  runAll (r :: re) ps = runAll re (flat_map (step r) ps).
Proof. done. Qed.

Lemma in_runAll (re : list node) (ps : list pos) (q : pos) :
  In q (runAll re ps) <-> exists p, In p ps /\ In q (runAll re [p]).
Proof.
  revert ps. induction re as [|r re IH]; intros ps.
  - simpl. split; [eauto|]. by intros (p & ? & [->|[]]).
  - rewrite runAll_cons, IH. setoid_rewrite in_flat_map. split.
    + intros (p' & (p & Hp & Hp') & Hq). exists p. split; [done|].
      rewrite runAll_cons. apply IH. exists p'. split; [|done].
      simpl. rewrite app_nil_r. done.
    + intros (p & Hp & Hq). rewrite runAll_cons in Hq. apply IH in Hq as (p' & Hp' & Hq).
      simpl in Hp'. rewrite app_nil_r in Hp'. eauto.
Qed.

Lemma in_run_cons (r : node) (re : list node) (p q : pos) :
  In q (runAll (r :: re) [p]) <-> exists p', In p' (step r p) /\ In q (runAll re [p']).
Proof.
  rewrite runAll_cons, in_runAll. simpl. by rewrite app_nil_r.
Qed.

Lemma in_run_app (re1 re2 : list node) (p q : pos) :
  In q (runAll (re1 ++ re2) [p]) <->
  exists p', In p' (runAll re1 [p]) /\ In q (runAll re2 [p']).
Proof.
  unfold runAll at 1. rewrite fold_left_app. apply in_runAll.
Qed.

Lemma matchAt_true (re : Regexp) (p : pos) :
  matchAt re p = true <-> exists q, In q (run re p).
Proof.
  unfold matchAt. destruct (run re p) as [|q l].
  - split; [done|]. by intros [? []].
  - split; [|done]. intros _. exists q. by left.
Qed.

(** An expression that starts with the anchor matches at the start of the
    text or nowhere. *)
Lemma MatchString_anchored (re : list node) (s : string) :
  MatchString (BeginText :: re) s = matchAt (BeginText :: re) (true, s).
Proof.
  assert (forall t, existsb (matchAt (BeginText :: re)) (starts false t) = false) as H.
  { induction t as [|c t IH]; simpl.
    - unfold matchAt, run. rewrite runAll_cons. simpl. by rewrite runAll_nil.
    - rewrite IH, orb_false_r.
      unfold matchAt, run. rewrite runAll_cons. simpl. by rewrite runAll_nil. }
  unfold MatchString. destruct s as [|c t]; simpl.
  - by rewrite orb_false_r.
  - by rewrite H, orb_false_r.
Qed.

Lemma in_oneChar (ok : ascii -> bool) (p q : pos) :
  In q (oneChar ok p) <-> exists d, p.2 = String d q.2 /\ ok d = true /\ q.1 = false.
Proof.
  unfold oneChar. destruct p as [b [|d t]]; simpl.
  - split; [done|]. by intros (? & ? & _).
  - destruct (ok d) eqn:E; simpl.
    + split.
      * intros [<-|[]]. by exists d.
      * intros (d' & [= <- ->] & _ & Hq). left. destruct q; simpl in *. by subst.
    + split; [done|]. intros (d' & [= <- _] & ? & _). congruence.
Qed.

Lemma closure_sound (ok : ascii -> bool) (n : nat) (p q : pos) :
  In q (closure (oneChar ok) n p) ->
  exists u, p.2 = u +:+ q.2 /\ allChars ok u = true.
Proof.
  revert p. induction n as [|n IH]; intros p; simpl.
  - intros [<-|[]]. by exists "".
  - intros [<-|H]; [by exists ""|].
    apply in_flat_map in H as (p' & Hp' & Hq).
    apply filter_In in Hp' as [(d & Hd & Hok & _)%in_oneChar _].
    apply IH in Hq as (u & Hu & Hall).
    exists (String d u). simpl. rewrite Hd, Hu, Hok. done.
Qed.

Lemma closure_complete (ok : ascii -> bool) (u t : string) :
  allChars ok u = true ->
  forall n b, String.length (u +:+ t) <= n ->
    exists b', In (b', t) (closure (oneChar ok) n (b, u +:+ t)).
Proof.
  induction u as [|d u IH]; intros Hall n b Hn.
  - exists b. destruct n; simpl; by left.
  - simpl in Hall. apply andb_true_iff in Hall as [Hok Hall].
    destruct n as [|n]; [simpl in Hn; lia|].
    destruct (IH Hall n false) as [b' Hb']; [simpl in Hn; lia|].
    exists b'. simpl. right. apply in_flat_map. exists (false, u +:+ t).
    split; [|done]. apply filter_In. split.
    + unfold oneChar. simpl. rewrite Hok. by left.
    + simpl. apply Nat.ltb_lt. lia.
Qed.

Lemma allChars_mem (c : ascii) (u : string) :
  allChars (fun d => negb (Ascii.eqb d c)) u = negb (strings.mem c u).
Proof.
  induction u as [|d u IH]; simpl; [done|].
  rewrite IH, negb_orb. by rewrite (Ascii.eqb_sym c d).
Qed.

Lemma inClass_notSlash (d : ascii) :
  inClass true [CRange "/" "/"] d = negb (Ascii.eqb d "/").
Proof. destruct d as [[] [] [] [] [] [] [] []]; reflexivity. Qed.

Lemma allChars_ext (ok ok' : ascii -> bool) (u : string) :
  (forall d, ok d = ok' d) -> allChars ok u = allChars ok' u.
Proof. intros H. induction u as [|d u IH]; simpl; [done|]. by rewrite H, IH. Qed.

Lemma allChars_notSlash (u : string) :
  allChars (inClass true [CRange "/" "/"]) u = negb (strings.mem "/" u).
Proof.
  rewrite <-allChars_mem. apply allChars_ext, inClass_notSlash.
Qed.

Lemma step_Quest_Group (rs : list node) (p : pos) :
  step (Quest (Group rs)) p = runAll rs [p] ++ [p].
Proof. done. Qed.

(** What an item of the compiled expression consumes is a text of the item. *)
Lemma step_sound (g : glob) (p q : pos) :
  In q (step (globNode g) p) -> exists u, p.2 = u +:+ q.2 /\ itemWord g u.
Proof.
  destruct g as [c| | | |]; simpl globNode.
  - intros (d & Hd & ->%Ascii.eqb_eq & _)%in_oneChar. by exists (String d "").
  - intros (d & Hd & Hok & _)%in_oneChar. exists (String d ""). split; [done|].
    exists d. split; [done|]. rewrite inClass_notSlash in Hok.
    by apply negb_true_iff, Ascii.eqb_neq in Hok.
  - intros (u & Hu & Hall)%closure_sound. exists u. split; [done|].
    rewrite allChars_notSlash in Hall. by apply negb_true_iff in Hall.
  - intros (u & Hu & Hall)%closure_sound. exists u. split; [done|].
    rewrite allChars_mem in Hall. by apply negb_true_iff in Hall.
  - rewrite step_Quest_Group. intros [H|[<-|[]]]%in_app_or.
    + apply in_run_cons in H as (p' & (u & Hu & Hall)%closure_sound & H).
      apply in_run_cons in H as (p'' & (d & Hd & <-%Ascii.eqb_eq & _)%in_oneChar & [<-|[]]).
      exists (u +:+ "/"). split.
      * rewrite Hu, Hd, app_assoc_s. done.
      * right. exists u. split; [done|].
        rewrite allChars_mem in Hall. by apply negb_true_iff in Hall.
    + exists "". split; [done|]. by left.
Qed.

(** Every text of an item is consumed by the compiled item. *)
Lemma step_complete (g : glob) (u : string) :
  itemWord g u ->
  forall b t, exists b', In (b', t) (step (globNode g) (b, u +:+ t)).
Proof.
  destruct g as [c| | | |]; simpl globNode; simpl itemWord.
  - intros -> b t. exists false. apply in_oneChar. exists c.
    by rewrite Ascii.eqb_refl.
  - intros (d & -> & Hd) b t. exists false. apply in_oneChar. exists d.
    rewrite inClass_notSlash. split; [done|]. split; [|done].
    by apply negb_true_iff, Ascii.eqb_neq.
  - intros Hm b t. apply (closure_complete (inClass true [CRange "/" "/"])); [|done].
    rewrite allChars_notSlash. by rewrite Hm.
  - intros Hm b t.
    apply (closure_complete (fun d => negb (Ascii.eqb d newline))); [|done].
    rewrite allChars_mem. by rewrite Hm.
  - intros [->|(v & -> & Hm)] b t; rewrite step_Quest_Group.
    + exists b. apply in_or_app. right. by left.
    + destruct (closure_complete (fun d => negb (Ascii.eqb d newline)) v
                  (String "/" t)) with (n := String.length (v +:+ String "/" t)) (b := b)
        as [b' Hb']; [by rewrite allChars_mem, Hm|done|].
      exists false. apply in_or_app. left. apply in_run_cons.
      exists (b', String "/" t). split.
      * rewrite app_assoc_s. exact Hb'.
      * apply in_run_cons. exists (false, t). split; [|by left].
        apply in_oneChar. by exists "/"%char.
Qed.

Lemma globs_sound (gs : list glob) (p q : pos) :
  In q (runAll (map globNode gs) [p]) -> exists u, p.2 = u +:+ q.2 /\ globWord gs u.
Proof.
  revert p. induction gs as [|g gs IH]; intros p; simpl map.
  - intros [<-|[]]. by exists "".
  - intros (p' & (u1 & Hu1 & Hw1)%step_sound & (u2 & Hu2 & Hw2)%IH)%in_run_cons.
    exists (u1 +:+ u2). split.
    + by rewrite Hu1, Hu2, app_assoc_s.
    + by exists u1, u2.
Qed.

Lemma globs_complete (gs : list glob) (u : string) :
  globWord gs u ->
  forall b t, exists b', In (b', t) (runAll (map globNode gs) [(b, u +:+ t)]).
Proof.
  revert u. induction gs as [|g gs IH]; intros u; simpl map.
  - intros -> b t. exists b. by left.
  - intros (u1 & u2 & -> & Hw1 & Hw2) b t.
    destruct (step_complete g u1 Hw1 b (u2 +:+ t)) as [b1 Hb1].
    destruct (IH u2 Hw2 b1 t) as [b2 Hb2].
    exists b2. apply in_run_cons. exists (b1, u2 +:+ t).
    by rewrite app_assoc_s.
Qed.

(** The compiled expression of a body without bracket expression matches
    the whole text of the candidate, item by item. *)
Lemma MatchString_globs (gs : list glob) (s : string) :
  MatchString (BeginText :: map globNode gs ++ [EndText]) s = true <-> globWord gs s.
Proof.
  rewrite MatchString_anchored, matchAt_true. unfold run. split.
  - intros (q & (p' & Hp' & Hq)%in_run_cons).
    simpl in Hp'. destruct Hp' as [<-|[]].
    apply in_run_app in Hq as (p'' & (u & Hu & Hw)%globs_sound & Hq).
    apply in_run_cons in Hq as (p3 & Hp3 & _). simpl in Hp3.
    destruct p'' as [b [|??]]; simpl in *; [|done].
    by rewrite app_empty_r in Hu; subst.
  - intros Hw. destruct (globs_complete gs s Hw true "") as [b' Hb'].
    rewrite app_empty_r in Hb'.
    exists (b', ""). apply in_run_cons. exists (true, s). split; [by left|].
    apply in_run_app. exists (b', ""). split; [done|].
    apply in_run_cons. exists (b', ""). split; by left.
Qed.

Lemma BuildRegex_plain (body : string) :
  body <> "" -> plainBody body = true ->
  BuildRegex body = Some (BeginText :: map globNode (globOf 0 body) ++ [EndText]).
Proof.
  intros Hne Hp. unfold BuildRegex.
  apply String.eqb_neq in Hne. rewrite Hne. by apply Compile_plain.
Qed.

(** ** Compiled patterns *)

Lemma compileBody_inv (i : nat) (pat : string) (neg : bool) (p : ignorePattern) :
  compileBody i pat neg = Compiled p ->
  p.(pattern) <> "" /\
  strings.mem backslash p.(pattern) = false /\
  BuildRegex p.(pattern) = Some p.(regexPattern) /\
  p.(hasWildcard) = strings.ContainsAny p.(pattern) "*?" /\
  p.(negate) = neg.
Proof.
  unfold compileBody.
  set (pat1 := strings.ReplaceAll pat backslash "/").
  set (pat2 := if strings.HasPrefix pat1 "/" then strings.TrimPrefix pat1 "/" else pat1).
  set (pat3 := if strings.HasSuffix pat2 "/" then strings.TrimSuffix pat2 "/" else pat2).
  assert (strings.mem backslash pat3 = false) as Hm.
  { assert (strings.mem backslash pat1 = false) as H1 by by apply mem_ReplaceAll.
    assert (strings.mem backslash pat2 = false) as H2.
    { unfold pat2, strings.TrimPrefix. destruct (strings.HasPrefix pat1 "/"); [|done].
      by apply mem_drop. }
    unfold pat3, strings.TrimSuffix. destruct (strings.HasSuffix pat2 "/"); [|done].
    by apply mem_take. }
  destruct (String.eqb pat3 "") eqn:E; [done|].
  destruct (BuildRegex pat3) as [re|] eqn:Hre; [|done].
  intros [= <-]. simpl. apply String.eqb_neq in E. done.
Qed.

Lemma compileLine_inv (i : nat) (line : string) (p : ignorePattern) :
  compileLine i line = Compiled p ->
  p.(pattern) <> "" /\
  strings.mem backslash p.(pattern) = false /\
  BuildRegex p.(pattern) = Some p.(regexPattern) /\
  p.(hasWildcard) = strings.ContainsAny p.(pattern) "*?".
Proof.
  unfold compileLine. destruct (_ || _); [done|].
  destruct (stripNegation i _) as [[pat neg]|e]; [|done].
  intros H%compileBody_inv. tauto.
Qed.

(** The predicate of a compiled pattern without bracket expression holds of
    a candidate exactly when the whole candidate is a text of its items. *)
Lemma compiled_globs (i : nat) (line : string) (p : ignorePattern) (s : string) :
  compileLine i line = Compiled p ->
  strings.mem "[" p.(pattern) = false ->
  MatchString p.(regexPattern) s = true <-> globWord (globOf 0 p.(pattern)) s.
Proof.
  intros (Hne & Hb & Hre & _)%compileLine_inv Hbr.
  rewrite BuildRegex_plain in Hre.
  - injection Hre as <-. apply MatchString_globs.
  - done.
  - unfold plainBody. by rewrite Hb, Hbr.
Qed.

Lemma ContainsAny_cons (c : ascii) (rest chars : string) :
  strings.ContainsAny (String c rest) chars =
  strings.mem c chars || strings.ContainsAny rest chars.
Proof. done. Qed.

Lemma not_wild (c : ascii) :
  strings.mem c "*?" = false -> c <> "*"%char /\ c <> "?"%char.
Proof. destruct c as [[] [] [] [] [] [] [] []]; done. Qed.

(** A body without wildcard stands for itself only. *)
Lemma globWord_literal (body s : string) :
  strings.ContainsAny body "*?" = false ->
  globWord (globOf 0 body) s <-> s = body.
Proof.
  revert s. induction body as [|c rest IH]; intros s; [done|].
  rewrite ContainsAny_cons. intros [Hc Hr]%orb_false_iff.
  destruct (not_wild c Hc) as [? ?].
  rewrite globOf_literal by done. simpl. split.
  - intros (u1 & u2 & -> & -> & Hw). apply IH in Hw; [|done]. by subst.
  - intros ->. exists (String c ""), rest. split; [done|]. split; [done|].
    by apply IH.
Qed.

Lemma globOf_single_star (rest : string) :
  strings.HasPrefix rest "*" = false ->
  globOf 0 (String "*" rest) = GStar :: globOf 0 rest.
Proof.
  destruct rest as [|d r]; [done|].
  destruct d as [[] [] [] [] [] [] [] []]; done.
Qed.

Lemma Contains_cons (c : ascii) (s sub : string) :
  strings.Contains (String c s) sub =
  strings.HasPrefix (String c s) sub || strings.Contains s sub.
Proof. done. Qed.

(** A body of literal characters, single stars and question marks that
    holds no slash stands for texts without slash only, and for itself. *)
Lemma globWord_simple (body : string) :
  strings.Contains body "**" = false ->
  (forall s, strings.mem "/" body = false ->
     globWord (globOf 0 body) s -> strings.mem "/" s = false) /\
  globWord (globOf 0 body) body.
Proof.
  induction body as [|c rest IH]; [by split; [intros s _ ->|]|].
  rewrite Contains_cons. intros [Hp Hc]%orb_false_iff.
  destruct (IH Hc) as [IH1 IH2].
  destruct (Ascii.eqb c "*") eqn:Es.
  - apply Ascii.eqb_eq in Es as ->.
    rewrite globOf_single_star by done. split.
    + intros s Hm (u1 & u2 & -> & Hu1 & Hu2). simpl in Hu1.
      rewrite mem_cons in Hm. apply orb_false_iff in Hm as [_ Hm].
      rewrite mem_app, Hu1. by apply IH1.
    + by exists "*", rest.
  - destruct (Ascii.eqb c "?") eqn:Eq.
    + apply Ascii.eqb_eq in Eq as ->.
      change (globOf 0 (String "?" rest)) with (GQuest :: globOf 0 rest). split.
      * intros s Hm (u1 & u2 & -> & (d & -> & Hd) & Hu2).
        rewrite mem_cons in Hm. apply orb_false_iff in Hm as [_ Hm].
        rewrite app_cons, mem_cons. apply orb_false_iff. split.
        -- apply Ascii.eqb_neq. congruence.
        -- by apply IH1.
      * exists "?", rest. split; [done|]. split; [|done]. by exists "?"%char.
    + apply Ascii.eqb_neq in Es, Eq. rewrite globOf_literal by done. split.
      * intros s Hm (u1 & u2 & -> & -> & Hu2).
        rewrite mem_cons in Hm. apply orb_false_iff in Hm as [Hcs Hm].
        rewrite app_cons, mem_cons. apply orb_false_iff. split; [done|].
        by apply IH1.
      * by exists (String c ""), rest.
Qed.

(** ** Claims on the evaluation of a pattern set *)

(** C10: for every pattern set and every input path, the boolean returned by
    [Matches] is the first result of [MatchesWithTracking] on the same
    input, and whenever that result is true the second result
    (anyPatternMatched) is true as well. *)
Theorem Matches_agrees_with_tracking (p : PatternMatcher) (file : string) :
  Matches p file = (MatchesWithTracking p file).1 /\
  ((MatchesWithTracking p file).1 = true -> (MatchesWithTracking p file).2 = true).
Proof.
  rewrite Matches_unfold, MatchesWithTracking_unfold.
  destruct (trivialPath file); simpl; [done|]. split; [done|].
  rewrite matchesInternal_decision. unfold decision.
  destruct (lastMatched _ _) as [pat|] eqn:E; [|done]. intros _.
  destruct (existsb _ _) eqn:Hex; [done|].
  apply lastMatched_None in Hex. congruence.
Qed.

Lemma Matches_agrees_with_tracking_witness :
  exists m, NewPatternMatcher ["*.log"] = Ok m /\
    Matches m "app.log" = (MatchesWithTracking m "app.log").1 /\
    (MatchesWithTracking m "app.log").2 = true.
Proof.
  eexists. split; [vm_compute; reflexivity|].
  match goal with |- Matches ?m ?f = _ /\ _ =>
    destruct (Matches_agrees_with_tracking m f) as [H1 H2] end.
  split; [exact H1|]. apply H2. vm_compute. reflexivity.
Defined.

(** C1, as stated, fails on the empty path: the pattern [*] matches it, as
    it matches its cleaned form, and is not a negation, yet [Matches]
    answers false. *)
Lemma Matches_empty_path_counterexample :
  exists m pat,
    NewPatternMatcher ["*"] = Ok m /\
    lastMatched m.(ignorePatterns) "" = Some pat /\
    lastMatched m.(ignorePatterns) (normalize "") = Some pat /\
    pat.(negate) = false /\
    Matches m "" = false.
Proof.
  eexists. eexists. split; [vm_compute; reflexivity|].
  split; [vm_compute; reflexivity|].
  split; [vm_compute; reflexivity|].
  split; vm_compute; reflexivity.
Qed.

(** C1 (amended): for every pattern set and every candidate path that is
    not empty and does not clean to the current directory, [Matches] returns
    false when no pattern matches the normalized path and otherwise the
    negation of the negate flag of the last pattern, in declared order, that
    matches it; on the empty path and on the paths that clean to the current
    directory it returns false; for the list *.log, !important.log the path
    app.log is ignored and important.log is not. *)
Theorem Matches_last_match :
  (forall (p : PatternMatcher) (file : string),
     trivialPath file = false ->
     Matches p file =
     match last (List.filter (matchPattern (normalize file)) p.(ignorePatterns)) with
     | Some pat => negb pat.(negate)
     | None => false
     end) /\
  (forall (p : PatternMatcher) (file : string),
     trivialPath file = true -> Matches p file = false) /\
  (exists m, NewPatternMatcher ["*.log"; "!important.log"] = Ok m /\
     Matches m "app.log" = true /\ Matches m "important.log" = false).
Proof.
  split; [|split].
  - intros p file H. by rewrite Matches_unfold, H, matchesInternal_decision.
  - intros p file H. by rewrite Matches_unfold, H.
  - eexists. split; [vm_compute; reflexivity|]. split; vm_compute; reflexivity.
Qed.

Lemma Matches_last_match_witness :
  exists m, NewPatternMatcher ["*.log"; "!important.log"] = Ok m /\
    trivialPath "logs/important.log" = false /\
    Matches m "logs/important.log" =
    match last (List.filter (matchPattern (normalize "logs/important.log"))
                  m.(ignorePatterns)) with
    | Some pat => negb pat.(negate)
    | None => false
    end.
Proof.
  eexists. split; [vm_compute; reflexivity|]. split; [reflexivity|].
  apply (proj1 Matches_last_match). reflexivity.
Defined.

(** ** Claims on the repository index *)



(** C6 does not hold of the code: the root /root holds no path of the
    sibling directory /root-extra, yet [Matches] takes such a path for one
    inside the root and answers with a decision and no error, whereas it
    reports /tmp/outside.log as outside the root. *)
Theorem Matches_accepts_sibling_of_root :
  repository.Matches {| repository.rootDir := "/root"; repository.matchers := ∅ |}
    "/tmp/outside.log" = Err repository.ErrOutsideRoot /\
  repository.Matches {| repository.rootDir := "/root"; repository.matchers := ∅ |}
    "/root-extra/secret.txt" = Ok false /\
  exists m, NewPatternMatcher ["*.txt"] = Ok m /\
    repository.Matches
      {| repository.rootDir := "/root"; repository.matchers := {[ "/root" := m ]} |}
      "/root-extra/secret.txt" = Ok true.
Proof.
  split; [vm_compute; reflexivity|]. split; [vm_compute; reflexivity|].
  eexists. split; [vm_compute; reflexivity|]. vm_compute. reflexivity.
Qed.

(** ** Claims on the pattern compiler *)

Lemma compileBody_cases (i : nat) (pat : string) (neg : bool) :
  let body :=
    let pat := strings.ReplaceAll pat backslash "/" in
    let pat := if strings.HasPrefix pat "/" then strings.TrimPrefix pat "/" else pat in
    if strings.HasSuffix pat "/" then strings.TrimSuffix pat "/" else pat in
  (body = "" /\ compileBody i pat neg = Failed (ErrEmptyPattern (i + 1))) \/
  (body <> "" /\ BuildRegex body = None /\
   compileBody i pat neg = Failed (ErrBuildRegex (i + 1))) \/
  (body <> "" /\ exists p, compileBody i pat neg = Compiled p /\ p.(pattern) = body).
Proof.
  intros body. unfold compileBody. fold body.
  destruct (String.eqb body "") eqn:E.
  - left. by apply String.eqb_eq in E.
  - apply String.eqb_neq in E. right.
    destruct (BuildRegex body) as [re|]; [right|left]; [|done].
    split; [done|]. by eexists.
Qed.

(** What the loop body does with a line, by cases on the line. *)
Lemma compileLine_cases (i : nat) (line : string) :
  (skipped line = true /\ compileLine i line = Skipped) \/
  (skipped line = false /\ strings.TrimSpace line = "!" /\
   compileLine i line = Failed (ErrSingleBang (i + 1))) \/
  (skipped line = false /\ strings.TrimSpace line <> "!" /\ bodyOf line = "" /\
   compileLine i line = Failed (ErrEmptyPattern (i + 1))) \/
  (skipped line = false /\ strings.TrimSpace line <> "!" /\ bodyOf line <> "" /\
   BuildRegex (bodyOf line) = None /\
   compileLine i line = Failed (ErrBuildRegex (i + 1))) \/
  (skipped line = false /\ strings.TrimSpace line <> "!" /\ bodyOf line <> "" /\
   exists p, compileLine i line = Compiled p /\ p.(pattern) = bodyOf line).
Proof.
  unfold compileLine, skipped, bodyOf.
  set (pat := strings.TrimSpace line).
  destruct (String.eqb pat "" || strings.HasPrefix pat "#") eqn:Hs; [by left|].
  right. unfold stripNegation.
  destruct (strings.HasPrefix pat (String backslash "!")) eqn:He.
  - assert (pat <> "!") as Hne.
    { intros E. rewrite E in He. done. }
    simpl orb. cbv iota.
    destruct (compileBody_cases i (strings.drop 1 pat) false) as [[? ?]|[(?&?&?)|(?&?)]];
      right; [left|right; left|right; right]; done.
  - destruct (strings.HasPrefix pat "!") eqn:Hb; simpl orb; cbv iota.
    + destruct (String.length pat =? 1) eqn:Hl.
      * left. split; [done|]. split; [|done].
        apply Nat.eqb_eq in Hl. apply HasPrefix_spec in Hb as [t ->].
        destruct t; [done|simpl in Hl; lia].
      * assert (pat <> "!") as Hne.
        { intros E. rewrite E in Hl. done. }
        destruct (compileBody_cases i (strings.drop 1 pat) true) as [[? ?]|[(?&?&?)|(?&?)]];
          right; [left|right; left|right; right]; done.
    + assert (pat <> "!") as Hne.
      { intros E. rewrite E in Hb. done. }
      destruct (compileBody_cases i pat false) as [[? ?]|[(?&?&?)|(?&?)]];
        right; [left|right; left|right; right]; done.
Qed.














(** C9 does not hold of the code: a bare double star is compiled to the
    dot of regexp, which stops at a line feed, so the pattern [**] does not
    match a name that holds one, and such a path is not ignored. *)
Theorem double_star_stops_at_line_feed :
  exists re m,
    BuildRegex "**" = Some re /\
    MatchString re "a/b" = true /\
    MatchString re (String "a" (String newline "b")) = false /\
    NewPatternMatcher ["**"] = Ok m /\
    Matches m (String "a" (String newline "b")) = false.
Proof.
  eexists. eexists. split; [vm_compute; reflexivity|].
  split; [vm_compute; reflexivity|]. split; [vm_compute; reflexivity|].
  split; [vm_compute; reflexivity|]. vm_compute. reflexivity.
Qed.

(** ** The boundary tests *)

Lemma drop_app_plus (a b : string) (k : nat) :
  strings.drop (String.length a + k) (a +:+ b) = strings.drop k b.
Proof. induction a; simpl; [by destruct k, b|done]. Qed.

(** [len(file) > n && file[n] == '/' && file[:n] == P] *)
Lemma prefix_form (file P : string) :
  (String.length P <? String.length file) && byteIs file (String.length P) "/" &&
  String.eqb (strings.take (String.length P) file) P = true <->
  exists x, file = P +:+ "/" +:+ x.
Proof.
  rewrite !andb_true_iff, Nat.ltb_lt, String.eqb_eq. split.
  - intros [[Hl [Hb _]%byteIs_true] Ht]. rewrite Ht in Hb.
    exists (strings.drop (S (String.length P)) file). exact Hb.
  - intros [x ->]. rewrite length_app_s. simpl. split; [split; [lia|]|].
    + apply byteIs_app.
    + apply take_app_s.
Qed.

(** [len(file) > n && file[len(file)-n:] == P && file[len(file)-n-1] == '/'] *)
Lemma suffix_form (file P : string) :
  (String.length P <? String.length file) &&
  String.eqb (strings.drop (String.length file - String.length P) file) P &&
  byteIs file (String.length file - String.length P - 1) "/" = true <->
  exists a, file = a +:+ "/" +:+ P.
Proof.
  rewrite !andb_true_iff, Nat.ltb_lt, String.eqb_eq. split.
  - intros [[Hl Hd] [Hb _]%byteIs_true].
    replace (S (String.length file - String.length P - 1))
      with (String.length file - String.length P) in Hb by lia.
    rewrite Hd in Hb.
    exists (strings.take (String.length file - String.length P - 1) file). exact Hb.
  - intros [a ->]. rewrite !length_app_s. simpl.
    replace (String.length a + S (String.length P) - String.length P)
      with (String.length a + 1) by lia.
    split; [split; [lia|]|].
    + by rewrite drop_app_plus.
    + replace (String.length a + 1 - 1) with (String.length a) by lia.
      apply byteIs_app.
Qed.

Lemma matchPathSeparatorPattern_spec (file : string) (p : ignorePattern) :
  matchPathSeparatorPattern file p = true <-> atBoundary p.(pattern) file.
Proof.
  unfold matchPathSeparatorPattern, atBoundary.
  destruct (String.eqb file (pattern p)) eqn:E1.
  { apply String.eqb_eq in E1. tauto. }
  apply String.eqb_neq in E1.
  destruct (_ && _ && String.eqb (strings.take _ _) _) eqn:E2.
  { apply prefix_form in E2. tauto. }
  destruct (_ && _ && byteIs _ _ _) eqn:E3.
  { apply suffix_form in E3. tauto. }
  rewrite Contains_spec. split.
  - intros (a & x & ->). right. right. right. exists a, x.
    by rewrite !app_assoc_s.
  - intros [?|[H|[H|(a & x & ->)]]]; [done|..].
    + apply prefix_form in H. congruence.
    + apply suffix_form in H. congruence.
    + exists a, x. by rewrite !app_assoc_s.
Qed.

Lemma matchDirectoryPattern_forms (file : string) (p : ignorePattern) :
  matchDirectoryPattern file p = true ->
  file = p.(pattern) \/ exists x, file = p.(pattern) +:+ "/" +:+ x.
Proof.
  unfold matchDirectoryPattern.
  destruct (String.eqb file (pattern p)) eqn:E1.
  { apply String.eqb_eq in E1. tauto. }
  destruct (_ && _ && String.eqb (strings.take _ _) _) eqn:E2.
  { apply prefix_form in E2. tauto. }
  rewrite !andb_true_iff, Nat.eqb_eq, String.eqb_eq.
  intros [[Hl [Hb _]%byteIs_true] Ht]. right.
  replace (String.length file - 1) with (String.length (pattern p)) in Hb by lia.
  rewrite Ht in Hb.
  exists (strings.drop (S (String.length (pattern p))) file). exact Hb.
Qed.

(** The predicate of a compiled literal pattern holds of its text only. *)
Lemma compiled_literal (i : nat) (line : string) (p : ignorePattern) (file : string) :
  compileLine i line = Compiled p ->
  strings.mem "[" p.(pattern) = false ->
  strings.ContainsAny p.(pattern) "*?" = false ->
  MatchString p.(regexPattern) file = true <-> file = p.(pattern).
Proof.
  intros Hc Hb Hw. rewrite (compiled_globs i line) by done.
  by apply globWord_literal.
Qed.

(** ** Segments *)

Lemma Contains_byte (s : string) (c : ascii) :
  strings.Contains s (String c "") = strings.mem c s.
Proof.
  induction s as [|d s IH]; [done|].
  rewrite Contains_cons, mem_cons, IH. f_equal.
  change (strings.HasPrefix (String d s) (String c ""))
    with (Ascii.eqb d c && true).
  by rewrite andb_true_r, Ascii.eqb_sym.
Qed.

Lemma Split_whole (s : string) (c : ascii) :
  strings.mem c s = false -> strings.Split s c = [s].
Proof.
  induction s as [|d s IH]; [done|].
  rewrite mem_cons. intros [Hd Hs]%orb_false_iff. simpl.
  rewrite Ascii.eqb_sym, Hd, IH by done. done.
Qed.

Lemma Split_first (a b : string) (c : ascii) :
  strings.mem c a = false ->
  strings.Split (a +:+ String c b) c = a :: strings.Split b c.
Proof.
  induction a as [|d a IH]; simpl.
  - intros _. by rewrite Ascii.eqb_refl.
  - intros [Hd Ha]%orb_false_iff. rewrite Ascii.eqb_sym, Hd, IH by done. done.
Qed.

Lemma Join_two_has_sep (x y : string) (l : list string) (c : ascii) :
  strings.mem c (strings.Join (x :: y :: l) (String c "")) = true.
Proof.
  change (strings.Join (x :: y :: l) (String c ""))
    with (x +:+ String c "" +:+ strings.Join (y :: l) (String c "")).
  rewrite !mem_app, mem_cons, Ascii.eqb_refl. by rewrite orb_true_r.
Qed.

Lemma in_drop {A : Type} (x : A) (i : nat) (l : list A) :
  In x (drop i l) -> In x l.
Proof.
  revert i. induction l as [|y l IH]; intros [|i]; simpl; try done.
  intros H. right. by eapply IH.
Qed.

Lemma Split_nonempty (s : string) (c : ascii) : strings.Split s c <> [].
Proof.
  destruct s as [|d s]; simpl; [done|].
  destruct (Ascii.eqb d c); [done|]. by destruct (strings.Split s c).
Qed.

Lemma Split_app (a b : string) (c : ascii) :
  strings.Split (a +:+ String c b) c = strings.Split a c ++ strings.Split b c.
Proof.
  induction a as [|d a IH]; simpl.
  - by rewrite Ascii.eqb_refl.
  - rewrite IH. destruct (Ascii.eqb d c); [done|].
    destruct (strings.Split a c) eqn:E; [by apply Split_nonempty in E|done].
Qed.

Lemma Join_cons (x : string) (l : list string) (sep : string) :
  l <> [] -> strings.Join (x :: l) sep = x +:+ sep +:+ strings.Join l sep.
Proof. by destruct l. Qed.

Lemma Join_app (l1 l2 : list string) (sep : string) :
  l1 <> [] -> l2 <> [] ->
  strings.Join (l1 ++ l2) sep = strings.Join l1 sep +:+ sep +:+ strings.Join l2 sep.
Proof.
  intros H1 H2. induction l1 as [|x l1 IH]; [done|].
  destruct l1 as [|y l1].
  - simpl app. by rewrite Join_cons.
  - change ((x :: y :: l1) ++ l2) with (x :: (y :: l1) ++ l2).
    rewrite !Join_cons, IH by done. by rewrite !app_assoc_s.
Qed.

Lemma Join_Split (s : string) (c : ascii) :
  strings.Join (strings.Split s c) (String c "") = s.
Proof.
  induction s as [|d s IH]; [done|]. simpl.
  destruct (Ascii.eqb d c) eqn:E.
  - apply Ascii.eqb_eq in E as ->.
    rewrite Join_cons by apply Split_nonempty. by rewrite IH.
  - destruct (strings.Split s c) as [|h r] eqn:Es; [by apply Split_nonempty in Es|].
    destruct r as [|h' r].
    + simpl in *. by rewrite IH.
    + rewrite Join_cons in * by done. rewrite <-IH. done.
Qed.

(** [matchWildcardSubpaths]: the predicate matches the candidate, or what
    follows one of its slashes. *)
Lemma matchWildcardSubpaths_spec (file : string) (p : ignorePattern) :
  matchWildcardSubpaths file p = true <->
  MatchString p.(regexPattern) file = true \/
  exists a s, file = a +:+ "/" +:+ s /\ MatchString p.(regexPattern) s = true.
Proof.
  unfold matchWildcardSubpaths.
  set (parts := strings.Split file "/").
  assert (strings.Join parts "/" = file) as Hj by apply Join_Split.
  assert (forall k, 0 < k < length parts ->
            strings.Join (take k parts) "/" +:+ "/" +:+ strings.Join (drop k parts) "/" = file)
    as Hsplit.
  { intros k Hk. rewrite <-Join_app.
    - by rewrite take_drop.
    - intros E. apply (f_equal length) in E. rewrite length_take in E. simpl in E. lia.
    - intros E. apply (f_equal length) in E. rewrite length_drop in E. simpl in E. lia. }
  split.
  - destruct (existsb _ (seq 0 _)) eqn:E1.
    + intros _. apply existsb_exists in E1 as (k & Hk%in_seq & Hm).
      destruct k as [|k].
      * left. by rewrite drop_0, Hj in Hm.
      * right. exists (strings.Join (take (S k) parts) "/"), (strings.Join (drop (S k) parts) "/").
        split; [|done]. symmetry. apply Hsplit. lia.
    + intros (k & Hk%in_seq & Hm)%existsb_exists. left.
      rewrite Hsplit in Hm by lia. done.
  - intros H. assert (existsb
      (fun i => MatchString (regexPattern p) (strings.Join (drop i parts) "/"))
      (seq 0 (length parts)) = true) as ->; [|done].
    apply existsb_exists. destruct H as [H|(a & s & -> & H)].
    + exists 0. split.
      * apply in_seq. pose proof (Split_nonempty file "/"). fold parts in H0.
        destruct parts; [done|]. simpl. lia.
      * by rewrite drop_0, Hj.
    + exists (length (strings.Split a "/")).
      unfold parts. change ("/" +:+ s) with (String "/"%char s).
      rewrite Split_app. split.
      * apply in_seq. rewrite length_app.
        pose proof (Split_nonempty s "/"). destruct (strings.Split s "/"); [done|].
        simpl. lia.
      * rewrite drop_app_length. by rewrite Join_Split.
Qed.

(** ** Claims on the per-pattern tests *)

Lemma matchPattern_anywhere (file : string) (p : ignorePattern) :
  p.(isRootRelative) = false ->
  matchPattern file p =
  MatchString p.(regexPattern) file ||
  (p.(isDirectory) && matchDirectoryPattern file p) ||
  (p.(hasWildcard) && matchWildcardSubpaths file p) ||
  (if strings.Contains p.(pattern) "/" then matchPathSeparatorPattern file p
   else matchSimplePattern file p).
Proof.
  intros Hr. unfold matchPattern. rewrite Hr.
  destruct (MatchString _ _); [done|].
  destruct (_ && matchDirectoryPattern _ _); [done|].
  by destruct (_ && matchWildcardSubpaths _ _).
Qed.

(** C2, as stated, fails on two kinds of compiled patterns whose text holds
    a slash: with a wildcard, a/b* matches a/bc, which has none of the four
    shapes, and does not match a/bc/d, the same name with a path after it;
    anchored at the root, /a/b does not match x/a/b, which has one of the
    four shapes. *)
Lemma boundary_law_counterexample :
  (exists m p,
     NewPatternMatcher ["a/b*"] = Ok m /\ m.(ignorePatterns) = [p] /\
     strings.Contains p.(pattern) "/" = true /\
     matchPattern "a/bc" p = true /\ ~ atBoundary p.(pattern) "a/bc" /\
     matchPattern "a/bc/d" p = false) /\
  (exists m p,
     NewPatternMatcher ["/a/b"] = Ok m /\ m.(ignorePatterns) = [p] /\
     strings.Contains p.(pattern) "/" = true /\
     matchPattern "x/a/b" p = false /\ atBoundary p.(pattern) "x/a/b").
Proof.
  split.
  - eexists. eexists. split; [vm_compute; reflexivity|].
    split; [reflexivity|]. split; [vm_compute; reflexivity|].
    split; [vm_compute; reflexivity|].
    split; [|vm_compute; reflexivity].
    rewrite <-matchPathSeparatorPattern_spec. vm_compute. discriminate.
  - eexists. eexists. split; [vm_compute; reflexivity|].
    split; [reflexivity|]. split; [vm_compute; reflexivity|].
    split; [vm_compute; reflexivity|].
    right. right. left. by exists "x".
Qed.

(** C2 (amended): a compiled pattern that is not anchored at the root and
    whose text P holds a slash matches a candidate exactly when its
    predicate matches the whole candidate, or, for a pattern with a
    wildcard, what follows one of the slashes of the candidate, or the
    candidate is P, P/..., .../P or .../P/...; when P holds neither wildcard
    nor bracket expression the pattern matches exactly the candidates of
    these four shapes; so a/b matches a/b, a/b/c, x/a/b and x/a/b/c and
    matches none of xa/b, a/bc and a/bc/d, and src/test matches src/test and
    foo/src/test and neither mysrc/test nor src/test2. *)
Theorem boundary_law :
  (forall p file,
     p.(isRootRelative) = false ->
     strings.Contains p.(pattern) "/" = true ->
     matchPattern file p = true <->
     MatchString p.(regexPattern) file = true \/
     (p.(hasWildcard) = true /\
      exists a s, file = a +:+ "/" +:+ s /\ MatchString p.(regexPattern) s = true) \/
     atBoundary p.(pattern) file) /\
  (forall i line p file,
     compileLine i line = Compiled p ->
     p.(isRootRelative) = false ->
     strings.Contains p.(pattern) "/" = true ->
     strings.mem "[" p.(pattern) = false ->
     strings.ContainsAny p.(pattern) "*?" = false ->
     matchPattern file p = true <-> atBoundary p.(pattern) file) /\
  (exists m,
     NewPatternMatcher ["a/b"] = Ok m /\
     Matches m "a/b" = true /\ Matches m "a/b/c" = true /\
     Matches m "x/a/b" = true /\ Matches m "x/a/b/c" = true /\
     Matches m "xa/b" = false /\ Matches m "a/bc" = false /\
     Matches m "a/bc/d" = false) /\
  (exists m,
     NewPatternMatcher ["src/test"] = Ok m /\
     Matches m "src/test" = true /\ Matches m "foo/src/test" = true /\
     Matches m "mysrc/test" = false /\ Matches m "src/test2" = false).
Proof.
  assert (forall p file,
     p.(isRootRelative) = false ->
     strings.Contains p.(pattern) "/" = true ->
     matchPattern file p = true <->
     MatchString p.(regexPattern) file = true \/
     (p.(hasWildcard) = true /\
      exists a s, file = a +:+ "/" +:+ s /\ MatchString p.(regexPattern) s = true) \/
     atBoundary p.(pattern) file) as Hgen.
  { intros p file Hr Hs. rewrite matchPattern_anywhere, Hs by done.
    rewrite !orb_true_iff, !andb_true_iff.
    rewrite matchPathSeparatorPattern_spec, matchWildcardSubpaths_spec. split.
    - intros [[[?|[_ H]]|[? [?|?]]]|?]; try tauto.
      apply matchDirectoryPattern_forms in H as [->|H]; right; right.
      + by left.
      + right. by left.
    - tauto. }
  split; [done|]. split; [|split].
  - intros i line p file Hc Hr Hs Hb Hw. rewrite Hgen by done.
    destruct (compileLine_inv i line p Hc) as (_ & _ & _ & Hh).
    rewrite Hh, Hw, (compiled_literal i line) by done. split; [|tauto].
    intros [->|[[? _]|?]]; [by left|done|done].
  - eexists. split; [vm_compute; reflexivity|].
    repeat (split; [vm_compute; reflexivity|]). vm_compute. reflexivity.
  - eexists. split; [vm_compute; reflexivity|].
    repeat (split; [vm_compute; reflexivity|]). vm_compute. reflexivity.
Qed.

Lemma boundary_law_witness :
  exists p, compileLine 0 "src/test" = Compiled p /\
    matchPattern "foo/src/test/x" p = true.
Proof.
  eexists. split; [vm_compute; reflexivity|].
  eapply (proj1 (proj2 boundary_law) 0 "src/test"); try (vm_compute; reflexivity).
  right. right. right. by exists "foo", "x".
Defined.

Lemma matchRootRelativePattern_spec (file : string) (p : ignorePattern) :
  matchRootRelativePattern file p = true <->
  MatchString p.(regexPattern) file = true \/ file = p.(pattern) \/
  exists x, file = p.(pattern) +:+ "/" +:+ x.
Proof.
  unfold matchRootRelativePattern.
  destruct (MatchString _ _); [tauto|].
  assert (forall b, b || strings.HasPrefix file (pattern p +:+ "/") = true <->
            b = true \/ exists x, file = pattern p +:+ "/" +:+ x) as Hp.
  { intros b. rewrite orb_true_iff, HasPrefix_spec.
    by setoid_rewrite app_assoc_s. }
  destruct (isDirectory p); rewrite Hp.
  - rewrite orb_true_iff, !String.eqb_eq. split.
    + intros [[->| ->]|H]; [tauto| |tauto]. right. right. by exists "".
    + intros [?|[->|H]]; [done|tauto|tauto].
  - rewrite String.eqb_eq. split.
    + intros [->|H]; tauto.
    + intros [?|[->|H]]; [done|tauto|tauto].
Qed.

(** C3, as stated, fails for a pattern anchored at the root whose body is a
    double star: /** matches nested/**/x.txt, a path a/P/x with the prefix
    a = nested.  It also fails when the path a/P/x begins with P/ itself:
    /x matches x/x/y. *)
Lemma anchoring_law_counterexample :
  (exists m p,
     NewPatternMatcher ["/**"] = Ok m /\ m.(ignorePatterns) = [p] /\
     p.(isRootRelative) = true /\
     matchPattern ("nested" +:+ "/" +:+ p.(pattern) +:+ "/" +:+ "x.txt") p = true /\
     Matches m "nested/**/x.txt" = true) /\
  (exists m p,
     NewPatternMatcher ["/x"] = Ok m /\ m.(ignorePatterns) = [p] /\
     p.(isRootRelative) = true /\
     matchPattern ("x" +:+ "/" +:+ p.(pattern) +:+ "/" +:+ "y") p = true /\
     Matches m "x/x/y" = true).
Proof.
  split.
  - eexists. eexists. split; [vm_compute; reflexivity|].
    split; [reflexivity|]. split; [vm_compute; reflexivity|].
    split; vm_compute; reflexivity.
  - eexists. eexists. split; [vm_compute; reflexivity|].
    split; [reflexivity|]. split; [vm_compute; reflexivity|].
    split; vm_compute; reflexivity.
Qed.

(** C3 (amended): a compiled pattern /P anchored at the root matches
    exactly the candidates its predicate matches as a whole, P itself and
    P/x for every x; when P holds neither wildcard nor bracket expression it
    matches P and the paths P/x only, so that a path a/P/x is matched only
    if it begins with P/ itself; the set of the one line /build/ ignores
    build/x.txt and does not ignore nested/build/x.txt. *)
Theorem anchoring_law :
  (forall p file,
     p.(isRootRelative) = true ->
     matchPattern file p = true <->
     MatchString p.(regexPattern) file = true \/ file = p.(pattern) \/
     exists x, file = p.(pattern) +:+ "/" +:+ x) /\
  (forall i line p file,
     compileLine i line = Compiled p -> p.(isRootRelative) = true ->
     strings.mem "[" p.(pattern) = false ->
     strings.ContainsAny p.(pattern) "*?" = false ->
     matchPattern file p = true <->
     file = p.(pattern) \/ exists x, file = p.(pattern) +:+ "/" +:+ x) /\
  (forall i line p a x,
     compileLine i line = Compiled p -> p.(isRootRelative) = true ->
     strings.mem "[" p.(pattern) = false ->
     strings.ContainsAny p.(pattern) "*?" = false ->
     matchPattern (a +:+ "/" +:+ p.(pattern) +:+ "/" +:+ x) p = true ->
     strings.HasPrefix (a +:+ "/" +:+ p.(pattern) +:+ "/" +:+ x)
       (p.(pattern) +:+ "/") = true) /\
  (exists m,
     NewPatternMatcher ["/build/"] = Ok m /\
     Matches m "build/x.txt" = true /\ Matches m "nested/build/x.txt" = false).
Proof.
  assert (forall p file,
     p.(isRootRelative) = true ->
     matchPattern file p = true <->
     MatchString p.(regexPattern) file = true \/ file = p.(pattern) \/
     exists x, file = p.(pattern) +:+ "/" +:+ x) as Hgen.
  { intros p file Hr. unfold matchPattern. rewrite Hr.
    apply matchRootRelativePattern_spec. }
  assert (forall i line p file,
     compileLine i line = Compiled p -> p.(isRootRelative) = true ->
     strings.mem "[" p.(pattern) = false ->
     strings.ContainsAny p.(pattern) "*?" = false ->
     matchPattern file p = true <->
     file = p.(pattern) \/ exists x, file = p.(pattern) +:+ "/" +:+ x) as Hiff.
  { intros i line p file Hc Hr Hb Hw.
    rewrite Hgen, (compiled_literal i line) by done. tauto. }
  split; [done|]. split; [done|]. split.
  - intros i line p a x Hc Hr Hb Hw H.
    apply (Hiff i line) in H as [H|[y H]]; try done.
    + apply (f_equal String.length) in H. rewrite !length_app_s in H.
      simpl in H. lia.
    + rewrite H. apply HasPrefix_spec. exists y. by rewrite app_assoc_s.
  - eexists. split; [vm_compute; reflexivity|]. split; vm_compute; reflexivity.
Qed.

Lemma anchoring_law_witness :
  exists p, compileLine 0 "/build/" = Compiled p /\
    matchPattern "build/out/x.txt" p = true.
Proof.
  eexists. split; [vm_compute; reflexivity|].
  eapply (proj1 (proj2 anchoring_law) 0 "/build/"); try (vm_compute; reflexivity).
  right. by exists "out/x.txt".
Defined.

(** C7, as stated, fails for the pattern a**b, which holds no slash and is
    not anchored at the root: it matches the path a/b and none of its
    segments.  So does x[^a]y with the path x/y: the negated bracket
    expression matches the slash. *)
Lemma segment_law_counterexample :
  (exists m p,
     NewPatternMatcher ["a**b"] = Ok m /\ m.(ignorePatterns) = [p] /\
     p.(isRootRelative) = false /\ strings.Contains p.(pattern) "/" = false /\
     matchPattern "a/b" p = true /\
     existsb (fun segment => matchPattern segment p) (strings.Split "a/b" "/") = false /\
     matchSimplePattern "a/b" p = false) /\
  (exists m p,
     NewPatternMatcher ["x[^a]y"] = Ok m /\ m.(ignorePatterns) = [p] /\
     p.(isRootRelative) = false /\ strings.Contains p.(pattern) "/" = false /\
     matchPattern "x/y" p = true /\
     existsb (fun segment => matchPattern segment p) (strings.Split "x/y" "/") = false /\
     matchSimplePattern "x/y" p = false).
Proof.
  split.
  - eexists. eexists. split; [vm_compute; reflexivity|].
    split; [reflexivity|].
    repeat (split; [vm_compute; reflexivity|]). vm_compute. reflexivity.
  - eexists. eexists. split; [vm_compute; reflexivity|].
    split; [reflexivity|].
    repeat (split; [vm_compute; reflexivity|]). vm_compute. reflexivity.
Qed.

(** C7 (amended): a pattern that is not anchored at the root and whose text
    holds no slash matches every path one of whose segments its predicate
    matches; when the text holds neither a double star nor a bracket
    expression the converse holds too: the pattern matches a path exactly
    when it matches at least one of the segments of the path. *)
Theorem segment_law :
  (forall p file,
     p.(isRootRelative) = false ->
     strings.Contains p.(pattern) "/" = false ->
     existsb (MatchString p.(regexPattern)) (strings.Split file "/") = true ->
     matchPattern file p = true) /\
  (forall i line p file,
     compileLine i line = Compiled p ->
     p.(isRootRelative) = false ->
     strings.Contains p.(pattern) "/" = false ->
     strings.Contains p.(pattern) "**" = false ->
     strings.mem "[" p.(pattern) = false ->
     matchPattern file p =
     existsb (MatchString p.(regexPattern)) (strings.Split file "/")).
Proof.
  assert (forall p file,
     p.(isRootRelative) = false ->
     strings.Contains p.(pattern) "/" = false ->
     existsb (MatchString p.(regexPattern)) (strings.Split file "/") = true ->
     matchPattern file p = true) as Hfwd.
  { intros p file Hr Hs H. rewrite matchPattern_anywhere, Hs by done.
    unfold matchSimplePattern. rewrite H. by rewrite orb_true_r. }
  split; [done|].
  intros i line p file Hc Hr Hs Hd Hb.
  destruct (existsb _ (strings.Split file "/")) eqn:Hseg; [by apply Hfwd|].
  assert (forall s, In s (strings.Split file "/") ->
            MatchString p.(regexPattern) s = false) as Hno.
  { intros s Hin. destruct (MatchString _ s) eqn:E; [|done].
    assert (existsb (MatchString (regexPattern p)) (strings.Split file "/") = true)
      as H by (apply existsb_exists; eauto). congruence. }
  change "/" with (String "/"%char "") in Hs. rewrite Contains_byte in Hs.
  destruct (globWord_simple p.(pattern) Hd) as [Hfree Hself].
  assert (forall s, MatchString p.(regexPattern) s = true -> strings.mem "/" s = false)
    as Hre.
  { intros s H. apply (compiled_globs i line) in H; [|done..]. by apply Hfree. }
  assert (MatchString p.(regexPattern) p.(pattern) = true) as Hpp.
  { by apply (compiled_globs i line). }
  rewrite matchPattern_anywhere by done.
  change "/" with (String "/"%char "") at 1. rewrite Contains_byte, Hs.
  unfold matchSimplePattern. rewrite Hseg, orb_false_r.
  apply orb_false_iff. split; [apply orb_false_iff; split|].
  - destruct (MatchString _ file) eqn:E; [|done].
    rewrite <-(Hno file); [done|]. rewrite Split_whole by by apply Hre. by left.
  - destruct (isDirectory p); [|done]. simpl.
    destruct (matchDirectoryPattern file p) eqn:E; [|done].
    apply matchDirectoryPattern_forms in E as [->|[x ->]].
    + rewrite <-(Hno p.(pattern)); [done|]. rewrite Split_whole by done. by left.
    + rewrite <-(Hno p.(pattern)); [done|].
      change ("/" +:+ x) with (String "/"%char x).
      rewrite Split_first by done. by left.
  - destruct (hasWildcard p); [|done]. simpl.
    unfold matchWildcardSubpaths.
    destruct (existsb _ (seq 0 _)) eqn:E1.
    + apply existsb_exists in E1 as (k & Hk & Hm).
      pose proof (Hre _ Hm) as Hf.
      destruct (drop k (strings.Split file "/")) as [|s [|s' l]] eqn:Ed.
      * apply in_seq in Hk. apply (f_equal length) in Ed.
        rewrite length_drop in Ed. simpl in Ed. lia.
      * simpl in Hm. rewrite <-(Hno s); [done|].
        apply (in_drop _ k). rewrite Ed. by left.
      * change "/" with (String "/"%char "") in Hf.
        by rewrite Join_two_has_sep in Hf.
    + apply not_true_is_false. intros (k & _ & Hm)%existsb_exists.
      apply Hre in Hm. rewrite !mem_app in Hm. simpl in Hm.
      by rewrite orb_true_r in Hm.
Qed.

Lemma segment_law_witness :
  exists p, compileLine 0 "*.log" = Compiled p /\
    matchPattern "var/tmp/app.log" p = true.
Proof.
  eexists. split; [vm_compute; reflexivity|].
  eapply (proj1 segment_law); vm_compute; reflexivity.
Defined.

(** ** The tests of the repository, run on the model *)

(** [internal/util_test.go], TestBuildRegex and TestBuildRegexEdgeCases. *)
Example util_test_BuildRegex :
  regexAnswers "*.txt"
    ["file.txt"; "a.txt"; ".txt"; "file.log"; "a/b.txt"; "filetxt"; "file.txt.bak"]
  = Some [true; true; true; false; false; false; false] /\
  regexAnswers "file?.txt"
    ["file1.txt"; "file_.txt"; "file.txt"; "file12.txt"; "file/.txt"]
  = Some [true; true; false; false; false] /\
  regexAnswers "**/test"
    ["test"; "dir/test"; "a/b/c/test"; "testing"; "test/file"; "dir/testing"]
  = Some [true; true; true; false; false; false] /\
  regexAnswers "**/dir/"
    ["dir/"; "path/dir/"; "a/b/c/dir/"; "dir"; "directory/"; "dir/file"]
  = Some [true; true; true; false; false; false] /\
  regexAnswers (String "a" (String backslash "*b")) ["a*b"; "ab"; "aXb"; "a**b"]
  = Some [true; false; false; false] /\
  regexAnswers "file[0-9].txt" ["file0.txt"; "file9.txt"; "file.txt"; "filea.txt"; "file10.txt"]
  = Some [true; true; false; false; false] /\
  regexAnswers "build/" ["build/"; "build"; "building/"; "rebuild/"]
  = Some [true; false; false; false] /\
  regexAnswers "src/**/test/*.js"
    ["src/test/app.js"; "src/components/test/util.js"; "src/a/b/c/test/file.js";
     "src/test.js"; "src/test/"; "test/app.js"; "src/test/app.ts"]
  = Some [true; true; true; false; false; false; false] /\
  regexAnswers "" [] = None /\
  regexAnswers "file.log" ["file.log"; "fileXlog"; "file.log.bak"]
  = Some [true; false; false] /\
  regexAnswers "file$(test).txt" ["file$(test).txt"; "file$test.txt"; "file(test).txt"]
  = Some [true; false; false] /\
  regexAnswers (String.append "file" (String backslash ""))
    [String.append "file" (String backslash "")] = Some [true] /\
  regexAnswers (String.append "file" (String backslash "?")) ["file?"] = Some [true] /\
  regexAnswers "file[incomplete" ["file[incomplete"] = Some [true] /\
  regexAnswers "dir/**" ["dir/file.txt"] = Some [true] /\
  regexAnswers "dir/*" ["dir/sub/file.txt"] = Some [false].
Proof. repeat (split; [vm_compute; reflexivity|]). vm_compute. reflexivity. Qed.

(** [dotignore_test.go]: TestDirectoryPatterns, TestNegationPatterns,
    TestSubstringMatchingBug, TestConsecutiveWildcards,
    TestRootRelativeWithWildcards and TestWindowsPaths. *)
Example dotignore_test_Matches :
  matcherAnswers ["build/"; "*.tmp"; "src/test/"]
    ["build/"; "build/file.txt"; "file.tmp"; "src/test/"; "src/test/file.js";
     "other/"; "file.txt"]
  = Some [true; true; true; true; true; false; false] /\
  matcherAnswers ["*.log"; "!important.log"; "temp/"; "!temp/keep.txt"]
    ["app.log"; "important.log"; "temp/cache.txt"; "temp/keep.txt"; "other.txt"]
  = Some [true; false; true; false; false] /\
  matcherAnswers ["src/test"]
    ["src/test"; "foo/src/test"; "src/test/file"; "mysrc/test"; "src/test2"]
  = Some [true; true; true; false; false] /\
  matcherAnswers ["*?*"; "?*?"; "a*?*c.txt"]
    ["ab"; "abc"; "a"; "axc.txt"; "abc.txt"; "ac.txt"]
  = Some [true; true; true; true; true; true] /\
  matcherAnswers ["/*.txt"; "/src/*.go"; "/test/**"]
    ["file.txt"; "dir/file.txt"; "src/main.go"; "src/util/helper.go";
     "lib/src/main.go"; "test/file.txt"; "test/sub/file.txt"; "src/test/file.txt"]
  = Some [true; false; true; false; false; true; true; false] /\
  matcherAnswers
    [String.append "src" (String backslash "*.txt");
     String.append "build" (String backslash "")]
    ["src/test.txt"; String.append "src" (String backslash "test.txt");
     "build/"; String.append "build" (String backslash "")]
  = Some [true; true; true; true].
Proof. repeat (split; [vm_compute; reflexivity|]). vm_compute. reflexivity. Qed.

(** The results of [filepath.Clean], [filepath.Join] and [filepath.Rel] that
    the Go documentation gives. *)
Example filepath_examples :
  map filepath.Clean ["a/c"; "a//c"; "a/c/."; "a/c/b/.."; "/../a/c"; "/../a/b/../././/c"; ""; "/"; "a/../.."; "../../a"]
  = ["a/c"; "a/c"; "a/c"; "a/c"; "/a/c"; "/a/c"; "."; "/"; ".."; "../../a"] /\
  filepath.Join "a" "b/c" = "a/b/c" /\
  filepath.Join "a/b" "../../../xyz" = "../xyz" /\
  filepath.Join "" "a" = "a" /\
  map (filepath.Rel "/a") ["/a/b/c"; "/b/c"; "/a"; "./b/c"]
  = [Some "b/c"; Some "../b/c"; Some "."; None].
Proof. repeat (split; [vm_compute; reflexivity|]). vm_compute. reflexivity. Qed.

(** * Further properties *)

(** ** The loop of [buildIgnorePatterns] *)

Lemma compileLine_shift (i j : nat) (line : string) :
  match compileLine i line with
  | Skipped => compileLine j line = Skipped
  | Compiled p => compileLine j line = Compiled p
  | Failed _ => exists e, compileLine j line = Failed e
  end.
Proof.
  unfold compileLine, stripNegation, compileBody. cbv zeta.
  repeat match goal with
         | |- context [if ?b then _ else _] => destruct b; simpl; eauto
         | |- context [match BuildRegex ?b with _ => _ end] =>
             destruct (BuildRegex b); simpl; eauto
         end.
Qed.


Lemma compileLine_compiledLine (i : nat) (line : string) (p : ignorePattern) :
  compileLine i line = Compiled p <-> compiledLine line = Some p.
Proof.
  unfold compiledLine. pose proof (compileLine_shift i 0 line) as H.
  destruct (compileLine i line) as [|e|q]; [rewrite H; by split| |rewrite H].
  - destruct H as [e' ->]. by split.
  - split; congruence.
Qed.

Lemma compileLine_skipped (i : nat) (line : string) :
  compileLine i line = Skipped <-> skipped line = true.
Proof.
  unfold skipped. destruct (compileLine_cases i line)
    as [[H ->]|[(H & _ & ->)|[(H & _ & _ & ->)|[(H & _ & _ & _ & ->)|
        (H & _ & _ & p & -> & _)]]]];
    unfold skipped in H; rewrite H; split; congruence.
Qed.

Lemma buildLoop_acc (patterns : list string) :
  forall i acc,
    buildLoop i patterns acc =
    match buildLoop i patterns [] with
    | Ok ps => Ok (acc ++ ps)
    | Err e => Err e
    end.
Proof.
  induction patterns as [|line rest IH]; intros i acc; simpl.
  - by rewrite app_nil_r.
  - destruct (compileLine i line); [apply IH|done|].
    rewrite (IH _ (acc ++ [p])), (IH _ ([] ++ [p])).
    destruct (buildLoop (S i) rest []); [|done]. by rewrite <-app_assoc.
Qed.

Lemma buildLoop_app (l1 l2 : list string) :
  forall i acc,
    buildLoop i (l1 ++ l2) acc =
    match buildLoop i l1 acc with
    | Ok ps => buildLoop (i + length l1) l2 ps
    | Err e => Err e
    end.
Proof.
  induction l1 as [|line rest IH]; intros i acc; simpl.
  - by rewrite Nat.add_0_r.
  - replace (i + S (length rest)) with (S i + length rest) by lia.
    destruct (compileLine i line); [apply IH|done|apply IH].
Qed.

(** The patterns of a list of lines that compiles are those of its lines,
    in their order. *)
Lemma buildLoop_omap (patterns : list string) :
  forall i acc ps,
    buildLoop i patterns acc = Ok ps -> ps = acc ++ omap compiledLine patterns.
Proof.
  induction patterns as [|line rest IH]; intros i acc ps; simpl.
  - intros [= <-]. by rewrite app_nil_r.
  - unfold compiledLine at 1. pose proof (compileLine_shift i 0 line) as H.
    destruct (compileLine i line) as [|e|p].
    + rewrite H. apply IH.
    + done.
    + rewrite H. intros ->%IH. by rewrite <-app_assoc.
Qed.

Lemma buildLoop_Ok_iff (patterns : list string) :
  forall i acc,
    (exists ps, buildLoop i patterns acc = Ok ps) <->
    forall line, In line patterns -> forall e, compileLine 0 line <> Failed e.
Proof.
  induction patterns as [|line rest IH]; intros i acc; simpl.
  - split; [by intros _ ? []|eauto].
  - pose proof (compileLine_shift i 0 line) as H.
    destruct (compileLine i line) as [|e|p] eqn:E.
    + rewrite IH. split.
      * intros Hr l [<-|Hl]; [by rewrite H|by apply Hr].
      * intros Hr l Hl. apply Hr. by right.
    + destruct H as [e' H]. split; [by intros [? [=]]|].
      intros Hr. exfalso. eapply (Hr line); eauto.
    + rewrite IH. split.
      * intros Hr l [<-|Hl]; [by rewrite H|by apply Hr].
      * intros Hr l Hl. apply Hr. by right.
Qed.

Lemma NewPatternMatcher_Ok (patterns : list string) (m : PatternMatcher) :
  NewPatternMatcher patterns = Ok m ->
  m.(ignorePatterns) = omap compiledLine patterns.
Proof.
  unfold NewPatternMatcher, buildIgnorePatterns.
  destruct (buildLoop 0 patterns []) as [ps|e] eqn:E; [|done].
  intros [= <-]. by apply buildLoop_omap in E.
Qed.

Lemma NewPatternMatcher_Ok_iff (patterns : list string) (m : PatternMatcher) :
  NewPatternMatcher patterns = Ok m <->
  (forall line, In line patterns -> forall e, compileLine 0 line <> Failed e) /\
  m = {| ignorePatterns := omap compiledLine patterns |}.
Proof.
  split.
  - intros H. pose proof (NewPatternMatcher_Ok _ _ H) as Hm. split.
    + apply (buildLoop_Ok_iff patterns 0 []).
      unfold NewPatternMatcher, buildIgnorePatterns in H.
      destruct (buildLoop 0 patterns []); [eauto|done].
    + destruct m. simpl in Hm. by subst.
  - intros [Hl ->]. apply (buildLoop_Ok_iff patterns 0 []) in Hl as [ps Hps].
    unfold NewPatternMatcher, buildIgnorePatterns. rewrite Hps.
    apply buildLoop_omap in Hps. by subst.
Qed.


(** ** White space around a pattern *)

Lemma TrimRight_idem (s : string) :
  strings.TrimRight (strings.TrimRight s) = strings.TrimRight s.
Proof.
  induction s as [|c t IH]; [done|]. simpl.
  destruct (strings.TrimRight t) as [|d t'] eqn:E.
  - destruct (strings.isSpace c) eqn:Ec; [done|]. simpl. by rewrite Ec.
  - change (strings.TrimRight (String c (String d t'))) with
      (match strings.TrimRight (String d t') with
       | EmptyString =>
           if strings.isSpace c then EmptyString else String c EmptyString
       | t'' => String c t''
       end).
    by rewrite IH.
Qed.

Lemma TrimLeft_head (s : string) :
  strings.TrimLeft s = "" \/
  exists c t, strings.TrimLeft s = String c t /\ strings.isSpace c = false.
Proof.
  induction s as [|c t IH]; [by left|]. simpl.
  destruct (strings.isSpace c) eqn:E; [done|]. right. eauto.
Qed.

Lemma TrimRight_head (c : ascii) (t : string) :
  strings.isSpace c = false -> exists t', strings.TrimRight (String c t) = String c t'.
Proof.
  intros Hc. simpl. destruct (strings.TrimRight t); [|eauto].
  rewrite Hc. eauto.
Qed.

Lemma TrimSpace_idem (s : string) :
  strings.TrimSpace (strings.TrimSpace s) = strings.TrimSpace s.
Proof.
  unfold strings.TrimSpace.
  destruct (TrimLeft_head s) as [->|(c & t & -> & Hc)]; [done|].
  destruct (TrimRight_head c t Hc) as [t' E]. rewrite E.
  simpl strings.TrimLeft. rewrite Hc, <-E. apply TrimRight_idem.
Qed.

Lemma compileLine_TrimSpace (i : nat) (line : string) :
  compileLine i (strings.TrimSpace line) = compileLine i line.
Proof. unfold compileLine. by rewrite TrimSpace_idem. Qed.


(** ** Pattern lists put end to end *)

Lemma Matches_app (m : PatternMatcher) (ps1 ps2 : list ignorePattern)
    (file : string) :
  m.(ignorePatterns) = ps1 ++ ps2 ->
  Matches m file =
  if (MatchesWithTracking {| ignorePatterns := ps2 |} file).2
  then Matches {| ignorePatterns := ps2 |} file
  else Matches {| ignorePatterns := ps1 |} file.
Proof.
  intros Hm. rewrite !Matches_unfold, MatchesWithTracking_unfold.
  destruct (trivialPath file); [done|]. simpl.
  unfold matchesInternal. rewrite Hm. simpl. rewrite fold_left_app.
  rewrite !fold_matched.
  destruct (lastMatched ps2 (normalize file)) as [pat|] eqn:E.
  - destruct (existsb _ ps2) eqn:E'; [done|].
    apply lastMatched_None in E'. congruence.
  - apply lastMatched_None in E. by rewrite E.
Qed.

(** X3: a list of lines that is two lists put end to end compiles when both
    do, to the patterns of the first followed by those of the second; the
    answer of the whole is the answer of the second list where one of its
    patterns matches, and the answer of the first list elsewhere. *)
Theorem concatenation_law (l1 l2 : list string) (m1 m2 : PatternMatcher) :
  NewPatternMatcher l1 = Ok m1 -> NewPatternMatcher l2 = Ok m2 ->
  exists m,
    NewPatternMatcher (l1 ++ l2) = Ok m /\
    m.(ignorePatterns) = m1.(ignorePatterns) ++ m2.(ignorePatterns) /\
    forall file,
      Matches m file =
      if (MatchesWithTracking m2 file).2 then Matches m2 file else Matches m1 file.
Proof.
  intros [H1 ->]%NewPatternMatcher_Ok_iff [H2 ->]%NewPatternMatcher_Ok_iff.
  exists {| ignorePatterns := omap compiledLine (l1 ++ l2) |}.
  split; [|split].
  - apply NewPatternMatcher_Ok_iff. split; [|done].
    intros line [Hin|Hin]%in_app_iff; eauto.
  - simpl. apply omap_app.
  - intros file. apply Matches_app. simpl. apply omap_app.
Qed.

Lemma concatenation_law_witness :
  exists m1 m2 m,
    NewPatternMatcher ["*.log"] = Ok m1 /\
    NewPatternMatcher ["!important.log"] = Ok m2 /\
    NewPatternMatcher (["*.log"] ++ ["!important.log"]) = Ok m /\
    Matches m "important.log" =
    if (MatchesWithTracking m2 "important.log").2
    then Matches m2 "important.log" else Matches m1 "important.log".
Proof.
  eexists. eexists.
  assert (NewPatternMatcher ["*.log"] = Ok _) as H1 by (vm_compute; reflexivity).
  assert (NewPatternMatcher ["!important.log"] = Ok _) as H2
    by (vm_compute; reflexivity).
  destruct (concatenation_law _ _ _ _ H1 H2) as (m & Hm & _ & HM).
  exists m. split; [exact H1|]. split; [exact H2|]. split; [exact Hm|].
  apply HM.
Defined.

(** ** Negated lines *)

Lemma compiledLine_negate (line : string) (p : ignorePattern) :
  compiledLine line = Some p -> p.(negate) = negated line.
Proof.
  intros Hc%(compileLine_compiledLine 0). revert Hc.
  unfold compileLine, negated, stripNegation.
  destruct (_ || _); [done|].
  destruct (strings.HasPrefix _ (String backslash "!")) eqn:E1.
  - intros (_ & _ & _ & _ & ->)%compileBody_inv.
    apply HasPrefix_spec in E1 as [t ->]. done.
  - destruct (strings.HasPrefix _ "!"); [destruct (_ =? 1); [done|]|];
      by intros (_ & _ & _ & _ & ->)%compileBody_inv.
Qed.

Lemma Matches_all_negated (m : PatternMatcher) (file : string) :
  (forall p, In p m.(ignorePatterns) -> p.(negate) = true) ->
  Matches m file = false.
Proof.
  intros Hn. rewrite Matches_unfold. destruct (trivialPath file); [done|].
  rewrite matchesInternal_decision. unfold decision, lastMatched.
  destruct (last _) as [pat|] eqn:E; [|done].
  apply last_Some in E as [l' E].
  assert (In pat (List.filter (matchPattern (normalize file)) (ignorePatterns m)))
    as Hin by (rewrite E; apply in_app_iff; right; by left).
  apply filter_In in Hin as [Hin _]. by rewrite (Hn _ Hin).
Qed.

Lemma Matches_none_negated (m : PatternMatcher) (file : string) :
  (forall p, In p m.(ignorePatterns) -> p.(negate) = false) ->
  Matches m file = (MatchesWithTracking m file).2.
Proof.
  intros Hn. rewrite Matches_unfold, MatchesWithTracking_unfold.
  destruct (trivialPath file); [done|]. simpl.
  rewrite matchesInternal_decision. unfold decision.
  destruct (lastMatched _ _) as [pat|] eqn:E.
  - assert (In pat (ignorePatterns m)) as Hin.
    { unfold lastMatched in E. apply last_Some in E as [l' E].
      assert (In pat (List.filter (matchPattern (normalize file)) (ignorePatterns m)))
        as Hin by (rewrite E; apply in_app_iff; right; by left).
      by apply filter_In in Hin as [Hin _]. }
    rewrite (Hn _ Hin). simpl. symmetry.
    destruct (existsb _ _) eqn:E'; [done|].
    apply lastMatched_None in E'. congruence.
  - apply lastMatched_None in E. by rewrite E.
Qed.

Lemma in_omap_compiledLine (patterns : list string) (p : ignorePattern) :
  In p (omap compiledLine patterns) <->
  exists line, In line patterns /\ compiledLine line = Some p.
Proof.
  rewrite <-list_elem_of_In, list_elem_of_omap.
  split; intros (line & H1 & H2); exists line; split; try done;
    by apply list_elem_of_In.
Qed.

(** X4: a pattern list whose lines are all negated, blank or comments
    ignores no path at all. *)
Theorem negated_lines_ignore_nothing (patterns : list string) (m : PatternMatcher) :
  NewPatternMatcher patterns = Ok m ->
  (forall line, In line patterns -> skipped line = true \/ negated line = true) ->
  forall file, Matches m file = false.
Proof.
  intros [_ ->]%NewPatternMatcher_Ok_iff Hl file.
  apply Matches_all_negated. simpl.
  intros p (line & Hin & Hc)%in_omap_compiledLine.
  rewrite (compiledLine_negate _ _ Hc).
  destruct (Hl line Hin) as [Hs|Hn]; [|done].
  apply (compileLine_skipped 0) in Hs. unfold compiledLine in Hc.
  by rewrite Hs in Hc.
Qed.

Lemma negated_lines_ignore_nothing_witness :
  exists m, NewPatternMatcher ["# keep"; "!*.log"; " !build/"] = Ok m /\
    Matches m "build/app.log" = false.
Proof.
  eexists. split; [vm_compute; reflexivity|].
  apply (negated_lines_ignore_nothing ["# keep"; "!*.log"; " !build/"]);
    [vm_compute; reflexivity|].
  intros line [<-|[<-|[<-|[]]]]; vm_compute; auto.
Defined.

(** X5: in a pattern list without negated line a path is ignored exactly
    when one of the patterns matches it, so the order of the lines does
    not matter. *)
Theorem order_matters_only_with_negation
    (l1 l2 : list string) (m1 m2 : PatternMatcher) :
  NewPatternMatcher l1 = Ok m1 -> NewPatternMatcher l2 = Ok m2 ->
  (forall line, In line l1 -> negated line = false) ->
  Permutation l1 l2 ->
  forall file,
    Matches m1 file = (MatchesWithTracking m1 file).2 /\
    Matches m1 file = Matches m2 file.
Proof.
  intros [_ ->]%NewPatternMatcher_Ok_iff [_ ->]%NewPatternMatcher_Ok_iff Hn Hp file.
  assert (forall l, (forall line, In line l -> negated line = false) ->
            forall p, In p (omap compiledLine l) -> p.(negate) = false) as Hnone.
  { intros l Hl p (line & Hin & Hc)%in_omap_compiledLine.
    rewrite (compiledLine_negate _ _ Hc). by apply Hl. }
  assert (forall line, In line l2 -> negated line = false) as Hn2.
  { intros line Hin. apply Hn. by apply (Permutation_in _ (Permutation_sym Hp)). }
  rewrite !Matches_none_negated by (simpl; eauto). split; [done|].
  rewrite !MatchesWithTracking_unfold. destruct (trivialPath file); [done|]. simpl.
  assert (Permutation (omap compiledLine l1) (omap compiledLine l2)) as Hp'.
  { clear -Hp. induction Hp; simpl.
    - done.
    - destruct (compiledLine x); [by constructor|done].
    - destruct (compiledLine x), (compiledLine y);
        first [done | by constructor | apply perm_swap].
    - by etrans. }
  apply eq_true_iff_eq. rewrite !existsb_exists.
  split; intros (p & Hin & Hm); exists p; (split; [|done]).
  - by apply (Permutation_in _ Hp').
  - by apply (Permutation_in _ (Permutation_sym Hp')).
Qed.

Lemma order_matters_only_with_negation_witness :
  exists m1 m2,
    NewPatternMatcher ["*.log"; "build/"] = Ok m1 /\
    NewPatternMatcher ["build/"; "*.log"] = Ok m2 /\
    Matches m1 "build/app.log" = Matches m2 "build/app.log".
Proof.
  eexists. eexists.
  split; [vm_compute; reflexivity|]. split; [vm_compute; reflexivity|].
  apply (order_matters_only_with_negation ["*.log"; "build/"] ["build/"; "*.log"]).
  - vm_compute; reflexivity.
  - vm_compute; reflexivity.
  - intros line [<-|[<-|[]]]; vm_compute; reflexivity.
  - apply perm_swap.
Defined.

(** ** What a matcher holds *)




(** ** The line an error names *)




Local Arguments bufio.MaxScanTokenSize : simpl never.

(** ** Reading lines *)

Lemma HasSuffix_app (a s : string) : strings.HasSuffix (a +:+ s) s = true.
Proof.
  unfold strings.HasSuffix. rewrite length_app_s.
  replace (String.length a + String.length s - String.length s)
    with (String.length a) by lia.
  rewrite drop_app_s, String.eqb_refl, andb_true_r.
  apply Nat.leb_le. lia.
Qed.

Lemma HasSuffix_split (s suffix : string) :
  strings.HasSuffix s suffix = true ->
  s = strings.take (String.length s - String.length suffix) s +:+ suffix.
Proof.
  unfold strings.HasSuffix. intros [_ H%String.eqb_eq]%andb_true_iff.
  pose proof (take_drop_s (String.length s - String.length suffix) s) as E.
  by rewrite H in E.
Qed.

Lemma dropCR_CR (line : string) :
  bufio.dropCR (line +:+ String bufio.carriageReturn "") = line.
Proof.
  unfold bufio.dropCR. rewrite HasSuffix_app, length_app_s. simpl.
  replace (String.length line + 1 - 1) with (String.length line) by lia.
  apply take_app_s.
Qed.

Lemma dropCR_cases (line : string) :
  bufio.dropCR line = line \/
  line = bufio.dropCR line +:+ String bufio.carriageReturn "".
Proof.
  unfold bufio.dropCR.
  destruct (strings.HasSuffix _ _) eqn:E; [right|by left].
  by apply HasSuffix_split in E.
Qed.

Lemma TrimRight_CR (s : string) :
  strings.TrimRight (s +:+ String bufio.carriageReturn "") = strings.TrimRight s.
Proof.
  induction s as [|c t IH]; [done|].
  rewrite app_cons. simpl. by rewrite IH.
Qed.

Lemma TrimLeft_CR (s : string) :
  strings.TrimRight (strings.TrimLeft (s +:+ String bufio.carriageReturn "")) =
  strings.TrimRight (strings.TrimLeft s).
Proof.
  induction s as [|c t IH]; [done|].
  rewrite app_cons. simpl. destruct (strings.isSpace c); [done|].
  rewrite <-app_cons. apply TrimRight_CR.
Qed.

Lemma TrimSpace_dropCR (line : string) :
  strings.TrimSpace (bufio.dropCR line) = strings.TrimSpace line.
Proof.
  destruct (dropCR_cases line) as [->|E]; [done|].
  rewrite E at 2. unfold strings.TrimSpace. by rewrite TrimLeft_CR.
Qed.

Lemma Split_joinLines (pre : string) (lines : list string) :
  strings.mem bufio.lineFeed pre = false ->
  (forall l, In l lines -> strings.mem bufio.lineFeed l = false) ->
  strings.Split (joinLines (pre +:+ LF) lines) bufio.lineFeed =
  map (fun l => l +:+ pre) lines ++ [""].
Proof.
  intros Hpre. induction lines as [|l rest IH]; intros Hl; [done|].
  simpl. unfold LF at 1.
  rewrite <-!app_assoc_s, (app_assoc_s _ (String _ "")). simpl.
  rewrite Split_first.
  - f_equal. apply IH. intros; apply Hl. by right.
  - rewrite mem_app, Hpre, Hl; [done|by left].
Qed.

Lemma scanTokens_lines (pieces : list string) :
  (forall p, In p pieces -> String.length p < bufio.MaxScanTokenSize) ->
  bufio.scanTokens (pieces ++ [""]) = (map bufio.dropCR pieces, false).
Proof.
  induction pieces as [|p rest IH]; intros Hp.
  - change (bufio.scanTokens ([] ++ [""])) with
      (if bufio.MaxScanTokenSize <=? 0 then (@nil string, true)
       else (@nil string, false)).
    destruct (Nat.leb_spec bufio.MaxScanTokenSize 0) as [H|H]; [|done].
    unfold bufio.MaxScanTokenSize in H. lia.
  - change ((p :: rest) ++ [""]) with (p :: (rest ++ [""])).
    assert ((bufio.MaxScanTokenSize <=? String.length p) = false) as Hlen.
    { apply Nat.leb_gt. apply Hp. by left. }
    change (bufio.scanTokens (p :: rest ++ [""])) with
      (if bufio.MaxScanTokenSize <=? String.length p then ([], true)
       else match rest ++ [""] with
            | [] => (if String.eqb p "" then [] else [bufio.dropCR p], false)
            | _ :: _ =>
                let '(tokens, tooLong) := bufio.scanTokens (rest ++ [""]) in
                (bufio.dropCR p :: tokens, tooLong)
            end).
    rewrite Hlen, IH by (intros; apply Hp; by right).
    by destruct rest.
Qed.

Lemma scanTokens_tooLong (pieces : list string) :
  (bufio.scanTokens pieces).2 =
  existsb (fun p => bufio.MaxScanTokenSize <=? String.length p) pieces.
Proof.
  induction pieces as [|p rest IH]; [done|].
  change (bufio.scanTokens (p :: rest)) with
    (if bufio.MaxScanTokenSize <=? String.length p then ([], true)
     else match rest with
          | [] => (if String.eqb p "" then [] else [bufio.dropCR p], false)
          | _ :: _ =>
              let '(tokens, tooLong) := bufio.scanTokens rest in
              (bufio.dropCR p :: tokens, tooLong)
          end).
  change (existsb ?f (p :: rest)) with (f p || existsb f rest).
  cbv beta. destruct (_ <=? String.length p); [done|].
  destruct rest as [|q rest']; [done|].
  rewrite orb_false_l, <-IH. by destruct (bufio.scanTokens (q :: rest')).
Qed.

Lemma readLoop_later (n : nat) (tokens : list string) :
  readLoop (S n) tokens = tokens.
Proof.
  revert n. induction tokens as [|t rest IH]; intros n; [done|].
  simpl. by rewrite IH.
Qed.

Lemma readLoop_first (t : string) (rest : list string) :
  readLoop 0 (t :: rest) = strings.TrimPrefix t utf8BOM :: rest.
Proof. simpl. by rewrite readLoop_later. Qed.

Lemma TrimPrefix_app (prefix s : string) :
  strings.TrimPrefix (prefix +:+ s) prefix = s.
Proof.
  unfold strings.TrimPrefix.
  assert (strings.HasPrefix (prefix +:+ s) prefix = true) as ->
    by (apply HasPrefix_spec; eauto).
  apply drop_app_s.
Qed.

(** What [ReadLines] gives for a text of lines: the tokens of the scanner
    with the byte order mark taken off the first. *)
Lemma ReadLines_joinLines (pre : string) (lines : list string) :
  pre = "" \/ pre = String bufio.carriageReturn "" ->
  (forall l, In l lines ->
     strings.mem bufio.lineFeed l = false /\
     String.length l + 1 < bufio.MaxScanTokenSize) ->
  ReadLines (textReader (joinLines (pre +:+ LF) lines)) =
  Ok (readLoop 0 (map (fun l => bufio.dropCR (l +:+ pre)) lines)).
Proof.
  intros Hpre Hl. unfold ReadLines, textReader, bufio.Scan. simpl.
  rewrite Split_joinLines.
  - rewrite scanTokens_lines.
    + simpl. by rewrite map_map.
    + intros p (l & <- & Hin)%in_map_iff. rewrite length_app_s.
      destruct (Hl l Hin) as [_ Hlen].
      destruct Hpre as [->| ->]; simpl; lia.
  - by destruct Hpre as [->| ->].
  - intros l Hin. by apply Hl.
Qed.

(** X8 (round trip): a text made of lines, each followed by a line feed or
    by a carriage return and a line feed, is read back as these lines, when
    no line holds a line feed, ends with a carriage return or is as long as
    the buffer of the scanner, and the first line does not start with a
    byte order mark. *)
Theorem ReadLines_round_trip (eol : string) (lines : list string) :
  eol = LF \/ eol = CRLF ->
  (forall l, In l lines ->
     strings.mem bufio.lineFeed l = false /\
     strings.HasSuffix l (String bufio.carriageReturn "") = false /\
     String.length l + 1 < bufio.MaxScanTokenSize) ->
  (forall l, head lines = Some l -> strings.HasPrefix l utf8BOM = false) ->
  ReadLines (textReader (joinLines eol lines)) = Ok lines.
Proof.
  intros Heol Hl Hbom.
  assert (exists pre, eol = pre +:+ LF /\
            (pre = "" \/ pre = String bufio.carriageReturn "")) as (pre & -> & Hpre).
  { destruct Heol as [->| ->]; [exists ""|exists (String bufio.carriageReturn "")];
      auto. }
  rewrite ReadLines_joinLines; [|done|intros l Hin; split; by apply Hl].
  f_equal.
  assert (map (fun l => bufio.dropCR (l +:+ pre)) lines = lines) as ->.
  { rewrite <-(map_id lines) at 2. apply map_ext_in. intros l Hin.
    destruct Hpre as [->| ->]; [|apply dropCR_CR].
    rewrite app_empty_r. unfold bufio.dropCR.
    destruct (Hl l Hin) as (_ & -> & _). done. }
  destruct lines as [|l rest]; [done|].
  rewrite readLoop_first. unfold strings.TrimPrefix.
  by rewrite (Hbom l).
Qed.

Lemma ReadLines_round_trip_witness :
  ReadLines (textReader (joinLines CRLF ["*.log"; ""; "!keep.log"])) =
  Ok ["*.log"; ""; "!keep.log"].
Proof.
  apply ReadLines_round_trip.
  - by right.
  - intros l [<-|[<-|[<-|[]]]];
      (split; [reflexivity|split; [reflexivity|]]);
      apply Nat.ltb_lt; vm_compute; reflexivity.
  - intros l [= <-]. reflexivity.
Defined.

(** X9 (byte order mark): a byte order mark in front of the text is taken
    off, once and from the first line only: the text is read back as its
    lines, whatever bytes they start with. *)
Theorem ReadLines_drops_one_byte_order_mark
    (eol : string) (first : string) (others : list string) :
  eol = LF \/ eol = CRLF ->
  (forall l, In l (first :: others) ->
     strings.mem bufio.lineFeed l = false /\
     strings.HasSuffix l (String bufio.carriageReturn "") = false /\
     String.length l + 4 < bufio.MaxScanTokenSize) ->
  ReadLines (textReader (utf8BOM +:+ joinLines eol (first :: others))) =
  Ok (first :: others).
Proof.
  intros Heol Hl.
  assert (exists pre, eol = pre +:+ LF /\
            (pre = "" \/ pre = String bufio.carriageReturn "")) as (pre & -> & Hpre).
  { destruct Heol as [->| ->]; [exists ""|exists (String bufio.carriageReturn "")];
      auto. }
  change (utf8BOM +:+ joinLines (pre +:+ LF) (first :: others)) with
    (utf8BOM +:+ (first +:+ (pre +:+ LF) +:+ joinLines (pre +:+ LF) others)).
  rewrite <-app_assoc_s.
  change ((utf8BOM +:+ first) +:+ (pre +:+ LF) +:+ joinLines (pre +:+ LF) others)
    with (joinLines (pre +:+ LF) ((utf8BOM +:+ first) :: others)).
  rewrite ReadLines_joinLines; [|done|].
  - f_equal. rewrite map_cons, readLoop_first.
    assert (forall l, In l (first :: others) -> bufio.dropCR (l +:+ pre) = l) as Hd.
    { intros l Hin. destruct Hpre as [->| ->]; [|apply dropCR_CR].
      rewrite app_empty_r. unfold bufio.dropCR.
      destruct (Hl l Hin) as (_ & -> & _). done. }
    f_equal.
    + assert (bufio.dropCR ((utf8BOM +:+ first) +:+ pre) =
              utf8BOM +:+ first) as ->.
      { destruct Hpre as [->| ->]; [|apply dropCR_CR].
        rewrite app_empty_r. unfold bufio.dropCR.
        destruct (strings.HasSuffix (utf8BOM +:+ first) _) eqn:E; [|done].
        exfalso. destruct (Hl first) as (_ & Hs & _); [by left|].
        destruct first as [|c t]; [done|].
        revert E Hs. unfold strings.HasSuffix. rewrite length_app_s.
        simpl String.length.
        replace (3 + S (String.length t) - 1) with (3 + (S (String.length t) - 1))
          by lia.
        change 3 with (String.length utf8BOM). rewrite drop_app_plus.
        intros [_ ->]%andb_true_iff. by rewrite andb_true_r. }
      apply TrimPrefix_app.
    + rewrite <-(map_id others) at 2. apply map_ext_in. intros l Hin.
      apply Hd. by right.
  - intros l [<-|Hin].
    + destruct (Hl first) as (Hf & _ & Hlen); [by left|].
      rewrite mem_app, Hf. split; [done|].
      rewrite length_app_s. simpl. lia.
    + destruct (Hl l) as (Hf & _ & Hlen); [by right|]. split; [done|lia].
Qed.

Lemma ReadLines_drops_one_byte_order_mark_witness :
  ReadLines (textReader (utf8BOM +:+ joinLines LF [utf8BOM +:+ "a"; "b"])) =
  Ok [utf8BOM +:+ "a"; "b"].
Proof.
  apply ReadLines_drops_one_byte_order_mark.
  - by left.
  - intros l [<-|[<-|[]]];
      (split; [reflexivity|split; [reflexivity|]]);
      apply Nat.ltb_lt; vm_compute; reflexivity.
Defined.

(** X10 (errors): [ReadLines] fails in three cases only: the reader is nil,
    the reader ends with an error, or a piece of the input between two line
    feeds has [MaxScanTokenSize] bytes or more. *)
Theorem ReadLines_errors (reader : option bufio.Reader) (e : readError) :
  ReadLines reader = Err e <->
  (reader = None /\ e = ErrNilReader) \/
  (exists r, reader = Some r /\ e = ErrReadingLines /\
     (r.(bufio.fails) = true \/
      exists piece,
        In piece (strings.Split r.(bufio.data) bufio.lineFeed) /\
        bufio.MaxScanTokenSize <= String.length piece)).
Proof.
  destruct reader as [r|]; unfold ReadLines.
  - unfold bufio.Scan.
    pose proof (scanTokens_tooLong (strings.Split (bufio.data r) bufio.lineFeed)) as H.
    destruct (bufio.scanTokens _) as [tokens tooLong]. cbn [snd] in H.
    destruct (tooLong || bufio.fails r) eqn:E.
    + split.
      * intros [= <-]. right. exists r. split; [done|]. split; [done|].
        apply orb_true_iff in E as [->|E]; [|by left]. right.
        symmetry in H. apply existsb_exists in H as (piece & Hin & Hlen).
        exists piece. split; [done|]. by apply Nat.leb_le.
      * intros [[[=] _]|(r' & [= <-] & -> & _)]. done.
    + split; [done|].
      intros [[[=] _]|(r' & [= <-] & _ & [Hf|(piece & Hin & Hlen)])].
      * apply orb_false_iff in E as [_ E]. congruence.
      * apply orb_false_iff in E as [E _]. rewrite E in H. symmetry in H.
        assert (existsb (fun p => bufio.MaxScanTokenSize <=? String.length p)
                  (strings.Split (bufio.data r) bufio.lineFeed) = true) as H'.
        { apply existsb_exists. exists piece. split; [done|]. by apply Nat.leb_le. }
        congruence.
  - split; [intros [= <-]; by left|].
    intros [[_ ->]|(r & [=] & _)]. done.
Qed.

(** ** Loading patterns from a reader *)

Lemma buildLoop_TrimSpace (l1 l2 : list string) :
  map strings.TrimSpace l1 = map strings.TrimSpace l2 ->
  forall i acc, buildLoop i l1 acc = buildLoop i l2 acc.
Proof.
  revert l2. induction l1 as [|a l1 IH]; intros [|b l2]; try done.
  simpl. intros [= Hab Hl] i acc.
  rewrite <-(compileLine_TrimSpace i a), Hab, compileLine_TrimSpace.
  destruct (compileLine i b); [by apply IH|done|by apply IH].
Qed.

(** X11: loading the patterns from a reader gives what [NewPatternMatcher]
    gives for the lines of the text, with either line ending and with or
    without a byte order mark in front. *)
Theorem NewPatternMatcherFromReader_lines (eol : string) (lines : list string) :
  eol = LF \/ eol = CRLF ->
  (forall l, In l lines ->
     strings.mem bufio.lineFeed l = false /\
     String.length l + 4 < bufio.MaxScanTokenSize) ->
  (forall l, head lines = Some l -> strings.HasPrefix l utf8BOM = false) ->
  NewPatternMatcherFromReader (textReader (joinLines eol lines)) =
    loaded (NewPatternMatcher lines) /\
  NewPatternMatcherFromReader (textReader (utf8BOM +:+ joinLines eol lines)) =
    loaded (NewPatternMatcher lines).
Proof.
  intros Heol Hl Hbom.
  assert (exists pre, eol = pre +:+ LF /\
            (pre = "" \/ pre = String bufio.carriageReturn "")) as (pre & -> & Hpre).
  { destruct Heol as [->| ->]; [exists ""|exists (String bufio.carriageReturn "")];
      auto. }
  assert (forall l, strings.TrimSpace (bufio.dropCR (l +:+ pre)) = strings.TrimSpace l)
    as Htrim.
  { intros l. destruct Hpre as [->| ->]; [|by rewrite dropCR_CR].
    rewrite app_empty_r. apply TrimSpace_dropCR. }
  assert (forall ls,
            NewPatternMatcher (map (fun l => bufio.dropCR (l +:+ pre)) ls) =
            NewPatternMatcher ls) as Hnew.
  { intros ls. unfold NewPatternMatcher, buildIgnorePatterns.
    rewrite (buildLoop_TrimSpace _ ls); [done|].
    rewrite map_map. apply map_ext. intros l. apply Htrim. }
  split.
  - unfold NewPatternMatcherFromReader, textReader.
    change (Some {| bufio.data := ?t; bufio.fails := false |}) with (textReader t).
    rewrite ReadLines_joinLines; [|done|].
    + assert (readLoop 0 (map (fun l => bufio.dropCR (l +:+ pre)) lines) =
              map (fun l => bufio.dropCR (l +:+ pre)) lines) as ->.
      { destruct lines as [|l rest]; [done|]. rewrite map_cons, readLoop_first.
        f_equal. unfold strings.TrimPrefix.
        destruct (strings.HasPrefix (bufio.dropCR (l +:+ pre)) utf8BOM) eqn:E;
          [|done].
        exfalso. specialize (Hbom l eq_refl).
        apply HasPrefix_spec in E as [t E].
        assert (strings.HasPrefix l utf8BOM = true); [|congruence].
        apply HasPrefix_spec.
        destruct Hpre as [->| ->].
        - rewrite app_empty_r in E.
          destruct (dropCR_cases l) as [E'|E'].
          + exists t. congruence.
          + rewrite E', E. rewrite app_assoc_s. eauto.
        - rewrite dropCR_CR in E. eauto. }
      rewrite Hnew. by destruct (NewPatternMatcher lines).
    + intros l Hin. destruct (Hl l Hin). split; [done|lia].
  - destruct lines as [|first others].
    + vm_compute. reflexivity.
    + unfold NewPatternMatcherFromReader, textReader.
      change (Some {| bufio.data := ?t; bufio.fails := false |}) with (textReader t).
      change (utf8BOM +:+ joinLines (pre +:+ LF) (first :: others)) with
        (utf8BOM +:+ (first +:+ (pre +:+ LF) +:+ joinLines (pre +:+ LF) others)).
      rewrite <-app_assoc_s.
      change ((utf8BOM +:+ first) +:+ (pre +:+ LF) +:+ joinLines (pre +:+ LF) others)
        with (joinLines (pre +:+ LF) ((utf8BOM +:+ first) :: others)).
      rewrite ReadLines_joinLines; [|done|].
      * rewrite map_cons, readLoop_first.
        assert (strings.TrimPrefix (bufio.dropCR ((utf8BOM +:+ first) +:+ pre)) utf8BOM
                = bufio.dropCR (first +:+ pre) \/
                (first +:+ pre = "" /\
                 strings.TrimPrefix (bufio.dropCR ((utf8BOM +:+ first) +:+ pre))
                   utf8BOM = "")) as Hfirst.
        { destruct Hpre as [->| ->].
          - rewrite !app_empty_r. destruct first as [|c t].
            + right. split; [done|]. vm_compute. reflexivity.
            + left. unfold bufio.dropCR.
              assert (strings.HasSuffix (utf8BOM +:+ String c t)
                        (String bufio.carriageReturn "") =
                      strings.HasSuffix (String c t) (String bufio.carriageReturn ""))
                as ->.
              { unfold strings.HasSuffix. rewrite length_app_s.
                simpl String.length.
                replace (3 + S (String.length t) - 1)
                  with (3 + (S (String.length t) - 1)) by lia.
                change 3 with (String.length utf8BOM) at 2.
                by rewrite drop_app_plus. }
              destruct (strings.HasSuffix (String c t) _); [|apply TrimPrefix_app].
              rewrite length_app_s. simpl String.length.
              replace (3 + S (String.length t) - 1) with (3 + String.length t) by lia.
              replace (S (String.length t) - 1) with (String.length t) by lia.
              assert (forall k s, strings.take (3 + k) (utf8BOM +:+ s) =
                                  utf8BOM +:+ strings.take k s) as -> by done.
              apply TrimPrefix_app.
          - left. by rewrite !dropCR_CR, TrimPrefix_app. }
        assert (NewPatternMatcher
                  (strings.TrimPrefix (bufio.dropCR ((utf8BOM +:+ first) +:+ pre))
                     utf8BOM :: map (fun l => bufio.dropCR (l +:+ pre)) others) =
                NewPatternMatcher (first :: others)) as ->.
        { rewrite <-(Hnew (first :: others)). simpl map.
          destruct Hfirst as [->|[E ->]]; [done|]. by rewrite E. }
        by destruct (NewPatternMatcher (first :: others)).
      * intros l [<-|Hin].
        -- destruct (Hl first) as (Hf & Hlen); [by left|].
           rewrite mem_app, Hf. split; [done|].
           rewrite length_app_s. simpl. lia.
        -- destruct (Hl l) as (Hf & Hlen); [by right|]. split; [done|lia].
Qed.

Lemma NewPatternMatcherFromReader_lines_witness :
  NewPatternMatcherFromReader
    (textReader (joinLines CRLF ["# logs"; "*.log"; "!keep.log"])) =
  loaded (NewPatternMatcher ["# logs"; "*.log"; "!keep.log"]).
Proof.
  apply NewPatternMatcherFromReader_lines.
  - by right.
  - intros l [<-|[<-|[<-|[]]]];
      (split; [reflexivity|]); apply Nat.ltb_lt; vm_compute; reflexivity.
  - intros l [= <-]. reflexivity.
Defined.

(** ** The two versions of [BuildRegex] *)

Lemma translate_unfold (char : ascii) (rest : string) :
  translate 0 (String char rest) =
  (if Ascii.eqb char "*" then (writeWildcard rest).1
   else if Ascii.eqb char "?" then "[^/]"
   else if Ascii.eqb char "[" then (writeCharClass rest).1
   else if Ascii.eqb char backslash then (writeEscaped rest).1
   else if escaped char then String backslash (String char "")
   else String char "") +:+
  translate
    (if Ascii.eqb char "*" then (writeWildcard rest).2
     else if Ascii.eqb char "[" then (writeCharClass rest).2
     else if Ascii.eqb char backslash then (writeEscaped rest).2
     else 0) rest.
Proof.
  destruct char as [[] [] [] [] [] [] [] []];
    first [ reflexivity
          | simpl; by destruct (writeWildcard rest)
          | simpl; by destruct (writeCharClass rest)
          | simpl; by destruct (writeEscaped rest) ].
Qed.

Lemma translateInline_unfold (char : ascii) (rest : string) :
  translateInline 0 (String char rest) =
  (if Ascii.eqb char "*" then (writeWildcard rest).1
   else if Ascii.eqb char "?" then "[^/]"
   else if Ascii.eqb char "[" then (writeCharClass rest).1
   else if Ascii.eqb char backslash then (writeEscaped rest).1
   else if escaped char then String backslash (String char "")
   else String char "") +:+
  translateInline
    (if Ascii.eqb char "*" then (writeWildcard rest).2
     else if Ascii.eqb char "[" then (writeCharClass rest).2
     else if Ascii.eqb char backslash then (writeEscaped rest).2
     else 0) rest.
Proof.
  destruct (char_cases char) as [->|[->|[->|[->|[H|H]]]]].
  - destruct rest as [|d r]; [done|].
    destruct d as [[] [] [] [] [] [] [] []]; try done.
    destruct r as [|e r']; [done|].
    destruct e as [[] [] [] [] [] [] [] []]; done.
  - done.
  - unfold writeCharClass. simpl. by destruct (strings.Index rest "]").
  - destruct rest as [|d r]; [done|]. simpl.
    by destruct (isRegexMetaChar d).
  - destruct char as [[] [] [] [] [] [] [] []]; try discriminate; reflexivity.
  - destruct char as [[] [] [] [] [] [] [] []]; try discriminate; reflexivity.
Qed.

Lemma translateInline_translate (pattern : string) :
  forall skip, translateInline skip pattern = translate skip pattern.
Proof.
  induction pattern as [|char rest IH]; intros [|k]; [done|done| |apply IH].
  by rewrite translateInline_unfold, translate_unfold, IH.
Qed.

(** X12: the version of [BuildRegex] that does all the work in its loop and
    the version that calls [writeWildcard], [writeCharClass] and
    [writeEscaped] write the same expression for every pattern, and so give
    the same result. *)
Theorem BuildRegex_versions_agree (pattern : string) :
  "^" +:+ translateInline 0 pattern +:+ "$" = regexString pattern /\
  BuildRegexInline pattern = BuildRegex pattern.
Proof.
  unfold BuildRegexInline, BuildRegex, regexString.
  by rewrite translateInline_translate.
Qed.

(** ** What a compiled body matches *)

Lemma countByte_app (c : ascii) (s t : string) :
  countByte c (s +:+ t) = countByte c s + countByte c t.
Proof.
  induction s as [|d s IH]; [done|]. rewrite app_cons. simpl. rewrite IH. lia.
Qed.

Lemma countByte_none (c : ascii) (s : string) :
  strings.mem c s = false -> countByte c s = 0.
Proof.
  induction s as [|d s IH]; [done|]. rewrite mem_cons.
  intros [Hd Hs]%orb_false_iff. simpl. rewrite IH by done.
  rewrite Ascii.eqb_sym, Hd. done.
Qed.

Lemma globWord_slashes (body : string) :
  strings.Contains body "**" = false ->
  forall s, globWord (globOf 0 body) s -> countByte "/" s = countByte "/" body.
Proof.
  induction body as [|c rest IH]; [by intros _ s ->|].
  rewrite Contains_cons. intros [Hp Hc]%orb_false_iff s.
  destruct (Ascii.eqb c "*") eqn:Es.
  - apply Ascii.eqb_eq in Es as ->.
    rewrite globOf_single_star by done.
    intros (u1 & u2 & -> & Hu1 & Hu2). simpl in Hu1.
    rewrite countByte_app, (countByte_none _ _ Hu1). simpl. by apply IH.
  - destruct (Ascii.eqb c "?") eqn:Eq.
    + apply Ascii.eqb_eq in Eq as ->.
      change (globOf 0 (String "?" rest)) with (GQuest :: globOf 0 rest).
      intros (u1 & u2 & -> & (d & -> & Hd) & Hu2).
      rewrite app_cons. simpl.
      apply Ascii.eqb_neq in Hd. rewrite Hd. simpl. by apply IH.
    + apply Ascii.eqb_neq in Es, Eq. rewrite globOf_literal by done.
      intros (u1 & u2 & -> & -> & Hu2). rewrite app_cons. simpl.
      f_equal. by apply IH.
Qed.

(** X13: a star that is not doubled and a question mark stay inside one
    segment of the path: a text the predicate of such a body matches has as
    many slashes as the body. *)
Theorem single_wildcards_keep_the_depth (body : string) (re : Regexp) (s : string) :
  BuildRegex body = Some re ->
  plainBody body = true ->
  strings.Contains body "**" = false ->
  MatchString re s = true ->
  countByte "/" s = countByte "/" body.
Proof.
  intros Hre Hp Hd Hm.
  assert (body <> "") as Hne by (intros ->; done).
  rewrite BuildRegex_plain in Hre by done. injection Hre as <-.
  apply MatchString_globs in Hm. by apply globWord_slashes.
Qed.

Lemma single_wildcards_keep_the_depth_witness :
  exists re, BuildRegex "src/*.go" = Some re /\
    countByte "/" "src/main.go" = countByte "/" "src/*.go".
Proof.
  eexists. split; [vm_compute; reflexivity|].
  eapply (single_wildcards_keep_the_depth "src/*.go");
    vm_compute; reflexivity.
Defined.

Lemma plainBody_app (a b : string) :
  plainBody (a +:+ b) = plainBody a && plainBody b.
Proof.
  unfold plainBody. rewrite !mem_app.
  by destruct (strings.mem "[" a), (strings.mem "[" b),
    (strings.mem backslash a), (strings.mem backslash b).
Qed.

(** X14: two stars and a slash in front of a body of ASCII text stand for
    any run of leading directories, none included: the predicate of **/B
    matches the texts the predicate of B matches, and these texts after a
    prefix that ends with a slash (and holds no line feed). *)
Theorem leading_double_star (body : string) :
  isASCII body = true -> body <> "" -> plainBody body = true ->
  exists re re',
    BuildRegex ("**/" +:+ body) = Some re /\
    BuildRegex body = Some re' /\
    forall s,
      MatchString re s = true <->
      MatchString re' s = true \/
      exists d u, s = d +:+ "/" +:+ u /\ strings.mem newline d = false /\
                  MatchString re' u = true.
Proof.
  intros _ Hne Hp.
  exists (BeginText :: map globNode (globOf 0 ("**/" +:+ body)) ++ [EndText]),
         (BeginText :: map globNode (globOf 0 body) ++ [EndText]).
  split; [|split].
  - apply BuildRegex_plain; [done|]. by rewrite plainBody_app, Hp.
  - by apply BuildRegex_plain.
  - intros s. rewrite !MatchString_globs.
    change (globOf 0 ("**/" +:+ body)) with (GDirs :: globOf 0 body).
    simpl. split.
    + intros (u1 & u2 & -> & [->|(v & -> & Hv)] & Hu2); [by left|].
      right. exists v, u2. rewrite MatchString_globs.
      by rewrite app_assoc_s.
    + intros [H|(d & u & -> & Hd & Hu%MatchString_globs)].
      * exists "", s. auto.
      * exists (d +:+ "/"), u. rewrite app_assoc_s. eauto 6.
Qed.

Lemma leading_double_star_witness :
  exists re re',
    BuildRegex ("**/" +:+ "test") = Some re /\ BuildRegex "test" = Some re' /\
    (MatchString re "a/b/test" = true <->
     MatchString re' "a/b/test" = true \/
     exists d u, "a/b/test" = d +:+ "/" +:+ u /\ strings.mem newline d = false /\
                 MatchString re' u = true).
Proof.
  destruct (leading_double_star "test") as (re & re' & H1 & H2 & H3);
    [reflexivity|done|reflexivity|].
  exists re, re'. split; [exact H1|]. split; [exact H2|]. apply H3.
Defined.

Lemma globOf_literal_app (P rest : string) :
  strings.ContainsAny P "*?" = false ->
  strings.HasPrefix rest "*" = false ->
  globOf 0 (P +:+ rest) = map GLit (list_ascii_of_string P) ++ globOf 0 rest.
Proof.
  intros HP Hr. induction P as [|c t IH]; [done|].
  rewrite ContainsAny_cons in HP. apply orb_false_iff in HP as [Hc Ht].
  destruct (not_wild c Hc). rewrite app_cons, globOf_literal by done.
  simpl. by rewrite IH.
Qed.

Lemma globWord_literals (P : string) (gs : list glob) (s : string) :
  globWord (map GLit (list_ascii_of_string P) ++ gs) s <->
  exists t, s = P +:+ t /\ globWord gs t.
Proof.
  revert s. induction P as [|c t IH]; intros s; simpl.
  - split; [eauto|]. by intros (t & -> & H).
  - split.
    + intros (u1 & u2 & -> & -> & (t' & -> & H)%IH). eauto.
    + intros (t' & -> & H). exists (String c ""), (t +:+ t').
      split; [done|]. split; [done|]. apply IH. eauto.
Qed.

(** X15: a slash and two stars after a literal body of ASCII text stand for
    everything below it: the predicate of P/** matches the paths P/x, x
    without line feed, and no other text; it does not match P itself. *)
Theorem trailing_double_star (P : string) :
  isASCII P = true ->
  strings.ContainsAny P "*?" = false -> plainBody P = true ->
  exists re,
    BuildRegex (P +:+ "/**") = Some re /\
    (forall s,
       MatchString re s = true <->
       exists x, s = P +:+ "/" +:+ x /\ strings.mem newline x = false) /\
    MatchString re P = false.
Proof.
  intros _ Hw Hp.
  assert (forall s,
            globWord (globOf 0 (P +:+ "/**")) s <->
            exists x, s = P +:+ "/" +:+ x /\ strings.mem newline x = false) as Hg.
  { intros s. rewrite globOf_literal_app by done.
    change (globOf 0 "/**") with [GLit "/"; GAny].
    rewrite globWord_literals. simpl. split.
    - intros (t & -> & u1 & u2 & -> & -> & u3 & u4 & -> & Hu3 & ->).
      exists u3. by rewrite app_empty_r.
    - intros (x & -> & Hx). exists ("/" +:+ x). split; [done|].
      exists "/", x. split; [done|]. split; [done|].
      exists x, "". by rewrite app_empty_r. }
  exists (BeginText :: map globNode (globOf 0 (P +:+ "/**")) ++ [EndText]).
  split; [|split].
  - apply BuildRegex_plain; [by destruct P|]. by rewrite plainBody_app, Hp.
  - intros s. by rewrite MatchString_globs.
  - apply not_true_is_false. rewrite MatchString_globs, Hg.
    intros (x & Hx & _). apply (f_equal String.length) in Hx.
    rewrite !length_app_s in Hx. simpl in Hx. lia.
Qed.

Lemma trailing_double_star_witness :
  exists re,
    BuildRegex ("build" +:+ "/**") = Some re /\
    MatchString re "build/out/a.o" = true /\ MatchString re "build" = false.
Proof.
  destruct (trailing_double_star "build") as (re & H1 & H2 & H3);
    [reflexivity|reflexivity|reflexivity|].
  exists re. split; [exact H1|]. split; [|exact H3].
  apply H2. exists "out/a.o". split; reflexivity.
Defined.

(** *** Bodies without wildcard *)

Lemma Index_None (s : string) (c : ascii) :
  strings.mem c s = false -> strings.Index s (String c "") = None.
Proof.
  induction s as [|d t IH]; [done|]. rewrite mem_cons.
  intros [Hd Ht]%orb_false_iff. simpl.
  assert (strings.HasPrefix (String d t) (String c "") = false) as ->.
  { apply not_true_is_false. intros [u [= -> _]]%HasPrefix_spec.
    by rewrite Ascii.eqb_refl in Hd. }
  by rewrite IH.
Qed.

Lemma translate_open_bracket (rest : string) :
  strings.mem "]" rest = false ->
  translate 0 (String "[" rest) = String backslash (String "[" (translate 0 rest)).
Proof.
  intros H. rewrite translate_unfold. simpl. unfold writeCharClass.
  by rewrite (Index_None rest "]" H).
Qed.

(** The parser reads a body of literal characters; an opening bracket that
    nothing closes is one of them. *)
Lemma parse_translate_literal (body : string) :
  forall stack cur rep,
    strings.ContainsAny body "*?" = false ->
    strings.mem backslash body = false ->
    strings.mem "]" body = false ->
    parse 0 stack cur rep (translate 0 body +:+ "$") =
    parse 0 stack (EndText :: rev (map globNode (globOf 0 body)) ++ cur) false "".
Proof.
  induction body as [|c rest IH]; intros stack cur rep Hw Hb Hc; [done|].
  rewrite ContainsAny_cons in Hw. apply orb_false_iff in Hw as [Hw Hw'].
  rewrite mem_cons in Hb, Hc.
  apply orb_false_iff in Hb as [Hb Hb'], Hc as [Hc Hc'].
  destruct (not_wild c Hw) as [? ?].
  rewrite globOf_literal by done.
  destruct (char_cases c) as [->|[->|[->|[->|[H1|H1]]]]]; try done.
  - rewrite translate_open_bracket by done. rewrite !app_cons.
    change (parse 0 stack cur rep
              (String backslash (String "[" (translate 0 rest +:+ "$"))))
      with (parse 0 stack (Lit "[" :: cur) false (translate 0 rest +:+ "$")).
    rewrite IH by done. simpl. by rewrite <-!app_assoc.
  - rewrite translate_escaped by done.
    rewrite !app_cons, parse_escaped by done.
    rewrite IH by done. simpl. by rewrite <-!app_assoc.
  - rewrite translate_ordinary by done.
    rewrite !app_cons, parse_ordinary by done.
    rewrite IH by done. simpl. by rewrite <-!app_assoc.
Qed.

(** X16: a body of ASCII text that holds no star, no question mark, no
    backslash and no closing bracket is matched literally and as a whole:
    the characters that are special in a regular expression, and an
    opening bracket that nothing closes, stand for themselves. *)
Theorem literal_body_matches_itself_only (body : string) :
  isASCII body = true ->
  body <> "" ->
  strings.ContainsAny body "*?" = false ->
  strings.mem backslash body = false ->
  strings.mem "]" body = false ->
  exists re,
    BuildRegex body = Some re /\
    forall s, MatchString re s = true <-> s = body.
Proof.
  intros _ Hne Hw Hb Hc.
  exists (BeginText :: map globNode (globOf 0 body) ++ [EndText]). split.
  - unfold BuildRegex. apply String.eqb_neq in Hne. rewrite Hne.
    unfold Compile, regexString. simpl.
    rewrite parse_translate_literal by done.
    simpl. by rewrite rev_app_distr, rev_involutive.
  - intros s. rewrite MatchString_globs. by apply globWord_literal.
Qed.

Lemma literal_body_matches_itself_only_witness :
  exists re, BuildRegex "a.b[1+(x)" = Some re /\
    MatchString re "a.b[1+(x)" = true /\ MatchString re "aXb[1+(x)" = false.
Proof.
  destruct (literal_body_matches_itself_only "a.b[1+(x)") as (re & H1 & H2);
    [reflexivity|done|reflexivity|reflexivity|reflexivity|].
  exists re. split; [exact H1|]. split; [by apply H2|].
  apply not_true_is_false. by intros ?%H2.
Defined.

(** Every body is one of the texts its items stand for. *)
Lemma globWord_self (n : nat) :
  forall body, String.length body <= n -> globWord (globOf 0 body) body.
Proof.
  induction n as [|n IH]; intros body Hlen.
  { destruct body; [done|simpl in Hlen; lia]. }
  destruct body as [|c rest]; [done|]. simpl in Hlen.
  destruct (Ascii.eqb c "*") eqn:Es.
  - apply Ascii.eqb_eq in Es as ->.
    destruct (translate_star rest)
      as [(r & -> & _ & ->)|[(r & -> & _ & ->)|[_ ->]]].
    + exists "**/", r. split; [done|]. split.
      * right. by exists "**".
      * apply IH. simpl in Hlen. lia.
    + exists "**", r. split; [done|]. split; [done|].
      apply IH. simpl in Hlen. lia.
    + exists "*", rest. split; [done|]. split; [done|]. apply IH. lia.
  - destruct (Ascii.eqb c "?") eqn:Eq.
    + apply Ascii.eqb_eq in Eq as ->.
      change (globOf 0 (String "?" rest)) with (GQuest :: globOf 0 rest).
      exists "?", rest. split; [done|]. split; [by exists "?"%char|].
      apply IH. lia.
    + apply Ascii.eqb_neq in Es, Eq. rewrite globOf_literal by done.
      exists (String c ""), rest. split; [done|]. split; [done|]. apply IH. lia.
Qed.

(** The predicate of a compiled pattern without bracket expression matches
    the body of the pattern. *)
Lemma compiled_self (i : nat) (line : string) (p : ignorePattern) :
  compileLine i line = Compiled p ->
  strings.mem "[" p.(pattern) = false ->
  MatchString p.(regexPattern) p.(pattern) = true.
Proof.
  intros Hc Hb. apply (compiled_globs i line); [done..|].
  by apply (globWord_self (String.length p.(pattern))).
Qed.

(** ** The tests of [matchPattern], one against the other *)

Lemma compiled_same_body (i j : nat) (line line' : string) (p q : ignorePattern) :
  compileLine i line = Compiled p -> compileLine j line' = Compiled q ->
  p.(pattern) = q.(pattern) ->
  p.(regexPattern) = q.(regexPattern) /\ p.(hasWildcard) = q.(hasWildcard).
Proof.
  intros (_ & _ & Hp & Hwp)%compileLine_inv (_ & _ & Hq & Hwq)%compileLine_inv E.
  rewrite E in Hp, Hwp. split; congruence.
Qed.

Lemma segment_matches (re : Regexp) (file s : string) :
  In s (strings.Split file "/") -> MatchString re s = true ->
  existsb (MatchString re) (strings.Split file "/") = true.
Proof. intros. apply existsb_exists. eauto. Qed.

Lemma atBoundary_below (P file x : string) :
  atBoundary P file -> atBoundary P (file +:+ "/" +:+ x).
Proof.
  intros [->|[(y & ->)|[(a & ->)|(a & y & ->)]]].
  - right; left. eauto.
  - right; left. exists (y +:+ "/" +:+ x). by rewrite !app_assoc_s.
  - right; right; right. exists a, x. by rewrite !app_assoc_s.
  - right; right; right. exists a, (y +:+ "/" +:+ x). by rewrite !app_assoc_s.
Qed.

Lemma atBoundary_above (P file dir : string) :
  atBoundary P file -> atBoundary P (dir +:+ "/" +:+ file).
Proof.
  intros [->|[(y & ->)|[(a & ->)|(a & y & ->)]]].
  - right; right; left. eauto.
  - right; right; right. eauto.
  - right; right; left. exists (dir +:+ "/" +:+ a). by rewrite !app_assoc_s.
  - right; right; right. exists (dir +:+ "/" +:+ a), y. by rewrite !app_assoc_s.
Qed.

Lemma Split_slash_app (a b : string) :
  strings.Split (a +:+ "/" +:+ b) "/" = strings.Split a "/" ++ strings.Split b "/".
Proof. apply (Split_app a b "/"). Qed.

Lemma Split_head (P x : string) :
  strings.mem "/" P = false -> In P (strings.Split (P +:+ "/" +:+ x) "/").
Proof.
  intros H. rewrite Split_slash_app, Split_whole by done. by left.
Qed.

Lemma no_slash (P : string) :
  strings.Contains P "/" = false -> strings.mem "/" P = false.
Proof.
  change "/" with (String "/"%char "") at 1. by rewrite Contains_byte.
Qed.

(** The last test of [matchPattern] holds where the directory test does. *)
Lemma directory_test_is_covered (i : nat) (line : string) (p : ignorePattern)
    (file : string) :
  compileLine i line = Compiled p ->
  strings.mem "[" p.(pattern) = false ->
  matchDirectoryPattern file p = true ->
  (if strings.Contains p.(pattern) "/" then matchPathSeparatorPattern file p
   else matchSimplePattern file p) = true.
Proof.
  intros Hc Hb Hd%matchDirectoryPattern_forms.
  destruct (strings.Contains _ "/") eqn:Es.
  - apply matchPathSeparatorPattern_spec.
    destruct Hd as [->|[x ->]]; [by left|right; left; eauto].
  - apply no_slash in Es. pose proof (compiled_self i line p Hc Hb) as Hself.
    unfold matchSimplePattern.
    apply (segment_matches _ _ p.(pattern)); [|done].
    destruct Hd as [->|[x ->]].
    + rewrite Split_whole by done. by left.
    + by apply Split_head.
Qed.

(** X17: the slash at the end of a line does not restrict the pattern to
    directories: two compiled patterns with the same body and the same
    anchoring match the same paths, whether or not their lines end with a
    slash (and whether or not they are negated). *)
Theorem directory_mark_is_inert
    (i j : nat) (line line' : string) (p q : ignorePattern) (file : string) :
  compileLine i line = Compiled p -> compileLine j line' = Compiled q ->
  p.(pattern) = q.(pattern) ->
  p.(isRootRelative) = q.(isRootRelative) ->
  strings.mem "[" p.(pattern) = false ->
  matchPattern file p = matchPattern file q.
Proof.
  intros Hp Hq Hbody Hroot Hb.
  destruct (compiled_same_body _ _ _ _ _ _ Hp Hq Hbody) as [Hre Hw].
  destruct (isRootRelative p) eqn:Er.
  - unfold matchPattern. rewrite Er, <-Hroot.
    apply eq_true_iff_eq. rewrite !matchRootRelativePattern_spec.
    by rewrite Hre, Hbody.
  - rewrite !matchPattern_anywhere by congruence.
    pose proof (directory_test_is_covered i line p file Hp Hb) as Hcp.
    assert (strings.mem "[" q.(pattern) = false) as Hb' by congruence.
    pose proof (directory_test_is_covered j line' q file Hq Hb') as Hcq.
    assert (matchDirectoryPattern file q = matchDirectoryPattern file p) as Hd.
    { unfold matchDirectoryPattern. by rewrite Hbody. }
    assert (matchWildcardSubpaths file q = matchWildcardSubpaths file p) as Hs.
    { unfold matchWildcardSubpaths. by rewrite Hre. }
    assert (matchPathSeparatorPattern file q = matchPathSeparatorPattern file p) as Hps.
    { unfold matchPathSeparatorPattern. by rewrite Hbody. }
    assert (matchSimplePattern file q = matchSimplePattern file p) as Hsp.
    { unfold matchSimplePattern. by rewrite Hre. }
    rewrite Hd, Hs, Hps, Hsp, <-Hre, <-Hw, <-Hbody in *.
    destruct (matchDirectoryPattern file p).
    + rewrite Hcp by done. by rewrite !orb_true_r.
    + by rewrite !andb_false_r.
Qed.

Lemma directory_mark_is_inert_witness :
  exists p q,
    compileLine 0 "logs/" = Compiled p /\ compileLine 0 "!logs" = Compiled q /\
    p.(isDirectory) = true /\ q.(isDirectory) = false /\
    matchPattern "var/logs" p = matchPattern "var/logs" q.
Proof.
  eexists. eexists.
  split; [vm_compute; reflexivity|]. split; [vm_compute; reflexivity|].
  split; [reflexivity|]. split; [reflexivity|].
  apply (directory_mark_is_inert 0 0 "logs/" "!logs"); vm_compute; reflexivity.
Defined.

(** X18: a pattern that is not anchored at the root matches at any depth:
    where it matches a path it matches that path below any directory. *)
Theorem unanchored_pattern_matches_at_any_depth
    (i : nat) (line : string) (p : ignorePattern) (file dir : string) :
  compileLine i line = Compiled p ->
  p.(isRootRelative) = false ->
  strings.mem "[" p.(pattern) = false ->
  matchPattern file p = true ->
  matchPattern (dir +:+ "/" +:+ file) p = true.
Proof.
  intros Hc Hr Hb. rewrite !matchPattern_anywhere by done.
  pose proof (compiled_self i line p Hc Hb) as Hself.
  destruct (compileLine_inv _ _ _ Hc) as (_ & _ & _ & Hw).
  assert ((if strings.Contains p.(pattern) "/"
           then matchPathSeparatorPattern file p
           else matchSimplePattern file p) = true ->
          (if strings.Contains p.(pattern) "/"
           then matchPathSeparatorPattern (dir +:+ "/" +:+ file) p
           else matchSimplePattern (dir +:+ "/" +:+ file) p) = true) as Hlast.
  { destruct (strings.Contains _ "/").
    - rewrite !matchPathSeparatorPattern_spec. apply atBoundary_above.
    - unfold matchSimplePattern. rewrite Split_slash_app, existsb_app.
      intros ->. by rewrite orb_true_r. }
  assert (forall s, (file = s \/ exists a, file = a +:+ "/" +:+ s) ->
            MatchString p.(regexPattern) s = true ->
            matchWildcardSubpaths (dir +:+ "/" +:+ file) p = true) as Hsub.
  { intros s Hs Hm. apply matchWildcardSubpaths_spec. right.
    destruct Hs as [->|[a ->]]; [by exists dir, s|].
    exists (dir +:+ "/" +:+ a), s. by rewrite !app_assoc_s. }
  intros [[[Hm|Hm]%orb_true_iff|Hm]%orb_true_iff|Hm]%orb_true_iff.
  - destruct (hasWildcard p) eqn:Ew.
    + rewrite (Hsub file) by auto. by rewrite orb_true_r.
    + symmetry in Hw.
      apply (compiled_literal i line p file Hc Hb Hw) in Hm as ->.
      rewrite Hlast; [by rewrite orb_true_r|].
      destruct (strings.Contains _ "/") eqn:Es.
      * apply matchPathSeparatorPattern_spec. by left.
      * unfold matchSimplePattern. rewrite Split_whole by by apply no_slash.
        simpl. by rewrite Hself.
  - apply andb_true_iff in Hm as [_ Hm].
    rewrite Hlast; [by rewrite orb_true_r|].
    by apply (directory_test_is_covered i line).
  - apply andb_true_iff in Hm as [-> Hm]. rewrite andb_true_l.
    apply matchWildcardSubpaths_spec in Hm as [Hm|(a & s & Hf & Hm)].
    + rewrite (Hsub file) by auto. by rewrite orb_true_r.
    + rewrite (Hsub s) by eauto. by rewrite orb_true_r.
  - rewrite Hlast by done. by rewrite orb_true_r.
Qed.

Lemma unanchored_pattern_matches_at_any_depth_witness :
  exists p, compileLine 0 "docs/*.md" = Compiled p /\
    matchPattern ("vendor/lib" +:+ "/" +:+ "docs/a.md") p = true.
Proof.
  eexists. split; [vm_compute; reflexivity|].
  apply (unanchored_pattern_matches_at_any_depth 0 "docs/*.md");
    vm_compute; reflexivity.
Defined.

(** X19: a pattern that matches a directory matches everything below it,
    when its body holds no wildcard, or when it is not anchored at the root
    and its body holds no slash and no doubled star. *)
Theorem matched_directory_covers_its_contents
    (i : nat) (line : string) (p : ignorePattern) (file x : string) :
  compileLine i line = Compiled p ->
  strings.mem "[" p.(pattern) = false ->
  strings.ContainsAny p.(pattern) "*?" = false \/
  (p.(isRootRelative) = false /\ strings.mem "/" p.(pattern) = false /\
   strings.Contains p.(pattern) "**" = false) ->
  matchPattern file p = true ->
  matchPattern (file +:+ "/" +:+ x) p = true.
Proof.
  intros Hc Hb Hshape.
  pose proof (compiled_self i line p Hc Hb) as Hself.
  destruct (compileLine_inv _ _ _ Hc) as (_ & _ & _ & Hw).
  destruct (isRootRelative p) eqn:Er.
  { destruct Hshape as [Hlit|[? _]]; [|done].
    unfold matchPattern. rewrite Er. rewrite !matchRootRelativePattern_spec.
    intros [Hm|[->|[y ->]]].
    - apply (compiled_literal i line p file Hc Hb Hlit) in Hm as ->. eauto.
    - eauto.
    - right; right. exists (y +:+ "/" +:+ x). by rewrite !app_assoc_s. }
  rewrite !matchPattern_anywhere by done.
  assert ((if strings.Contains p.(pattern) "/"
           then matchPathSeparatorPattern file p
           else matchSimplePattern file p) = true ->
          (if strings.Contains p.(pattern) "/"
           then matchPathSeparatorPattern (file +:+ "/" +:+ x) p
           else matchSimplePattern (file +:+ "/" +:+ x) p) = true) as Hlast.
  { destruct (strings.Contains _ "/").
    - rewrite !matchPathSeparatorPattern_spec. apply atBoundary_below.
    - unfold matchSimplePattern. rewrite Split_slash_app, existsb_app.
      by intros ->. }
  assert (MatchString p.(regexPattern) file = true ->
          (if strings.Contains p.(pattern) "/"
           then matchPathSeparatorPattern file p
           else matchSimplePattern file p) = true) as Hwhole.
  { intros Hm. destruct Hshape as [Hlit|(_ & Hs & Hd)].
    - apply (compiled_literal i line p file Hc Hb Hlit) in Hm as ->.
      destruct (strings.Contains _ "/") eqn:Es.
      + apply matchPathSeparatorPattern_spec. by left.
      + unfold matchSimplePattern. rewrite Split_whole by by apply no_slash.
        simpl. by rewrite Hself.
    - change "/" with (String "/"%char "") at 1. rewrite Contains_byte, Hs.
      unfold matchSimplePattern.
      destruct (globWord_simple p.(pattern) Hd) as [Hfree _].
      assert (strings.mem "/" file = false) as Hf.
      { apply Hfree; [done|]. by apply (compiled_globs i line). }
      rewrite Split_whole by done. simpl. by rewrite Hm. }
  intros [[[Hm|Hm]%orb_true_iff|Hm]%orb_true_iff|Hm]%orb_true_iff.
  - rewrite Hlast by auto. by rewrite orb_true_r.
  - apply andb_true_iff in Hm as [_ Hm].
    rewrite Hlast; [by rewrite orb_true_r|].
    by apply (directory_test_is_covered i line).
  - apply andb_true_iff in Hm as [Hwild Hm].
    destruct Hshape as [Hlit|(_ & Hs & Hd)]; [congruence|].
    apply matchWildcardSubpaths_spec in Hm as [Hm|(a & s & -> & Hm)].
    + rewrite Hlast by auto. by rewrite orb_true_r.
    + assert (strings.Contains p.(pattern) "/" = false) as Es.
      { change "/" with (String "/"%char "") at 1. by rewrite Contains_byte. }
      rewrite Es. unfold matchSimplePattern.
      destruct (globWord_simple p.(pattern) Hd) as [Hfree _].
      assert (strings.mem "/" s = false) as Hf.
      { apply Hfree; [done|]. by apply (compiled_globs i line). }
      rewrite (segment_matches _ _ s); [by rewrite orb_true_r| |done].
      rewrite !Split_slash_app, (Split_whole s) by done.
      apply in_app_iff. left. apply in_app_iff. right. by left.
  - rewrite Hlast by done. by rewrite orb_true_r.
Qed.

Lemma matched_directory_covers_its_contents_witness :
  exists p, compileLine 0 "/build" = Compiled p /\
    matchPattern ("build" +:+ "/" +:+ "out/a.o") p = true.
Proof.
  eexists. split; [vm_compute; reflexivity|].
  apply (matched_directory_covers_its_contents 0 "/build");
    [vm_compute; reflexivity|reflexivity|by left|vm_compute; reflexivity].
Defined.

(** X20: [matchWildcardSubpaths] tries the predicate on the path and on each
    of its suffixes that starts after a slash; its second loop rebuilds
    the whole path at every round and so never changes the result. *)
Theorem matchWildcardSubpaths_second_loop_is_idle (file : string) (p : ignorePattern) :
  matchWildcardSubpaths file p =
  existsb
    (fun i =>
       MatchString p.(regexPattern)
         (strings.Join (drop i (strings.Split file "/")) "/"))
    (seq 0 (length (strings.Split file "/"))) /\
  forall i, 1 <= i < length (strings.Split file "/") ->
    strings.Join (take i (strings.Split file "/")) "/" +:+ "/" +:+
    strings.Join (drop i (strings.Split file "/")) "/" = file.
Proof.
  assert (forall i, 1 <= i < length (strings.Split file "/") ->
            strings.Join (take i (strings.Split file "/")) "/" +:+ "/" +:+
            strings.Join (drop i (strings.Split file "/")) "/" = file) as Hwhole.
  { intros i Hi. rewrite <-(Join_Split file "/") at 3.
    rewrite <-(take_drop i (strings.Split file "/")) at 3.
    symmetry. apply (Join_app _ _ "/").
    - intros E%(f_equal length). rewrite length_take in E. simpl in E. lia.
    - intros E%(f_equal length). rewrite length_drop in E. simpl in E. lia. }
  split; [|done].
  unfold matchWildcardSubpaths.
  destruct (existsb _ (seq 0 _)) eqn:E; [done|].
  apply not_true_is_false. intros (i & Hi%in_seq & Hm)%existsb_exists.
  rewrite Hwhole in Hm by lia.
  assert (existsb
            (fun i =>
               MatchString p.(regexPattern)
                 (strings.Join (drop i (strings.Split file "/")) "/"))
            (seq 0 (length (strings.Split file "/"))) = true); [|congruence].
  apply existsb_exists. exists 0. split.
  - apply in_seq. lia.
  - rewrite drop_0. by rewrite (Join_Split file "/").
Qed.

Lemma matchWildcardSubpaths_second_loop_is_idle_witness :
  strings.Join (take 1 (strings.Split "a/b/c" "/")) "/" +:+ "/" +:+
  strings.Join (drop 1 (strings.Split "a/b/c" "/")) "/" = "a/b/c".
Proof.
  apply (proj2 (matchWildcardSubpaths_second_loop_is_idle "a/b/c"
                  {| pattern := "*"; regexPattern := []; isDirectory := false;
                     negate := false; hasWildcard := true;
                     isRootRelative := false |})).
  vm_compute. split; repeat constructor.
Defined.

(** ** Cleaned paths *)

Lemma Split_no_sep (s : string) (c : ascii) (e : string) :
  In e (strings.Split s c) -> strings.mem c e = false.
Proof.
  revert e. induction s as [|d t IH]; intros e; simpl.
  - by intros [<-|[]].
  - destruct (Ascii.eqb d c) eqn:E.
    + intros [<-|H]; [done|by apply IH].
    + destruct (strings.Split t c) as [|h r] eqn:Es.
      * intros [<-|[]]. simpl. by rewrite Ascii.eqb_sym, E.
      * intros [<-|H].
        -- simpl. rewrite Ascii.eqb_sym, E. apply IH. by left.
        -- apply IH. by right.
Qed.

Lemma Split_Join (l : list string) (c : ascii) :
  l <> [] -> (forall e, In e l -> strings.mem c e = false) ->
  strings.Split (strings.Join l (String c "")) c = l.
Proof.
  induction l as [|x [|y l'] IH]; intros Hne Hl; [done| |].
  - simpl. apply Split_whole. apply Hl. by left.
  - rewrite Join_cons by done.
    change (x +:+ String c "" +:+ strings.Join (y :: l') (String c ""))
      with (x +:+ String c (strings.Join (y :: l') (String c ""))).
    rewrite Split_first by (apply Hl; by left).
    f_equal. apply IH; [done|]. intros e He. apply Hl. by right.
Qed.

Lemma Join_not_empty (x : string) (l : list string) (sep : string) :
  x <> "" -> strings.Join (x :: l) sep <> "".
Proof.
  intros Hx. destruct l as [|y l']; [done|]. rewrite Join_cons by done.
  destruct x; [done|]. by rewrite app_cons.
Qed.

Lemma Join_no_leading_slash (x : string) (l : list string) :
  x <> "" -> strings.mem "/" x = false ->
  strings.HasPrefix (strings.Join (x :: l) "/") "/" = false.
Proof.
  intros Hx Hs. destruct x as [|c t]; [done|].
  rewrite mem_cons in Hs. apply orb_false_iff in Hs as [Hc _].
  assert (exists u, strings.Join (String c t :: l) "/" = String c u) as [u ->].
  { destruct l as [|y l']; [by eexists|]. rewrite Join_cons by done.
    rewrite app_cons. by eexists. }
  apply not_true_is_false. intros [v [= -> _]]%HasPrefix_spec. done.
Qed.

Lemma cleanElems_app (rooted : bool) (l1 l2 : list string) :
  forall out,
    filepath.cleanElems rooted (l1 ++ l2) out =
    filepath.cleanElems rooted l2 (rev (filepath.cleanElems rooted l1 out)).
Proof.
  induction l1 as [|e rest IH]; intros out; simpl.
  - by rewrite rev_involutive.
  - destruct (_ || _); [apply IH|].
    destruct (String.eqb e ".."); [|apply IH].
    destruct out as [|top out']; [destruct rooted; apply IH|].
    destruct (String.eqb top ".."); apply IH.
Qed.

Lemma cleanElems_no_dots (rooted : bool) (l : list string) :
  (forall e, In e l -> e <> "..") ->
  forall out,
    filepath.cleanElems rooted l out = rev out ++ List.filter plainElem l.
Proof.
  induction l as [|e rest IH]; intros Hl out; simpl.
  - by rewrite app_nil_r.
  - assert (forall e', In e' rest -> e' <> "..") as Hr
      by (intros; apply Hl; by right).
    assert (String.eqb e ".." = false) as Hd
      by (apply String.eqb_neq, Hl; by left).
    unfold plainElem at 1. rewrite Hd.
    destruct (_ || _); simpl; [by apply IH|].
    rewrite IH by done. simpl. by rewrite <-app_assoc.
Qed.

Lemma filter_plain (N : list string) :
  Forall (fun e => plainElem e = true) N -> List.filter plainElem N = N.
Proof.
  induction 1 as [|e N He _ IH]; [done|]. simpl. by rewrite He, IH.
Qed.

Lemma plainElem_not_dots (e : string) : plainElem e = true -> e <> "..".
Proof. intros H ->. vm_compute in H. discriminate. Qed.

Lemma cleanElems_plain (rooted : bool) (N : list string) (out : list string) :
  Forall (fun e => plainElem e = true) N ->
  filepath.cleanElems rooted N out = rev out ++ N.
Proof.
  intros HN. rewrite cleanElems_no_dots, filter_plain; [done..|].
  intros e He. apply plainElem_not_dots.
  by apply (proj1 (List.Forall_forall _ _) HN).
Qed.

Lemma rev_replicate (k : nat) (x : string) : rev (replicate k x) = replicate k x.
Proof.
  induction k as [|k IH]; [done|]. simpl. rewrite IH.
  clear IH. induction k as [|k IH]; [done|]. simpl. by rewrite IH.
Qed.

Lemma cleanElems_shape (rooted : bool) (elems : list string) :
  forall M k,
    Forall (fun e => plainElem e = true) M ->
    (rooted = true -> k = 0) ->
    cleanShape rooted (filepath.cleanElems rooted elems (M ++ replicate k "..")).
Proof.
  induction elems as [|e rest IH]; intros M k HM Hk; simpl.
  - exists k, (rev M). rewrite rev_app_distr, rev_replicate.
    split; [done|]. split; [|done].
    apply List.Forall_forall. intros x Hx%in_rev.
    by apply (proj1 (List.Forall_forall _ _) HM).
  - destruct (_ || _) eqn:E1; [by apply IH|].
    destruct (String.eqb e "..") eqn:E2.
    + apply String.eqb_eq in E2 as ->. destruct M as [|top M'].
      * destruct k as [|k']; simpl.
        -- destruct rooted.
           ++ apply (IH [] 0); done.
           ++ apply (IH [] 1); done.
        -- apply (IH [] (S (S k'))); [done|].
           intros Hr. by specialize (Hk Hr).
      * simpl. apply Forall_cons in HM as [Ht HM].
        assert (String.eqb top ".." = false) as ->
          by (apply String.eqb_neq; by apply plainElem_not_dots).
        by apply IH.
    + apply (IH (e :: M) k); [|done]. constructor; [|done].
      unfold plainElem. by rewrite E1, E2.
Qed.

Lemma cleanElems_dots (k : nat) :
  forall j rest,
    filepath.cleanElems false (replicate k ".." ++ rest) (replicate j "..") =
    filepath.cleanElems false rest (replicate (k + j) "..").
Proof.
  induction k as [|k IH]; intros j rest; [done|].
  simpl. destruct j as [|j']; simpl.
  - rewrite (IH 1). by replace (k + 1) with (S (k + 0)) by lia.
  - rewrite (IH (S (S j'))). by replace (k + S (S j')) with (S (k + S j')) by lia.
Qed.

Lemma cleanElems_fixed (rooted : bool) (E : list string) :
  cleanShape rooted E -> filepath.cleanElems rooted E [] = E.
Proof.
  intros (k & N & -> & HN & Hk). destruct rooted.
  - rewrite Hk by done. simpl. by rewrite cleanElems_plain.
  - rewrite (cleanElems_dots k 0), cleanElems_plain, rev_replicate by done.
    by rewrite Nat.add_0_r.
Qed.

Lemma cleanElems_subset (rooted : bool) (elems : list string) :
  forall out e,
    In e (filepath.cleanElems rooted elems out) -> In e elems \/ In e out.
Proof.
  induction elems as [|x rest IH]; intros out e; simpl.
  - intros H%in_rev. by right.
  - assert (forall out', (forall y, In y out' -> y = x \/ In y out) ->
              In e (filepath.cleanElems rooted rest out') ->
              (x = e \/ In e rest) \/ In e out) as Hstep.
    { intros out' Hsub [H|H]%IH; [by left; right|].
      destruct (Hsub _ H) as [->|H']; [by left; left|by right]. }
    destruct (_ || _); [apply Hstep; auto|].
    destruct (String.eqb x "..").
    + destruct out as [|top out'].
      * destruct rooted; apply Hstep; simpl; intuition.
      * destruct (String.eqb top ".."); apply Hstep; simpl; intuition.
    + apply Hstep. simpl. intuition.
Qed.

Lemma cleanShape_head (rooted : bool) (x : string) (l : list string) :
  cleanShape rooted (x :: l) -> x <> "".
Proof.
  intros (k & N & E & HN & _). destruct k as [|k]; simpl in E.
  - destruct N as [|y N']; [done|]. injection E as -> _.
    apply Forall_cons in HN as [Hy _]. by intros ->.
  - by injection E as -> _.
Qed.

(** What [filepath.Clean] returns for a path that is not empty. *)
Lemma Clean_elems (path : string) :
  path <> "" ->
  let rooted := strings.HasPrefix path "/" in
  let E := filepath.cleanElems rooted (strings.Split path "/") [] in
  cleanShape rooted E /\
  (forall e, In e E -> strings.mem "/" e = false) /\
  filepath.Clean path =
  if rooted then "/" +:+ strings.Join E "/"
  else match E with [] => "." | _ :: _ => strings.Join E "/" end.
Proof.
  intros Hne rooted E.
  assert (cleanShape rooted E) as Hshape
    by (apply (cleanElems_shape rooted _ [] 0); done).
  split; [done|]. split.
  - intros e [He|[]]%cleanElems_subset. by apply Split_no_sep in He.
  - unfold filepath.Clean. apply String.eqb_neq in Hne. rewrite Hne.
    fold rooted. fold E. cbv zeta. destruct rooted; [done|].
    destruct E as [|x l]; [done|].
    change ("" +:+ strings.Join (x :: l) "/") with (strings.Join (x :: l) "/").
    assert (strings.Join (x :: l) "/" <> "") as Hj%String.eqb_neq
      by (apply Join_not_empty; by apply (cleanShape_head false x l)).
    by rewrite Hj.
Qed.

Lemma Clean_not_empty (path : string) : filepath.Clean path <> "".
Proof.
  destruct (String.eqb path "") eqn:E.
  - apply String.eqb_eq in E as ->. done.
  - apply String.eqb_neq in E.
    destruct (Clean_elems path E) as (Hs & _ & ->).
    destruct (strings.HasPrefix path "/"); [done|].
    destruct (filepath.cleanElems _ _ _) as [|x l] eqn:El; [done|].
    apply Join_not_empty. by apply (cleanShape_head false x l).
Qed.

Lemma Clean_idem (path : string) :
  filepath.Clean (filepath.Clean path) = filepath.Clean path.
Proof.
  destruct (String.eqb path "") eqn:E.
  { apply String.eqb_eq in E as ->. done. }
  apply String.eqb_neq in E.
  destruct (Clean_elems path E) as (Hs & Hno & HC). cbv zeta in *.
  set (E0 := filepath.cleanElems (strings.HasPrefix path "/")
               (strings.Split path "/") []) in *.
  destruct (strings.HasPrefix path "/") eqn:Er.
  - rewrite HC. destruct E0 as [|x l] eqn:El; [done|].
    unfold filepath.Clean.
    change (String.eqb ("/" +:+ strings.Join (x :: l) "/") "") with false.
    change (strings.HasPrefix ("/" +:+ strings.Join (x :: l) "/") "/") with true.
    cbv iota zeta.
    change (strings.Split ("/" +:+ strings.Join (x :: l) "/") "/")
      with ("" :: strings.Split (strings.Join (x :: l) "/") "/").
    rewrite (Split_Join (x :: l) "/") by done.
    change (filepath.cleanElems true ("" :: x :: l) [])
      with (filepath.cleanElems true (x :: l) []).
    by rewrite cleanElems_fixed.
  - rewrite HC. destruct E0 as [|x l] eqn:El; [done|].
    pose proof (cleanShape_head false x l Hs) as Hx.
    assert (strings.mem "/" x = false) as Hxs by (apply Hno; by left).
    unfold filepath.Clean.
    assert (String.eqb (strings.Join (x :: l) "/") "" = false) as Hj
      by (apply String.eqb_neq; by apply Join_not_empty).
    rewrite Hj, Join_no_leading_slash by done. cbv iota zeta.
    rewrite (Split_Join (x :: l) "/") by done.
    rewrite cleanElems_fixed by done.
    change ("" +:+ strings.Join (x :: l) "/") with (strings.Join (x :: l) "/").
    by rewrite Hj.
Qed.

Lemma Clean_trailing_slash (path : string) :
  path <> "" -> filepath.Clean (path +:+ "/") = filepath.Clean path.
Proof.
  intros Hne. unfold filepath.Clean.
  assert (String.eqb (path +:+ "/") "" = false) as ->
    by (destruct path; [done|by rewrite app_cons]).
  apply String.eqb_neq in Hne. rewrite Hne.
  assert (strings.HasPrefix (path +:+ "/") "/" = strings.HasPrefix path "/") as ->.
  { destruct path as [|c t]; [by apply String.eqb_neq in Hne|].
    rewrite app_cons. unfold strings.HasPrefix. done. }
  change (path +:+ "/") with (path +:+ String "/"%char "").
  rewrite (Split_app path "" "/"), cleanElems_app. simpl.
  by rewrite rev_involutive.
Qed.

(** Two paths that clean to the same path get the same answers. *)
Lemma Matches_same_clean (m : PatternMatcher) (f g : string) :
  filepath.Clean f = filepath.Clean g ->
  (f = "" <-> g = "") \/ filepath.Clean f = "." ->
  Matches m f = Matches m g /\
  MatchesWithTracking m f = MatchesWithTracking m g.
Proof.
  intros Hc He.
  rewrite !Matches_unfold, !MatchesWithTracking_unfold.
  unfold trivialPath, normalize. rewrite <-Hc.
  destruct He as [He|He].
  - assert (String.eqb f "" = String.eqb g "") as ->; [|done].
    apply eq_true_iff_eq. rewrite !String.eqb_eq. done.
  - rewrite He. simpl. by rewrite !orb_true_r.
Qed.

Lemma Matches_Clean (m : PatternMatcher) (file : string) :
  Matches m (filepath.Clean file) = Matches m file /\
  MatchesWithTracking m (filepath.Clean file) = MatchesWithTracking m file.
Proof.
  apply Matches_same_clean; [apply Clean_idem|].
  destruct (String.eqb file "") eqn:E.
  - apply String.eqb_eq in E as ->. by right.
  - apply String.eqb_neq in E. left. split; [|done].
    intros H. by apply Clean_not_empty in H.
Qed.

(** X21: [Matches] and [MatchesWithTracking] look at the cleaned path only:
    a path and the path [filepath.Clean] makes of it get the same answer,
    and a slash at the end of a path changes nothing. *)
Theorem Matches_looks_at_the_cleaned_path (m : PatternMatcher) (file : string) :
  Matches m (filepath.Clean file) = Matches m file /\
  MatchesWithTracking m (filepath.Clean file) = MatchesWithTracking m file /\
  (file <> "" ->
   Matches m (file +:+ "/") = Matches m file /\
   MatchesWithTracking m (file +:+ "/") = MatchesWithTracking m file).
Proof.
  split; [apply Matches_Clean|]. split; [apply Matches_Clean|].
  intros Hne. apply Matches_same_clean; [by apply Clean_trailing_slash|].
  left. split; [|done]. by destruct file.
Qed.

Lemma Matches_looks_at_the_cleaned_path_witness :
  exists m, NewPatternMatcher ["build/"] = Ok m /\
    Matches m ("build" +:+ "/") = Matches m "build".
Proof.
  eexists. split; [vm_compute; reflexivity|].
  eapply (proj2 (proj2 (Matches_looks_at_the_cleaned_path _ "build"))). done.
Defined.

(** ** The repository index *)

Lemma rooted_not_empty (path : string) :
  strings.HasPrefix path "/" = true -> path <> "".
Proof. by intros H ->. Qed.

Lemma rooted_app (a b : string) :
  strings.HasPrefix a "/" = true -> strings.HasPrefix (a +:+ b) "/" = true.
Proof.
  intros [t ->]%HasPrefix_spec. apply HasPrefix_spec.
  exists (t +:+ b). by rewrite app_assoc_s.
Qed.

(** What [filepath.Clean] returns for a rooted path. *)
Lemma Clean_rooted (path : string) :
  strings.HasPrefix path "/" = true ->
  let E := filepath.cleanElems true (strings.Split path "/") [] in
  Forall (fun e => plainElem e = true) E /\
  (forall e, In e E -> strings.mem "/" e = false) /\
  filepath.Clean path = "/" +:+ strings.Join E "/".
Proof.
  intros Hr E. pose proof (Clean_elems path (rooted_not_empty _ Hr)) as H.
  rewrite Hr in H. cbv zeta in H. fold E in H.
  destruct H as ((k & N & HE & HN & Hk) & Hno & HC).
  rewrite Hk in HE by done. simpl in HE. rewrite HE in *. done.
Qed.

Lemma plain_not_empty (e : string) : plainElem e = true -> e <> "".
Proof. intros H ->. vm_compute in H. discriminate. Qed.

Lemma Join_plain_not_empty (l : list string) :
  l <> [] -> Forall (fun e => plainElem e = true) l -> strings.Join l "/" <> "".
Proof.
  destruct l as [|x l']; [done|]. intros _ [Hx _]%Forall_cons.
  apply Join_not_empty. by apply plain_not_empty.
Qed.

(** The elements [filepath.Rel] compares, for a cleaned rooted path. *)
Lemma elements_rooted (E : list string) :
  Forall (fun e => plainElem e = true) E ->
  (forall e, In e E -> strings.mem "/" e = false) ->
  filepath.elements ("/" +:+ strings.Join E "/") = "" :: E.
Proof.
  intros HE Hno. destruct E as [|x l]; [done|].
  pose proof (Join_plain_not_empty (x :: l) ltac:(done) HE) as Hj.
  unfold filepath.elements.
  change (String.eqb ("/" +:+ strings.Join (x :: l) "/") "") with false.
  assert (String.eqb ("/" +:+ strings.Join (x :: l) "/") "/" = false) as ->.
  { apply String.eqb_neq. intros [= H]. done. }
  cbv iota.
  change (strings.Split ("/" +:+ strings.Join (x :: l) "/") "/")
    with ("" :: strings.Split (strings.Join (x :: l) "/") "/").
  by rewrite (Split_Join (x :: l) "/").
Qed.

Lemma dropCommon_sub (base targ : list string) :
  forall x, In x (filepath.dropCommon base targ).1 -> In x base.
Proof.
  revert targ. induction base as [|b base' IH]; intros [|t targ'] x; simpl; auto.
  destruct (String.eqb b t); simpl; [|done].
  intros H%IH. by right.
Qed.

Lemma dropCommon_prefix (l rest : list string) :
  filepath.dropCommon l (l ++ rest) = ([], rest).
Proof.
  induction l as [|x l IH]; simpl; [by destruct rest|].
  by rewrite String.eqb_refl.
Qed.

(** [filepath.Rel] has a result for two rooted paths. *)
Lemma Rel_rooted (base targ : string) :
  strings.HasPrefix base "/" = true -> strings.HasPrefix targ "/" = true ->
  exists r, filepath.Rel base targ = Some r.
Proof.
  intros Hb Ht.
  destruct (Clean_rooted base Hb) as (HEb & Hnb & HCb).
  destruct (Clean_rooted targ Ht) as (HEt & Hnt & HCt).
  unfold filepath.Rel. rewrite HCb, HCt. cbv zeta.
  set (Eb := filepath.cleanElems true (strings.Split base "/") []) in *.
  set (Et := filepath.cleanElems true (strings.Split targ "/") []) in *.
  destruct (String.eqb _ _); [eauto|].
  change (String.eqb ("/" +:+ strings.Join Eb "/") ".") with false. cbv iota.
  change (strings.HasPrefix ("/" +:+ ?s) "/") with true. simpl negb. cbv iota.
  rewrite !elements_rooted by done.
  pose proof (dropCommon_sub ("" :: Eb) ("" :: Et)) as Hsub.
  destruct (filepath.dropCommon _ _) as [b t]. simpl in Hsub.
  destruct b as [|b0 b']; [eauto|]. destruct t as [|t0 t']; [eauto|].
  assert (String.eqb b0 ".." = false) as ->; [|eauto].
  apply String.eqb_neq. destruct (Hsub b0) as [<-|Hin]; [by left|done|].
  apply plainElem_not_dots. by apply (proj1 (List.Forall_forall _ _) HEb).
Qed.

(** X22: for a root that is an absolute path [RepositoryMatcher.Matches]
    has one error only: the cleaned absolute path does not begin with the
    text of the root.  The relative path of a path that passes this test
    can always be computed. *)
Theorem repository_error_is_outside_root
    (rm : repository.RepositoryMatcher) (path : string) (e : repository.matchError) :
  filepath.IsAbs rm.(repository.rootDir) = true ->
  repository.Matches rm path = Err e <->
  path <> "" /\ e = repository.ErrOutsideRoot /\
  strings.HasPrefix (absolutePath rm path) rm.(repository.rootDir) = false.
Proof.
  intros Hroot. unfold repository.Matches, absolutePath.
  unfold filepath.IsAbs in Hroot.
  destruct (String.eqb path "") eqn:Ep.
  { apply String.eqb_eq in Ep. split; [done|]. by intros [? _]. }
  apply String.eqb_neq in Ep.
  set (A := if filepath.IsAbs path then filepath.Clean path
            else filepath.Clean (filepath.Join (repository.rootDir rm) path)).
  destruct (strings.HasPrefix A _) eqn:Ein; simpl.
  - destruct (Rel_rooted (repository.rootDir rm) A) as [r ->].
    + done.
    + apply HasPrefix_spec in Ein as [t ->]. by apply rooted_app.
    + split; [done|]. by intros (_ & _ & ?).
  - split; [by intros [= <-]|]. by intros (_ & -> & _).
Qed.

Lemma repository_error_is_outside_root_witness :
  repository.Matches {| repository.rootDir := "/repo"; repository.matchers := ∅ |}
    "../other/a.txt" = Err repository.ErrOutsideRoot.
Proof.
  apply repository_error_is_outside_root; [reflexivity|].
  split; [done|]. split; reflexivity.
Defined.

(** X23: a relative path and the absolute path made of the root, a slash and
    that path get the same result. *)
Theorem relative_and_absolute_paths_agree
    (rm : repository.RepositoryMatcher) (path : string) :
  filepath.IsAbs rm.(repository.rootDir) = true ->
  filepath.IsAbs path = false -> path <> "" ->
  repository.Matches rm (rm.(repository.rootDir) +:+ "/" +:+ path) =
  repository.Matches rm path.
Proof.
  intros Hroot Hrel Hne. unfold repository.Matches.
  unfold filepath.IsAbs in Hroot.
  assert (String.eqb (repository.rootDir rm +:+ "/" +:+ path) "" = false) as ->.
  { apply String.eqb_neq, rooted_not_empty. by apply rooted_app. }
  apply String.eqb_neq in Hne. rewrite Hne, Hrel.
  assert (filepath.IsAbs (repository.rootDir rm +:+ "/" +:+ path) = true) as ->
    by by apply rooted_app.
  unfold filepath.Join.
  assert (String.eqb (repository.rootDir rm) "" = false) as ->
    by by apply String.eqb_neq, rooted_not_empty.
  change (negb false) with true. cbv iota. by rewrite Clean_idem.
Qed.

Lemma relative_and_absolute_paths_agree_witness :
  exists m, NewPatternMatcher ["*.log"] = Ok m /\
    repository.Matches
      {| repository.rootDir := "/repo"; repository.matchers := {[ "/repo" := m ]} |}
      ("/repo" +:+ "/" +:+ "var/app.log") =
    repository.Matches
      {| repository.rootDir := "/repo"; repository.matchers := {[ "/repo" := m ]} |}
      "var/app.log".
Proof.
  eexists. split; [vm_compute; reflexivity|].
  apply (relative_and_absolute_paths_agree
           {| repository.rootDir := "/repo"; repository.matchers := _ |});
    [reflexivity|reflexivity|done].
Defined.

(** A relative path without double dot stays below a cleaned root, and
    its path from the root is its cleaned form. *)
Lemma below_root (root path : string) :
  filepath.Clean root = root -> strings.HasPrefix root "/" = true ->
  strings.HasPrefix path "/" = false -> path <> "" ->
  (forall e, In e (strings.Split path "/") -> e <> "..") ->
  let A := filepath.Clean (root +:+ "/" +:+ path) in
  strings.HasPrefix A root = true /\
  filepath.Rel root A = Some (filepath.Clean path).
Proof.
  intros Hclean Hroot Hrel Hne Hdots A.
  destruct (Clean_rooted root Hroot) as (HE & HnoE & HC).
  set (E := filepath.cleanElems true (strings.Split root "/") []) in *.
  set (F := List.filter plainElem (strings.Split path "/")).
  assert (Forall (fun e => plainElem e = true) F) as HF.
  { apply List.Forall_forall. by intros e [_ He]%filter_In. }
  assert (forall e, In e F -> strings.mem "/" e = false) as HnoF.
  { intros e [He _]%filter_In. by apply Split_no_sep in He. }
  assert (Forall (fun e => plainElem e = true) (E ++ F)) as HEF
    by by apply Forall_app.
  assert (forall e, In e (E ++ F) -> strings.mem "/" e = false) as HnoEF.
  { intros e [?|?]%in_app_iff; auto. }
  rewrite Hclean in HC.
  assert (A = "/" +:+ strings.Join (E ++ F) "/") as HA.
  { unfold A.
    destruct (Clean_rooted (root +:+ "/" +:+ path)) as (_ & _ & ->);
      [by apply rooted_app|].
    rewrite Split_slash_app, cleanElems_app. fold E.
    by rewrite cleanElems_no_dots, rev_involutive. }
  assert (filepath.Clean path = match F with [] => "." | _ => strings.Join F "/" end)
    as HP.
  { destruct (Clean_elems path Hne) as (_ & _ & ->). rewrite Hrel.
    by rewrite cleanElems_no_dots. }
  assert (filepath.Clean A = A) as HcA by apply Clean_idem.
  destruct F as [|f F'] eqn:EF.
  { rewrite app_nil_r in HA. rewrite <-HC in HA. rewrite HA, HP. split.
    - apply HasPrefix_spec. exists "". by rewrite app_empty_r.
    - unfold filepath.Rel. by rewrite Hclean, String.eqb_refl. }
  rewrite <-EF in *.
  assert (F <> []) as HFne by (rewrite EF; done).
  assert (strings.Join F "/" <> "") as HjF by by apply Join_plain_not_empty.
  assert (A = root +:+ (match E with [] => "" | _ => "/" end) +:+ strings.Join F "/")
    as HA'.
  { rewrite HA, HC. destruct E as [|x l] eqn:EE; [done|].
    rewrite <-EE in *. rewrite (Join_app E F "/") by (rewrite ?EE; done).
    by rewrite !app_assoc_s. }
  split.
  - apply HasPrefix_spec. eexists. exact HA'.
  - unfold filepath.Rel. rewrite Hclean, HcA. cbv zeta.
    assert (String.eqb A root = false) as ->.
    { apply String.eqb_neq. intros H%(f_equal String.length).
      rewrite HA', !length_app_s in H.
      assert (String.length (strings.Join F "/") <> 0) by by destruct (strings.Join F "/").
      lia. }
    assert (String.eqb root "." = false) as ->.
    { rewrite HC. done. }
    rewrite Hroot.
    assert (strings.HasPrefix A "/" = true) as -> by by rewrite HA.
    simpl negb. cbv iota.
    rewrite HC, HA, !elements_rooted by done.
    change ("" :: E ++ F) with (("" :: E) ++ F).
    rewrite dropCommon_prefix. rewrite HP, EF. by rewrite <-EF.
Qed.

(** The levels other than the root's leave the result of a matcher that
    knows the root only as it is. *)
Lemma fold_single_root (rm : repository.RepositoryMatcher) (m : PatternMatcher)
    (absPath relPath : string) (dirs : list string) :
  rm.(repository.matchers) = {[ rm.(repository.rootDir) := m ]} ->
  fold_left (repository.applyLevel rm absPath relPath)
    (rm.(repository.rootDir) :: dirs) false = Matches m relPath.
Proof.
  intros Hm.
  assert (forall dir matched,
            matched = false \/ matched = Matches m relPath ->
            repository.applyLevel rm absPath relPath matched dir = Matches m relPath \/
            (dir <> rm.(repository.rootDir) /\
             repository.applyLevel rm absPath relPath matched dir = matched)) as Hstep.
  { intros dir matched Hmatched. unfold repository.applyLevel. rewrite Hm.
    destruct (decide (dir = repository.rootDir rm)) as [->|Hd].
    - left. rewrite lookup_singleton_eq, String.eqb_refl.
      rewrite MatchesWithTracking_unfold, Matches_unfold.
      rewrite Matches_unfold in Hmatched.
      destruct (trivialPath relPath); [by destruct Hmatched|].
      destruct (existsb _ _) eqn:Ex; [done|].
      rewrite matchesInternal_decision in *. unfold decision in *.
      apply lastMatched_None in Ex. rewrite Ex in *. by destruct Hmatched.
    - right. by rewrite lookup_singleton_ne. }
  assert (forall l matched,
            matched = Matches m relPath ->
            fold_left (repository.applyLevel rm absPath relPath) l matched =
            Matches m relPath) as Hrest.
  { induction l as [|dir l IH]; intros matched Hv; [done|]. simpl.
    apply IH. destruct (Hstep dir matched) as [H|[_ H]]; [by right|done|].
    by rewrite H. }
  simpl. apply Hrest.
  destruct (Hstep (repository.rootDir rm) false) as [H|[H _]]; [by left|done|done].
Qed.

(** X24: a relative path that holds no double dot is never refused, and a
    repository matcher that knows the ignore file of its root only gives
    such a path the answer of that matcher. *)
Theorem root_only_index_is_the_root_matcher
    (rm : repository.RepositoryMatcher) (path : string) :
  filepath.Clean rm.(repository.rootDir) = rm.(repository.rootDir) ->
  filepath.IsAbs rm.(repository.rootDir) = true ->
  filepath.IsAbs path = false ->
  (forall e, In e (strings.Split path "/") -> e <> "..") ->
  (exists ignored, repository.Matches rm path = Ok ignored) /\
  forall m,
    rm.(repository.matchers) = {[ rm.(repository.rootDir) := m ]} ->
    repository.Matches rm path = Ok (Matches m path).
Proof.
  intros Hclean Hroot Hrel Hdots. unfold filepath.IsAbs in Hroot, Hrel.
  destruct (String.eqb path "") eqn:Ep.
  { apply String.eqb_eq in Ep as ->. split; [by eexists|]. done. }
  pose proof Ep as Hne. apply String.eqb_neq in Hne.
  destruct (below_root _ _ Hclean Hroot Hrel Hne Hdots) as [Hin Hr].
  assert (repository.Matches rm path =
          Ok (fold_left
                (repository.applyLevel rm
                   (filepath.Clean (repository.rootDir rm +:+ "/" +:+ path))
                   (filepath.Clean path))
                (repository.rootDir rm ::
                 repository.dirsBelow (repository.rootDir rm)
                   (take (length (strings.Split (filepath.Clean path) "/") - 1)
                      (strings.Split (filepath.Clean path) "/")))
                false)) as ->.
  { unfold repository.Matches, filepath.IsAbs. rewrite Ep, Hrel.
    unfold filepath.Join.
    assert (String.eqb (repository.rootDir rm) "" = false) as ->
      by by apply String.eqb_neq, rooted_not_empty.
    change (negb false) with true. cbv iota. rewrite Clean_idem, Hin.
    change (negb true) with false. cbv iota.
    by rewrite Hr. }
  split; [by eexists|].
  intros m Hm. f_equal. rewrite (fold_single_root rm m) by done.
  apply Matches_Clean.
Qed.

Lemma root_only_index_is_the_root_matcher_witness :
  exists m, NewPatternMatcher ["*.log"; "!keep.log"] = Ok m /\
    repository.Matches
      {| repository.rootDir := "/repo"; repository.matchers := {[ "/repo" := m ]} |}
      "var/./app.log" = Ok (Matches m "var/./app.log").
Proof.
  eexists. split; [vm_compute; reflexivity|].
  apply (root_only_index_is_the_root_matcher
           {| repository.rootDir := "/repo"; repository.matchers := _ |});
    [reflexivity|reflexivity|reflexivity| |reflexivity].
  intros e [<-|[<-|[<-|[]]]]; done.
Defined.

(** ** The accessors of the repository index *)

Lemma Clean_last_plain (a e : string) :
  plainElem e = true -> strings.mem "/" e = false ->
  strings.HasSuffix (filepath.Clean (a +:+ "/" +:+ e)) e = true.
Proof.
  intros He Hs.
  assert (a +:+ "/" +:+ e <> "") as Hne.
  { destruct a; [done|by rewrite app_cons]. }
  destruct (Clean_elems _ Hne) as (_ & _ & ->).
  rewrite Split_slash_app, (Split_whole e) by done.
  rewrite cleanElems_app.
  set (X := filepath.cleanElems _ (strings.Split a "/") []).
  assert (filepath.cleanElems (strings.HasPrefix (a +:+ "/" +:+ e) "/") [e] (rev X)
          = X ++ [e]) as ->.
  { simpl. unfold plainElem in He.
    apply andb_true_iff in He as [->%negb_true_iff ->%negb_true_iff].
    simpl. by rewrite rev_involutive. }
  assert (exists s, strings.Join (X ++ [e]) "/" = s +:+ e) as [s Hj].
  { destruct X as [|x l]; [by exists ""|].
    rewrite (Join_app (x :: l) [e] "/") by done.
    exists (strings.Join (x :: l) "/" +:+ "/"). by rewrite app_assoc_s. }
  destruct (strings.HasPrefix _ "/").
  - rewrite Hj, <-app_assoc_s. apply HasSuffix_app.
  - destruct (X ++ [e]) as [|y l] eqn:E; [by destruct X|].
    rewrite Hj. apply HasSuffix_app.
Qed.

(** X25: [IgnoreFilePaths] lists a path that ends with the name .gitignore
    for each directory of the index whose path from the root can be
    computed, the name alone for the root; when the root and the
    directories are absolute paths it lists as many paths as
    [IgnoreFileCount] counts. *)
Theorem ignore_file_paths (rm : repository.RepositoryMatcher) :
  (forall p, In p (IgnoreFilePaths rm) -> strings.HasSuffix p ".gitignore" = true) /\
  (is_Some (rm.(repository.matchers) !! RootDir rm) ->
   In ".gitignore" (IgnoreFilePaths rm)) /\
  length (IgnoreFilePaths rm) <= IgnoreFileCount rm /\
  (filepath.IsAbs (RootDir rm) = true ->
   (forall dir, is_Some (rm.(repository.matchers) !! dir) -> filepath.IsAbs dir = true) ->
   length (IgnoreFilePaths rm) = IgnoreFileCount rm).
Proof.
  unfold IgnoreFilePaths, IgnoreFileCount, RootDir.
  assert (forall dir, is_Some (rm.(repository.matchers) !! dir) <->
            In dir (map fst (map_to_list rm.(repository.matchers)))) as Hkeys.
  { intros dir. rewrite <-list_elem_of_In, list_elem_of_fmap. split.
    - intros [m Hm]. exists (dir, m). split; [done|].
      by apply elem_of_map_to_list.
    - intros ([d m] & -> & Hm%elem_of_map_to_list). by exists m. }
  assert (length (map fst (map_to_list rm.(repository.matchers))) =
          size rm.(repository.matchers)) as Hsize.
  { by rewrite length_map, length_map_to_list. }
  rewrite <-Hsize.
  set (keys := map fst (map_to_list rm.(repository.matchers))) in *.
  clearbody keys. clear Hsize.
  split; [|split; [|split]].
  - intros p (dir & _ & Hp)%in_flat_map. unfold ignoreFilePath in Hp.
    destruct (filepath.Rel _ dir) as [relDir|]; [|done].
    destruct (String.eqb relDir "."); destruct Hp as [<-|[]]; [done|].
    unfold filepath.Join.
    destruct (String.eqb relDir "") eqn:E; simpl; [done|].
    by apply Clean_last_plain.
  - intros Hroot%Hkeys. apply in_flat_map. exists (repository.rootDir rm).
    split; [done|]. unfold ignoreFilePath, filepath.Rel.
    rewrite String.eqb_refl. by left.
  - clear Hkeys. induction keys as [|dir l IH]; [done|]. simpl.
    rewrite length_app. unfold ignoreFilePath at 1.
    destruct (filepath.Rel _ dir) as [relDir|]; [|simpl; lia].
    destruct (String.eqb relDir "."); simpl; lia.
  - intros Hroot Habs.
    assert (forall dir, In dir keys -> filepath.IsAbs dir = true) as Hall
      by (intros dir Hin; by apply Habs, Hkeys).
    clear Hkeys Habs. induction keys as [|dir l IH]; [done|]. simpl.
    rewrite length_app, IH by (intros; apply Hall; by right).
    unfold ignoreFilePath.
    destruct (Rel_rooted (repository.rootDir rm) dir) as [r ->];
      [done|by apply Hall; left|].
    by destruct (String.eqb r ".").
Qed.

Lemma ignore_file_paths_witness :
  exists m,
    NewPatternMatcher ["*.log"] = Ok m /\
    In ".gitignore"
      (IgnoreFilePaths
         {| repository.rootDir := "/repo";
            repository.matchers := {[ "/repo" := m; "/repo/docs" := m ]} |}).
Proof.
  eexists. split; [vm_compute; reflexivity|].
  eapply (proj1 (proj2 (ignore_file_paths _))).
  unfold RootDir. simpl. rewrite lookup_insert_eq. by eexists.
Defined.

(** ** Backslashes in a pattern *)

Lemma ReplaceAll_idem (s : string) (old new : ascii) :
  old <> new ->
  strings.ReplaceAll (strings.ReplaceAll s old new) old new =
  strings.ReplaceAll s old new.
Proof.
  intros Hne%Ascii.eqb_neq. induction s as [|c t IH]; [done|]. simpl.
  rewrite IH. destruct (Ascii.eqb c old) eqn:E; [|by rewrite E].
  by rewrite Ascii.eqb_sym, Hne.
Qed.

Lemma isSpace_separator (c : ascii) :
  strings.isSpace (if Ascii.eqb c backslash then "/"%char else c) = strings.isSpace c.
Proof. destruct (Ascii.eqb c backslash) eqn:E; [|done]. by apply Ascii.eqb_eq in E as ->. Qed.

Lemma TrimLeft_ReplaceAll (s : string) :
  strings.TrimLeft (strings.ReplaceAll s backslash "/") =
  strings.ReplaceAll (strings.TrimLeft s) backslash "/".
Proof.
  induction s as [|c t IH]; [done|]. simpl.
  rewrite isSpace_separator. by destruct (strings.isSpace c).
Qed.

Lemma TrimRight_ReplaceAll (s : string) :
  strings.TrimRight (strings.ReplaceAll s backslash "/") =
  strings.ReplaceAll (strings.TrimRight s) backslash "/".
Proof.
  induction s as [|c t IH]; [done|]. simpl. rewrite IH, isSpace_separator.
  destruct (strings.TrimRight t); simpl; [by destruct (strings.isSpace c)|done].
Qed.

Lemma TrimSpace_ReplaceAll (s : string) :
  strings.TrimSpace (strings.ReplaceAll s backslash "/") =
  strings.ReplaceAll (strings.TrimSpace s) backslash "/".
Proof.
  unfold strings.TrimSpace. by rewrite TrimLeft_ReplaceAll, TrimRight_ReplaceAll.
Qed.

Lemma compileBody_ReplaceAll (i : nat) (pat : string) (neg : bool) :
  compileBody i (strings.ReplaceAll pat backslash "/") neg = compileBody i pat neg.
Proof. unfold compileBody. by rewrite ReplaceAll_idem. Qed.

Lemma HasPrefix_cons (c d : ascii) (t : string) :
  strings.HasPrefix (String c t) (String d "") = Ascii.eqb c d.
Proof. unfold strings.HasPrefix. by rewrite andb_true_r. Qed.

Lemma compileLine_ReplaceAll (i : nat) (line : string) :
  strings.HasPrefix (strings.TrimSpace line) (String backslash "") = false ->
  compileLine i (strings.ReplaceAll line backslash "/") = compileLine i line.
Proof.
  unfold compileLine, stripNegation. rewrite TrimSpace_ReplaceAll.
  destruct (strings.TrimSpace line) as [|c t]; [done|].
  rewrite HasPrefix_cons. intros Hc.
  change (strings.ReplaceAll (String c t) backslash "/")
    with (String (if Ascii.eqb c backslash then "/"%char else c)
            (strings.ReplaceAll t backslash "/")).
  rewrite Hc. change (String.eqb (String c ?s) "") with false.
  rewrite !orb_false_l, !HasPrefix_cons.
  assert (forall u, strings.HasPrefix (String c u) (String backslash "!") = false)
    as Hesc.
  { intros u. apply not_true_is_false. intros [v [= -> _]]%HasPrefix_spec.
    by rewrite Ascii.eqb_refl in Hc. }
  rewrite !Hesc.
  destruct (Ascii.eqb c "#"); [done|].
  destruct (Ascii.eqb c "!").
  - simpl String.length.
    assert (String.length (strings.ReplaceAll t backslash "/") = String.length t)
      as ->.
    { clear. induction t as [|d u IH]; [done|]. simpl. by rewrite IH. }
    destruct (_ =? 1); [done|]. simpl strings.drop.
    apply compileBody_ReplaceAll.
  - rewrite <-(compileBody_ReplaceAll i (String c t) false).
    simpl strings.ReplaceAll. by rewrite Hc.
Qed.

(** X26: a backslash in a pattern line is a path separator, never an
    escape, unless it is the first character of the line: a pattern list
    none of whose lines starts with a backslash and the list with every
    backslash turned into a slash give the same result. *)
Theorem backslash_is_a_separator (patterns : list string) :
  (forall line, In line patterns ->
     strings.HasPrefix (strings.TrimSpace line) (String backslash "") = false) ->
  NewPatternMatcher (map (fun line => strings.ReplaceAll line backslash "/") patterns) =
  NewPatternMatcher patterns.
Proof.
  intros Hl. unfold NewPatternMatcher, buildIgnorePatterns.
  assert (forall i acc,
            buildLoop i (map (fun line => strings.ReplaceAll line backslash "/")
                           patterns) acc =
            buildLoop i patterns acc) as ->; [|done].
  induction patterns as [|line rest IH]; intros i acc; [done|]. simpl.
  rewrite compileLine_ReplaceAll by (apply Hl; by left).
  destruct (compileLine i line); [|done|]; apply IH; intros; apply Hl; by right.
Qed.

Lemma backslash_is_a_separator_witness :
  NewPatternMatcher
    (map (fun line => strings.ReplaceAll line backslash "/")
       [String.append "src" (String backslash "*.txt")]) =
  NewPatternMatcher [String.append "src" (String backslash "*.txt")].
Proof.
  apply backslash_is_a_separator. intros line [<-|[]]. reflexivity.
Defined.

(** ** An ignore file below the root *)

Lemma plainName_plain (l : list string) :
  Forall (fun e => plainName e = true) l -> Forall (fun e => plainElem e = true) l.
Proof.
  intros H. eapply List.Forall_impl; [|exact H].
  by intros e [? _]%andb_true_iff.
Qed.

Lemma plainName_no_slash (l : list string) :
  Forall (fun e => plainName e = true) l ->
  forall e, In e l -> strings.mem "/" e = false.
Proof.
  intros Hl e He. apply (proj1 (List.Forall_forall _ _) Hl) in He.
  by apply andb_true_iff in He as [_ ?%negb_true_iff].
Qed.

Lemma plainName_of (l : list string) :
  Forall (fun e => plainElem e = true) l ->
  (forall e, In e l -> strings.mem "/" e = false) ->
  Forall (fun e => plainName e = true) l.
Proof.
  intros Hp Hs. apply List.Forall_forall. intros e He. unfold plainName.
  rewrite (proj1 (List.Forall_forall _ _) Hp e He), (Hs e He). done.
Qed.

Lemma Split_rooted (P : list string) :
  Forall (fun e => plainName e = true) P -> P <> [] ->
  strings.Split ("/" +:+ strings.Join P "/") "/" = "" :: P.
Proof.
  intros HP Hne.
  change (strings.Split ("/" +:+ strings.Join P "/") "/")
    with ("" :: strings.Split (strings.Join P "/") "/").
  rewrite (Split_Join P "/"); [done..|]. by apply plainName_no_slash.
Qed.

Lemma cleanElems_rooted_plain (P : list string) :
  Forall (fun e => plainName e = true) P ->
  filepath.cleanElems true (strings.Split ("/" +:+ strings.Join P "/") "/") [] = P.
Proof.
  intros HP. destruct P as [|x l]; [done|].
  rewrite Split_rooted by done.
  change (filepath.cleanElems true ("" :: x :: l) [])
    with (filepath.cleanElems true (x :: l) []).
  rewrite cleanElems_plain; [done|]. by apply plainName_plain.
Qed.

(** A cleaned rooted path followed by names is a cleaned path. *)
Lemma Clean_below (P L : list string) :
  Forall (fun e => plainName e = true) P ->
  Forall (fun e => plainName e = true) L -> L <> [] ->
  filepath.Clean (("/" +:+ strings.Join P "/") +:+ "/" +:+ strings.Join L "/") =
  "/" +:+ strings.Join (P ++ L) "/".
Proof.
  intros HP HL Hne.
  destruct (Clean_rooted (("/" +:+ strings.Join P "/") +:+ "/" +:+ strings.Join L "/"))
    as (_ & _ & ->); [done|].
  rewrite Split_slash_app, cleanElems_app, cleanElems_rooted_plain by done.
  rewrite (Split_Join L "/") by (try done; by apply plainName_no_slash).
  rewrite cleanElems_plain by by apply plainName_plain.
  by rewrite rev_involutive.
Qed.

Lemma Clean_rooted_plain (P : list string) :
  Forall (fun e => plainName e = true) P ->
  filepath.Clean ("/" +:+ strings.Join P "/") = "/" +:+ strings.Join P "/".
Proof.
  intros HP. destruct (Clean_rooted ("/" +:+ strings.Join P "/")) as (_ & _ & ->);
    [done|].
  by rewrite cleanElems_rooted_plain.
Qed.

Lemma Join_dir (P : list string) (name : string) :
  Forall (fun e => plainName e = true) P -> plainName name = true ->
  filepath.Join ("/" +:+ strings.Join P "/") name =
  "/" +:+ strings.Join (P ++ [name]) "/".
Proof.
  intros HP Hn. unfold filepath.Join.
  change (negb (String.eqb ("/" +:+ strings.Join P "/") "")) with true.
  cbv iota. apply (Clean_below P [name]); [done| |done].
  by constructor.
Qed.

Lemma dirsBelow_cons (cur part : string) (rest : list string) :
  repository.dirsBelow cur (part :: rest) =
  filepath.Join cur part :: repository.dirsBelow (filepath.Join cur part) rest.
Proof. done. Qed.

(** The directories [RepositoryMatcher.Matches] walks through. *)
Lemma dirsBelow_names (D : list string) :
  forall P rest,
    Forall (fun e => plainName e = true) P ->
    Forall (fun e => plainName e = true) D -> D <> [] ->
    In ("/" +:+ strings.Join (P ++ D) "/")
       (repository.dirsBelow ("/" +:+ strings.Join P "/") (D ++ rest)).
Proof.
  induction D as [|d D' IH]; intros P rest HP HD Hne; [done|].
  apply Forall_cons in HD as [Hd HD'].
  change ((d :: D') ++ rest) with (d :: (D' ++ rest)).
  rewrite dirsBelow_cons, Join_dir by done.
  destruct D' as [|d' D'']; [by left|]. right.
  replace (P ++ d :: d' :: D'') with ((P ++ [d]) ++ d' :: D'')
    by by rewrite <-app_assoc.
  apply IH; [|done|done]. apply Forall_app. split; [done|by constructor].
Qed.

Lemma Join_longer (P D : list string) :
  Forall (fun e => plainName e = true) (P ++ D) -> D <> [] ->
  strings.Join (P ++ D) "/" <> strings.Join P "/".
Proof.
  intros H Hne. apply Forall_app in H as [HP HD].
  assert (strings.Join D "/" <> "") as HjD
    by (apply Join_plain_not_empty; [done|by apply plainName_plain]).
  destruct P as [|x l]; [done|].
  rewrite (Join_app (x :: l) D "/") by done.
  intros E%(f_equal String.length). rewrite !length_app_s in E.
  simpl in E. lia.
Qed.

(** The path from a directory to a path below it. *)
Lemma Rel_below (P X : list string) :
  Forall (fun e => plainName e = true) P ->
  Forall (fun e => plainName e = true) X -> X <> [] ->
  filepath.Rel ("/" +:+ strings.Join P "/") ("/" +:+ strings.Join (P ++ X) "/") =
  Some (strings.Join X "/").
Proof.
  intros HP HX Hne.
  assert (Forall (fun e => plainName e = true) (P ++ X)) as HPX
    by by apply Forall_app.
  unfold filepath.Rel. rewrite !Clean_rooted_plain by done. cbv zeta.
  assert (String.eqb ("/" +:+ strings.Join (P ++ X) "/")
            ("/" +:+ strings.Join P "/") = false) as ->.
  { apply String.eqb_neq. intros [= E]. by apply Join_longer in E. }
  change (String.eqb ("/" +:+ strings.Join P "/") ".") with false. cbv iota.
  change (strings.HasPrefix ("/" +:+ ?s) "/") with true.
  change (negb (Bool.eqb true true)) with false. cbv iota.
  rewrite !elements_rooted
    by (try (by apply plainName_plain); by apply plainName_no_slash).
  change ("" :: P ++ X) with (("" :: P) ++ X).
  rewrite dropCommon_prefix. by destruct X.
Qed.

(** The result for an index that holds one matcher. *)
Lemma fold_single_key (rm : repository.RepositoryMatcher) (m : PatternMatcher)
    (key absPath relPath matchPath : string) (dirs : list string) :
  rm.(repository.matchers) = {[ key := m ]} ->
  levelPath rm absPath relPath key = Some matchPath ->
  In key dirs ->
  fold_left (repository.applyLevel rm absPath relPath) dirs false =
  Matches m matchPath.
Proof.
  intros Hm Hp.
  assert (forall dir matched,
            matched = false \/ matched = Matches m matchPath ->
            (dir = key /\
             repository.applyLevel rm absPath relPath matched dir =
             Matches m matchPath) \/
            (dir <> key /\
             repository.applyLevel rm absPath relPath matched dir = matched))
    as Hstep.
  { intros dir matched Hmatched. unfold repository.applyLevel. rewrite Hm.
    destruct (decide (dir = key)) as [->|Hd].
    - left. split; [done|]. rewrite lookup_singleton_eq.
      unfold levelPath in Hp. rewrite Hp.
      rewrite MatchesWithTracking_unfold, Matches_unfold.
      rewrite Matches_unfold in Hmatched.
      destruct (trivialPath matchPath); [by destruct Hmatched|].
      destruct (existsb _ _) eqn:Ex; [done|].
      rewrite matchesInternal_decision in *. unfold decision in *.
      apply lastMatched_None in Ex. rewrite Ex in *. by destruct Hmatched.
    - right. by rewrite lookup_singleton_ne. }
  assert (forall l matched,
            matched = Matches m matchPath ->
            fold_left (repository.applyLevel rm absPath relPath) l matched =
            Matches m matchPath) as Hrest.
  { induction l as [|dir l IH]; intros matched Hv; [done|]. simpl.
    apply IH. destruct (Hstep dir matched) as [[_ H]|[_ H]]; [by right|done|].
    by rewrite H. }
  induction dirs as [|dir l IH]; [done|]. intros Hin. simpl.
  destruct (Hstep dir false) as [[_ H]|[Hd H]]; [by left| |].
  - rewrite H. by apply Hrest.
  - rewrite H. destruct Hin as [?|Hin]; [done|]. by apply IH.
Qed.

(** X27: the patterns of an ignore file in a directory below the root see
    the paths below that directory, relative to it: for an index that
    holds the matcher of the directory D only, the path D/X gets the
    answer this matcher gives for X. *)
Theorem nested_ignore_file_sees_relative_paths
    (rm : repository.RepositoryMatcher) (m : PatternMatcher) (D X : list string) :
  filepath.Clean rm.(repository.rootDir) = rm.(repository.rootDir) ->
  filepath.IsAbs rm.(repository.rootDir) = true ->
  Forall (fun e => plainName e = true) D -> D <> [] ->
  Forall (fun e => plainName e = true) X -> X <> [] ->
  rm.(repository.matchers) =
    {[ filepath.Join rm.(repository.rootDir) (strings.Join D "/") := m ]} ->
  repository.Matches rm (strings.Join (D ++ X) "/") =
  Ok (Matches m (strings.Join X "/")).
Proof.
  intros Hclean Hroot HD HDne HX HXne Hm. unfold filepath.IsAbs in Hroot.
  destruct (Clean_rooted _ Hroot) as (HE & HnoE & HC).
  set (E := filepath.cleanElems true
              (strings.Split (repository.rootDir rm) "/") []) in *.
  rewrite Hclean in HC. clearbody E.
  assert (Forall (fun e => plainName e = true) E) as HE' by by apply plainName_of.
  assert (Forall (fun e => plainName e = true) (D ++ X)) as HDX
    by by apply Forall_app.
  assert (Forall (fun e => plainName e = true) (E ++ D)) as HED
    by by apply Forall_app.
  assert (D ++ X <> []) as HDXne by by destruct D.
  set (path := strings.Join (D ++ X) "/").
  assert (path <> "") as Hne
    by (apply Join_plain_not_empty; [done|by apply plainName_plain]).
  assert (strings.HasPrefix path "/" = false) as Hrel.
  { unfold path. destruct (D ++ X) as [|x l] eqn:El; [done|].
    apply Forall_cons in HDX as [Hx _]. apply andb_true_iff in Hx as [Hx Hs].
    apply Join_no_leading_slash; [by apply plain_not_empty|].
    by apply negb_true_iff in Hs. }
  assert (filepath.Clean (repository.rootDir rm +:+ "/" +:+ path) =
          "/" +:+ strings.Join (E ++ D ++ X) "/") as HA.
  { rewrite HC at 1. by apply Clean_below. }
  assert (filepath.Join (repository.rootDir rm) (strings.Join D "/") =
          "/" +:+ strings.Join (E ++ D) "/") as HK.
  { unfold filepath.Join.
    assert (String.eqb (repository.rootDir rm) "" = false) as ->
      by by apply String.eqb_neq, rooted_not_empty.
    change (negb false) with true. cbv iota. rewrite HC at 1.
    by apply Clean_below. }
  rewrite HK in Hm.
  assert (repository.Matches rm path =
          Ok (fold_left
                (repository.applyLevel rm
                   ("/" +:+ strings.Join (E ++ D ++ X) "/") path)
                (repository.rootDir rm ::
                 repository.dirsBelow (repository.rootDir rm)
                   (take (length (D ++ X) - 1) (D ++ X)))
                false)) as ->.
  { unfold repository.Matches, filepath.IsAbs.
    apply String.eqb_neq in Hne. rewrite Hne, Hrel. unfold filepath.Join.
    assert (String.eqb (repository.rootDir rm) "" = false) as ->
      by by apply String.eqb_neq, rooted_not_empty.
    change (negb false) with true. cbv iota. rewrite Clean_idem, HA.
    assert (strings.HasPrefix ("/" +:+ strings.Join (E ++ D ++ X) "/")
              (repository.rootDir rm) = true) as ->.
    { apply HasPrefix_spec.
      exists ((match E with [] => "" | _ :: _ => "/" end) +:+
              strings.Join (D ++ X) "/").
      rewrite HC.
      destruct E as [|x l] eqn:EE; [done|]. rewrite <-EE in *.
      rewrite (Join_app E (D ++ X) "/") by (rewrite ?EE; done).
      by rewrite !app_assoc_s. }
    change (negb true) with false. cbv iota.
    assert (filepath.Rel (repository.rootDir rm)
              ("/" +:+ strings.Join (E ++ D ++ X) "/") = Some path) as ->.
    { rewrite HC at 1. by apply Rel_below. }
    unfold filepath.ToSlash, path.
    rewrite (Split_Join (D ++ X) "/") by (try done; by apply plainName_no_slash).
    done. }
  f_equal.
  apply (fold_single_key rm m ("/" +:+ strings.Join (E ++ D) "/")); [done| |].
  - unfold levelPath.
    assert (String.eqb ("/" +:+ strings.Join (E ++ D) "/") (repository.rootDir rm)
            = false) as ->.
    { apply String.eqb_neq. rewrite HC at 1. intros [= H].
      by apply Join_longer in H. }
    rewrite app_assoc, Rel_below by done. done.
  - right. rewrite HC at 1.
    assert (take (length (D ++ X) - 1) (D ++ X) = D ++ take (length X - 1) X) as ->.
    { rewrite length_app.
      replace (length D + length X - 1) with (length D + (length X - 1))
        by (destruct X; [done|simpl; lia]).
      by rewrite take_app_add. }
    by apply dirsBelow_names.
Qed.

Lemma nested_ignore_file_sees_relative_paths_witness :
  exists m, NewPatternMatcher ["/*.md"] = Ok m /\
    repository.Matches
      {| repository.rootDir := "/repo";
         repository.matchers := {[ "/repo/docs/api" := m ]} |}
      (strings.Join (["docs"; "api"] ++ ["index.md"]) "/") =
    Ok (Matches m (strings.Join ["index.md"] "/")).
Proof.
  eexists. split; [vm_compute; reflexivity|].
  apply (nested_ignore_file_sees_relative_paths
           {| repository.rootDir := "/repo"; repository.matchers := _ |});
    try reflexivity; try done; by repeat constructor.
Defined.

(** ** Escaped characters *)

Lemma translate_escape (c : ascii) (rest : string) :
  translate 0 (String backslash (String c rest)) =
  (if isRegexMetaChar c then String backslash (String c "") else String c "") +:+
  translate 0 rest.
Proof. by rewrite translate_unfold. Qed.

Lemma parse_escape (c : ascii) (t : string) stack cur rep :
  parse 0 stack cur rep
    ((if isRegexMetaChar c then String backslash (String c "") else String c "")
     +:+ t) =
  parse 0 stack (Lit c :: cur) false t.
Proof. destruct c as [[] [] [] [] [] [] [] []]; reflexivity. Qed.

Lemma parse_escapeEach (s : string) :
  forall stack cur rep,
    parse 0 stack cur rep (translate 0 (escapeEach s) +:+ "$") =
    parse 0 stack (EndText :: rev (map Lit (list_ascii_of_string s)) ++ cur) false "".
Proof.
  induction s as [|c t IH]; intros stack cur rep; [done|].
  change (escapeEach (String c t)) with (String backslash (String c (escapeEach t))).
  rewrite translate_escape, app_assoc_s, parse_escape, IH.
  simpl. by rewrite <-app_assoc.
Qed.

Lemma globWord_chars (P s : string) :
  globWord (map GLit (list_ascii_of_string P)) s <-> s = P.
Proof.
  rewrite <-(app_nil_r (map GLit _)), globWord_literals. simpl. split.
  - intros (t & -> & ->). by rewrite app_empty_r.
  - intros ->. exists "". by rewrite app_empty_r.
Qed.

(** X28: a backslash in the pattern [BuildRegex] is given makes the next
    character literal, whatever it is: the predicate of an ASCII text
    with a backslash before each of its characters matches that text
    only. *)
Theorem escaped_characters_are_literal (s : string) :
  isASCII s = true -> s <> "" ->
  exists re,
    BuildRegex (escapeEach s) = Some re /\
    forall t, MatchString re t = true <-> t = s.
Proof.
  intros _ Hne.
  exists (BeginText :: map globNode (map GLit (list_ascii_of_string s)) ++ [EndText]).
  split.
  - unfold BuildRegex.
    assert (String.eqb (escapeEach s) "" = false) as -> by by destruct s.
    unfold Compile, regexString. simpl. rewrite parse_escapeEach. simpl.
    by rewrite rev_app_distr, rev_involutive, map_map.
  - intros t. by rewrite MatchString_globs, globWord_chars.
Qed.

Lemma escaped_characters_are_literal_witness :
  exists re, BuildRegex (escapeEach "a*[b") = Some re /\
    MatchString re "a*[b" = true /\ MatchString re "aXX[b" = false.
Proof.
  destruct (escaped_characters_are_literal "a*[b") as (re & H1 & H2);
    [reflexivity|done|].
  exists re. split; [exact H1|]. split; [by apply H2|].
  apply not_true_is_false. by intros ?%H2.
Defined.

(** ** Bracket expressions *)

Lemma alnum_not_special (c : ascii) :
  isAlnum c = true ->
  c <> "^"%char /\ c <> "["%char /\ c <> "]"%char /\ c <> backslash.
Proof. destruct c as [[] [] [] [] [] [] [] []]; done. Qed.

Lemma literalBody_cons (c : ascii) (rest : string) :
  literalBody (String c rest) = true ->
  (escaped c = true \/ ordinary c = true) /\ literalBody rest = true.
Proof.
  unfold literalBody. rewrite ContainsAny_cons.
  intros [[Hc Hw]%negb_true_iff%orb_false_iff (Hb & Hs & Hp)%plainBody_cons]%andb_true_iff.
  rewrite Hw, Hp. split; [|done].
  destruct (not_wild c Hc) as [Hn1 Hn2].
  destruct (char_cases c) as [->|[->|[->|[->|[H|H]]]]]; auto; done.
Qed.

Lemma literalBody_plain (body : string) :
  literalBody body = true ->
  strings.ContainsAny body "*?" = false /\ plainBody body = true.
Proof. by intros [?%negb_true_iff ?]%andb_true_iff. Qed.

Lemma translate_literal_app (P rest : string) :
  literalBody P = true ->
  translate 0 (P +:+ rest) = translate 0 P +:+ translate 0 rest.
Proof.
  induction P as [|c t IH]; [done|].
  intros [[Hc|Hc] Ht]%literalBody_cons; rewrite app_cons.
  - rewrite !translate_escaped by done. rewrite IH by done. by rewrite !app_cons.
  - rewrite !translate_ordinary by done. rewrite IH by done. by rewrite !app_cons.
Qed.

Lemma parse_literal_prefix (P : string) :
  forall t stack cur,
    literalBody P = true ->
    parse 0 stack cur false (translate 0 P +:+ t) =
    parse 0 stack (rev (map Lit (list_ascii_of_string P)) ++ cur) false t.
Proof.
  induction P as [|c u IH]; intros t stack cur; [done|].
  intros [[Hc|Hc] Hu]%literalBody_cons.
  - rewrite translate_escaped by done.
    rewrite !app_cons, parse_escaped by done.
    rewrite IH by done. simpl. by rewrite <-app_assoc.
  - rewrite translate_ordinary by done.
    rewrite !app_cons, parse_ordinary by done.
    rewrite IH by done. simpl. by rewrite <-app_assoc.
Qed.

Lemma Index_cons (c d : ascii) (t : string) :
  strings.Index (String c t) (String d "") =
  if Ascii.eqb c d then Some 0 else option_map S (strings.Index t (String d "")).
Proof. simpl. by rewrite HasPrefix_cons. Qed.

Lemma translate_range (lo hi : ascii) (rest : string) :
  lo <> "]"%char -> hi <> "]"%char ->
  translate 0 (String "[" (String lo (String "-" (String hi (String "]" rest))))) =
  String "[" (String lo (String "-" (String hi (String "]" (translate 0 rest))))).
Proof.
  intros Hlo%Ascii.eqb_neq Hhi%Ascii.eqb_neq. rewrite translate_unfold.
  change (Ascii.eqb "[" "*") with false. change (Ascii.eqb "[" "?") with false.
  change (Ascii.eqb "[" "[") with true. cbv iota.
  unfold writeCharClass. rewrite !Index_cons, Hlo, Hhi.
  change (Ascii.eqb "-" "]") with false. change (Ascii.eqb "]" "]") with true.
  done.
Qed.

Lemma parseClass_first (c : ascii) (t : string) :
  c <> "^"%char ->
  parseClass (String c t) =
  match classLoop 0 true [] 0 (String c t) with
  | Some (items, n) => Some (Class false items, n)
  | None => None
  end.
Proof. destruct c as [[] [] [] [] [] [] [] []]; done. Qed.

Lemma namedClass_other (c : ascii) (t : string) :
  c <> "["%char -> namedClass c t = None.
Proof. destruct c as [[] [] [] [] [] [] [] []]; done. Qed.

Lemma classChar_other (c : ascii) (t : string) :
  c <> backslash -> classChar c t = Some (c, 0).
Proof. intros H%Ascii.eqb_neq. unfold classChar. by rewrite H. Qed.

(** The parser on a bracket expression with one range. *)
Lemma parseClass_range (lo hi : ascii) (t : string) :
  isAlnum lo = true -> isAlnum hi = true ->
  parseClass (String lo (String "-" (String hi (String "]" t)))) =
  if (nat_of_ascii hi <? nat_of_ascii lo)%nat then None
  else Some (Class false [CRange lo hi], 4).
Proof.
  intros (Hl1 & Hl2 & Hl3 & Hl4)%alnum_not_special
         (Hh1 & Hh2 & Hh3 & Hh4)%alnum_not_special.
  rewrite parseClass_first by done.
  change (classLoop 0 true [] 0 (String lo (String "-" (String hi (String "]" t)))))
    with (if Ascii.eqb lo "]" && negb true then Some (rev [], 1)
          else
            match namedClass lo (String "-" (String hi (String "]" t))) with
            | Some None => None
            | Some (Some (items, len)) =>
                classLoop len false (rev items ++ []) 1
                  (String "-" (String hi (String "]" t)))
            | None =>
                match classChar lo (String "-" (String hi (String "]" t))) with
                | None => None
                | Some (lo', used) =>
                    match strings.drop used (String "-" (String hi (String "]" t))) with
                    | String "-" (String d t'') =>
                        if Ascii.eqb d "]"
                        then classLoop used false (CRange lo' lo' :: []) 1
                               (String "-" (String hi (String "]" t)))
                        else
                          match classChar d t'' with
                          | None => None
                          | Some (hi', used') =>
                              if (nat_of_ascii hi' <? nat_of_ascii lo')%nat then None
                              else classLoop (used + 2 + used') false
                                     (CRange lo' hi' :: []) 1
                                     (String "-" (String hi (String "]" t)))
                          end
                    | _ => classLoop used false (CRange lo' lo' :: []) 1
                             (String "-" (String hi (String "]" t)))
                    end
                end
            end).
  rewrite andb_false_r, namedClass_other, classChar_other by done.
  change (strings.drop 0 (String "-" (String hi (String "]" t))))
    with (String "-" (String hi (String "]" t))).
  cbv iota beta.
  apply Ascii.eqb_neq in Hh3. rewrite Hh3, classChar_other by done.
  destruct (nat_of_ascii hi <? nat_of_ascii lo)%nat; [done|].
  reflexivity.
Qed.

Lemma parse_range (lo hi : ascii) (t : string) stack cur rep :
  isAlnum lo = true -> isAlnum hi = true ->
  parse 0 stack cur rep
    (String "[" (String lo (String "-" (String hi (String "]" t))))) =
  if (nat_of_ascii hi <? nat_of_ascii lo)%nat then None
  else parse 0 stack (Class false [CRange lo hi] :: cur) false t.
Proof.
  intros Hlo Hhi.
  change (parse 0 stack cur rep
            (String "[" (String lo (String "-" (String hi (String "]" t))))))
    with (match parseClass (String lo (String "-" (String hi (String "]" t)))) with
          | Some (cls, n) =>
              parse n stack (cls :: cur) false
                (String lo (String "-" (String hi (String "]" t))))
          | None => None
          end).
  rewrite parseClass_range by done.
  by destruct (nat_of_ascii hi <? nat_of_ascii lo)%nat.
Qed.

Lemma regexString_range (P : string) (lo hi : ascii) (S : string) :
  isAlnum lo = true -> isAlnum hi = true ->
  literalBody P = true -> literalBody S = true ->
  Compile (regexString (rangeBody P lo hi S)) =
  if (nat_of_ascii hi <? nat_of_ascii lo)%nat then None
  else Some (BeginText :: map globNode (map GLit (list_ascii_of_string P)) ++
             Class false [CRange lo hi] ::
             map globNode (globOf 0 S) ++ [EndText]).
Proof.
  intros Hlo Hhi HP HS.
  destruct (alnum_not_special lo Hlo) as (_ & _ & Hl & _).
  destruct (alnum_not_special hi Hhi) as (_ & _ & Hh & _).
  unfold Compile, regexString, rangeBody.
  rewrite translate_literal_app, translate_range by done.
  change (parse 0 [] [] false ("^" +:+ ?s)) with (parse 0 [] [BeginText] false s).
  rewrite app_assoc_s, parse_literal_prefix by done.
  rewrite !app_cons, parse_range by done.
  destruct (nat_of_ascii hi <? nat_of_ascii lo)%nat; [done|].
  rewrite (parse_translate (String.length S))
    by (try done; by apply literalBody_plain).
  simpl. rewrite !rev_app_distr. simpl. rewrite !rev_app_distr, !rev_involutive.
  simpl. rewrite map_map. by rewrite <-!app_assoc.
Qed.

Lemma MatchString_range (P : string) (lo hi : ascii) (gs : list glob) (t : string) :
  MatchString
    (BeginText :: map globNode (map GLit (list_ascii_of_string P)) ++
     Class false [CRange lo hi] :: map globNode gs ++ [EndText]) t = true <->
  exists c v, t = P +:+ String c v /\ inRange c lo hi = true /\ globWord gs v.
Proof.
  rewrite MatchString_anchored, matchAt_true. unfold run. split.
  - intros (q & (p1 & Hp1 & Hq)%in_run_cons).
    simpl in Hp1. destruct Hp1 as [<-|[]].
    apply in_run_app in Hq as (p2 & (u & Hu & ->%globWord_chars)%globs_sound & Hq).
    apply in_run_cons in Hq as (p3 & (d & Hd & Hin & _)%in_oneChar & Hq).
    apply in_run_app in Hq as (p4 & (v & Hv & Hw)%globs_sound & Hq).
    apply in_run_cons in Hq as (p5 & Hp5 & _). simpl in Hp5.
    destruct p4 as [b [|??]]; simpl in *; [|done].
    exists d, v. rewrite app_empty_r in Hv. rewrite orb_false_r in Hin.
    split; [|done]. by rewrite Hu, Hd, Hv.
  - intros (c & v & -> & Hc & Hw).
    destruct (globs_complete (map GLit (list_ascii_of_string P)) P
                (proj2 (globWord_chars P P) eq_refl) true (String c v)) as [b1 Hb1].
    destruct (globs_complete gs v Hw false "") as [b2 Hb2].
    rewrite app_empty_r in Hb2.
    exists (b2, ""). apply in_run_cons. exists (true, P +:+ String c v).
    split; [by left|].
    apply in_run_app. exists (b1, String c v). split; [done|].
    apply in_run_cons. exists (false, v). split.
    + apply in_oneChar. exists c. split; [done|]. split; [|done].
      unfold inClass. simpl. by rewrite Hc.
    + apply in_run_app. exists (b2, ""). split; [done|].
      apply in_run_cons. exists (b2, ""). split; by left.
Qed.

(** X29: a bracket expression with one range of letters or digits stands for
    one character of the range: the predicate of P[lo-hi]S, P and S
    literal ASCII texts, matches the texts P c S with c from lo to hi and no other;
    when the bounds are reversed [BuildRegex] fails. *)
Theorem bracket_range_matches_one_character
    (P : string) (lo hi : ascii) (S : string) :
  isAlnum lo = true -> isAlnum hi = true ->
  isASCII P = true -> isASCII S = true ->
  literalBody P = true -> literalBody S = true ->
  (nat_of_ascii hi < nat_of_ascii lo -> BuildRegex (rangeBody P lo hi S) = None) /\
  (nat_of_ascii lo <= nat_of_ascii hi ->
   exists re,
     BuildRegex (rangeBody P lo hi S) = Some re /\
     forall t,
       MatchString re t = true <->
       exists c, t = P +:+ String c S /\
                 nat_of_ascii lo <= nat_of_ascii c <= nat_of_ascii hi).
Proof.
  intros Hlo Hhi _ _ HP HS.
  assert (BuildRegex (rangeBody P lo hi S) =
          Compile (regexString (rangeBody P lo hi S))) as ->.
  { unfold BuildRegex.
    assert (String.eqb (rangeBody P lo hi S) "" = false) as ->; [|done].
    unfold rangeBody. destruct P; [done|by rewrite app_cons]. }
  rewrite regexString_range by done. split.
  - intros H%Nat.ltb_lt. by rewrite H.
  - intros H. apply Nat.ltb_ge in H. rewrite H. eexists. split; [done|].
    intros t. rewrite MatchString_range. apply literalBody_plain in HS as [HS _].
    split.
    + intros (c & v & -> & [H1%Nat.leb_le H2%Nat.leb_le]%andb_true_iff
              & ->%globWord_literal); [|done].
      by exists c.
    + intros (c & -> & H1 & H2). exists c, S. split; [done|]. split.
      * unfold inRange. apply andb_true_iff. by split; apply Nat.leb_le.
      * by apply globWord_literal.
Qed.

Lemma bracket_range_matches_one_character_witness :
  exists re,
    BuildRegex (rangeBody "file" "0" "9" ".txt") = Some re /\
    MatchString re "file7.txt" = true /\
    BuildRegex (rangeBody "file" "9" "0" ".txt") = None.
Proof.
  destruct (bracket_range_matches_one_character "file" "0" "9" ".txt")
    as [_ H]; [reflexivity..|].
  destruct H as (re & H1 & H2); [vm_compute; lia|].
  exists re. split; [exact H1|]. split.
  - apply H2. exists "7"%char. split; [reflexivity|vm_compute; lia].
  - apply (bracket_range_matches_one_character "file" "9" "0" ".txt");
      [reflexivity..|vm_compute; lia].
Defined.
